(** * Ticket-sales backend: order lifecycle, seat inventory and sessions

    A shallow embedding of the order tools ([createOrderTool],
    [manageOrderTool]), of the route handlers that drive them
    ([/api/create-order], [/api/create-ticket-order],
    [/webhooks/telegram/action]), of the Telegram notification service and
    of the in-memory admin sessions, followed by the properties of the
    order lifecycle proved about them.

    Conventions of the embedding.
    - Asynchronous functions are run to completion one after the other; an
      [await] is a sequencing point.  A function that can raise is a
      computation in the monad [M], whose outcome is a value or a raised
      exception, and which threads the world [World] (database, Telegram
      outbox, random source, fault oracles).
    - PostgreSQL is an external service.  Its tables are lists of rows in
      table order; a statement that the server or the connection rejects
      is a fault, decided by the oracle [db_fault] on the number of the
      call, so that a property quantified over all worlds holds for every
      pattern of database errors.
    - Text is a [string] holding UTF-8; [js_length] counts UTF-16 code
      units the way JavaScript's [length] does.
    - Logger calls have no effect on results and are left out. *)

From Stdlib Require Import ZArith QArith Qround Lia Ascii String.
From stdpp Require Import base numbers option list strings pretty gmap.

Close Scope Q_scope.
Open Scope string_scope.
Open Scope list_scope.
Open Scope Z_scope.

(** ** JavaScript values and the string operations the handlers use *)

Module Js.

Definition byte_of (c : ascii) : Z := Z.of_N (N_of_ascii c).

(** [s.length]: the number of UTF-16 code units of [s].  A UTF-8
    continuation byte adds nothing, a lead byte of a one-, two- or
    three-byte sequence adds one unit and the lead byte of a four-byte
    sequence adds a surrogate pair. *)
Fixpoint js_length (s : string) : Z :=
  match s with
  | EmptyString => 0
  | String c r =>
      let b := byte_of c in
      (if b <? 128 then 1 else if b <? 192 then 0 else if b <? 240 then 1 else 2)
      + js_length r
  end.

(** White space and line terminators of ECMAScript, as UTF-8 byte
    sequences: TAB, LF, VT, FF, CR, SP; U+00A0; U+1680, U+2000..U+200A,
    U+2028, U+2029, U+202F, U+205F, U+3000, U+FEFF. *)
Definition ws1 (a : Z) : bool :=
  (a =? 9) || (a =? 10) || (a =? 11) || (a =? 12) || (a =? 13) || (a =? 32).

Definition ws2 (a b : Z) : bool := (a =? 194) && (b =? 160).

Definition ws3 (a b c : Z) : bool :=
  ((a =? 225) && (b =? 154) && (c =? 128))
  || ((a =? 226) && (b =? 128) && ((128 <=? c) && (c <=? 138)))
  || ((a =? 226) && (b =? 128) && ((c =? 168) || (c =? 169) || (c =? 175)))
  || ((a =? 226) && (b =? 129) && (c =? 159))
  || ((a =? 227) && (b =? 128) && (c =? 128))
  || ((a =? 239) && (b =? 187) && (c =? 191)).

(** Strips white space from the front of [s]; with [back] set, [s] is a
    reversed string and the byte sequences are matched back to front. *)
Fixpoint strip (back : bool) (s : string) : string :=
  match s with
  | EmptyString => s
  | String a r1 =>
      if ws1 (byte_of a) then strip back r1 else
      match r1 with
      | EmptyString => s
      | String b r2 =>
          if (if back then ws2 (byte_of b) (byte_of a)
              else ws2 (byte_of a) (byte_of b))
          then strip back r2 else
          match r2 with
          | EmptyString => s
          | String c r3 =>
              if (if back then ws3 (byte_of c) (byte_of b) (byte_of a)
                  else ws3 (byte_of a) (byte_of b) (byte_of c))
              then strip back r3 else s
          end
      end
  end.

Definition trimStart (s : string) : string := strip false s.

Definition trimEnd (s : string) : string :=
  String.rev (strip true (String.rev s)).

(** [s.trim()] *)
Definition trim (s : string) : string := trimEnd (trimStart s).

(** [s.charAt(i)]: the empty string outside the string. *)
Definition charAt (s : string) (i : Z) : string :=
  if i <? 0 then ""
  else match String.get (Z.to_nat i) s with
       | Some c => String c EmptyString
       | None => ""
       end.

(** [s.split(sep)] for a separator of one character, the piece being read
    held in [cur]. *)
Fixpoint split_go (sep : ascii) (s cur : string) : list string :=
  match s with
  | EmptyString => [cur]
  | String c r =>
      if Ascii.eqb c sep then cur :: split_go sep r ""
      else split_go sep r (cur +:+ String c EmptyString)
  end.

Definition split (sep : ascii) (s : string) : list string := split_go sep s "".

(** [n.toString(36).toUpperCase()] for an integer [n]. *)
Definition digit36 (d : N) : ascii :=
  ascii_of_N (if (d <? 10)%N then 48 + d else 55 + d)%N.

Fixpoint base36_go (fuel : nat) (n : N) (acc : string) : string :=
  match fuel with
  | O => acc
  | S fuel' =>
      if (n =? 0)%N then acc
      else base36_go fuel' (n / 36)%N (String (digit36 (n mod 36)%N) acc)
  end.

Definition toString36 (n : Z) : string :=
  if n =? 0 then "0"
  else (if n <? 0 then "-" else "")
       +:+ base36_go (S (N.size_nat (Z.abs_N n))) (Z.abs_N n) "".

(** [s.startsWith(p)] *)
Definition startsWith (p s : string) : bool := String.prefix p s.

(** JSON values as [JSON.parse] yields them, and [undefined].  [JNum z]
    is a number whose value is the integer [z], of magnitude below
    10^21, which JavaScript prints in plain decimal notation; fractional
    numbers are outside the model.  An object is the list of its own
    properties. *)
#[warnings="-register-all"] Inductive JsVal : Type :=
| JUndefined
| JNull
| JBool (b : bool)
| JNum (z : Z)
| JStr (s : string)
| JArr (l : list JsVal)
| JObj (fields : list (string * JsVal)).

(** Truthiness ([!v] is its negation). *)
Definition truthy (v : JsVal) : bool :=
  match v with
  | JUndefined | JNull => false
  | JBool b => b
  | JNum z => negb (z =? 0)
  | JStr s => negb (String.eqb s "")
  | JArr _ | JObj _ => true
  end.

Inductive JsType := TUndefined | TObject | TBoolean | TNumber | TString.

Global Instance JsType_eq_dec : EqDecision JsType.
Proof. solve_decision. Defined.

Definition typeof (v : JsVal) : JsType :=
  match v with
  | JUndefined => TUndefined
  | JNull | JArr _ | JObj _ => TObject
  | JBool _ => TBoolean
  | JNum _ => TNumber
  | JStr _ => TString
  end.

(** [String(v)], the conversion [parseInt] applies to its argument. *)
Fixpoint toString (v : JsVal) : string :=
  match v with
  | JUndefined => "undefined"
  | JNull => "null"
  | JBool true => "true"
  | JBool false => "false"
  | JNum z => pretty z
  | JStr s => s
  | JArr l =>
      (fix join (l : list JsVal) : string :=
         match l with
         | [] => ""
         | x :: r =>
             let sx := match x with
                       | JUndefined | JNull => ""
                       | _ => toString x
                       end in
             match r with
             | [] => sx
             | _ :: _ => sx +:+ "," +:+ join r
             end
         end) l
  | JObj _ => "[object Object]"
  end.

Definition digit_of (c : ascii) : option Z :=
  let b := byte_of c in
  if (48 <=? b) && (b <=? 57) then Some (b - 48) else None.

Definition hex_digit_of (c : ascii) : option Z :=
  let b := byte_of c in
  if (48 <=? b) && (b <=? 57) then Some (b - 48)
  else if (97 <=? b) && (b <=? 102) then Some (b - 87)
  else if (65 <=? b) && (b <=? 70) then Some (b - 55)
  else None.

(** The longest prefix of digits of [s] in the given radix, read as a
    number continuing [acc]; [seen] records whether a digit was read. *)
Fixpoint digits (radix : Z) (dig : ascii -> option Z) (s : string)
    (seen : bool) (acc : Z) : option Z :=
  match s with
  | EmptyString => if seen then Some acc else None
  | String c r =>
      match dig c with
      | Some d => digits radix dig r true (acc * radix + d)
      | None => if seen then Some acc else None
      end
  end.

(** [parseInt(s)] on a string, radix argument absent: leading white
    space is skipped, then an optional sign, then [0x] or [0X] selects
    radix 16, then the longest prefix of digits is read.  [None] is
    [NaN].  (The value is exact; JavaScript rounds integers above 2^53,
    which no comparison made by the handlers can observe.) *)
Definition parseInt_string (s : string) : option Z :=
  let s1 := trimStart s in
  let '(neg, s2) :=
    match s1 with
    | String "-" r => (true, r)
    | String "+" r => (false, r)
    | _ => (false, s1)
    end in
  let mag :=
    match s2 with
    | String "0" (String "x" r) | String "0" (String "X" r) =>
        digits 16 hex_digit_of r false 0
    | _ => digits 10 digit_of s2 false 0
    end in
  match mag with
  | Some m => Some (if neg then - m else m)
  | None => None
  end.

(** [parseInt(v)] *)
Definition parseInt (v : JsVal) : option Z := parseInt_string (toString v).

(** [o.name] for a property that no prototype defines: reading it off
    [null] or [undefined] raises a TypeError ([None]); off any other
    value that does not have it, it gives [undefined]. *)
Fixpoint assoc (name : string) (fields : list (string * JsVal)) : JsVal :=
  match fields with
  | [] => JUndefined
  | (k, v) :: r => if String.eqb k name then v else assoc name r
  end.

Definition getProp (o : JsVal) (name : string) : option JsVal :=
  match o with
  | JUndefined | JNull => None
  | JObj fields => Some (assoc name fields)
  | _ => Some JUndefined
  end.

End Js.

(** ** The database

    The tables the order lifecycle reads and writes, with the columns the
    code names.  The schema itself is not part of the sources: no key or
    foreign-key constraint is assumed, a table is the list of its rows and
    a [WHERE] clause selects every row that matches. *)

Module Db.

Record Category := { cat_id : Z; cat_name_ru : string }.

Record City := { city_id : Z; city_name : string }.

Record Event := {
  ev_id : Z;
  ev_name : string;
  ev_date : option string;
  ev_time : option string;
  ev_price : Z;
  ev_available_seats : Z;
  ev_category_id : option Z;
  ev_city_id : option Z;
  ev_slug : option string;
  ev_admin_id : option Z
}.

Record Order := {
  o_id : Z;
  o_order_code : string;
  o_event_id : option Z;
  o_event_template_id : option Z;
  o_link_code : option string;
  o_admin_id : option Z;
  o_customer_name : string;
  o_customer_phone : string;
  o_customer_email : option string;
  o_telegram_chat_id : option string;
  o_telegram_username : option string;
  o_seats_count : Z;
  o_total_price : Z;
  o_status : string;
  o_payment_status : option string;
  o_tickets_json : option string
}.

Record EventTemplate := {
  et_id : Z;
  et_name : string;
  et_category_id : option Z
}.

Record GeneratedLink := {
  gl_link_code : string;
  gl_event_date : option string;
  gl_event_time : option string;
  gl_city_id : option Z
}.

Record RefundLink := {
  rf_refund_code : string;
  rf_amount : Z;
  rf_status : string;
  rf_customer_name : option string;
  rf_refund_number : option string;
  rf_processed_at : option Z
}.

Record Tables := {
  events : list Event;
  categories : list Category;
  cities : list City;
  orders : list Order;
  event_templates : list EventTemplate;
  generated_links : list GeneratedLink;
  refund_links : list RefundLink
}.

Definition set_events (l : list Event) (d : Tables) : Tables :=
  {| events := l; categories := categories d; cities := cities d;
     orders := orders d; event_templates := event_templates d;
     generated_links := generated_links d; refund_links := refund_links d |}.

Definition set_orders (l : list Order) (d : Tables) : Tables :=
  {| events := events d; categories := categories d; cities := cities d;
     orders := l; event_templates := event_templates d;
     generated_links := generated_links d; refund_links := refund_links d |}.

Definition set_refund_links (l : list RefundLink) (d : Tables) : Tables :=
  {| events := events d; categories := categories d; cities := cities d;
     orders := orders d; event_templates := event_templates d;
     generated_links := generated_links d; refund_links := l |}.

(** [col = $1] for a nullable column: never true on NULL. *)
Definition col_is (c : option Z) (v : Z) : bool :=
  match c with Some x => x =? v | None => false end.

(** [a.col = b.id] as a join condition on a nullable column. *)
Definition col_str_is (c : option string) (v : string) : bool :=
  match c with Some x => String.eqb x v | None => false end.

Definition set_available_seats (n : Z) (e : Event) : Event :=
  {| ev_id := ev_id e; ev_name := ev_name e; ev_date := ev_date e;
     ev_time := ev_time e; ev_price := ev_price e; ev_available_seats := n;
     ev_category_id := ev_category_id e; ev_city_id := ev_city_id e;
     ev_slug := ev_slug e; ev_admin_id := ev_admin_id e |}.

(** [UPDATE events SET available_seats = available_seats + delta
    WHERE id = eid]; [eid] is NULL when the parameter is. *)
Definition add_seats (delta : Z) (eid : option Z) (d : Tables) : Tables :=
  set_events
    (map (fun e => if col_is eid (ev_id e)
                   then set_available_seats (ev_available_seats e + delta) e
                   else e)
         (events d)) d.

Definition set_order_status (st : string) (pay : option string) (o : Order) : Order :=
  {| o_id := o_id o; o_order_code := o_order_code o; o_event_id := o_event_id o;
     o_event_template_id := o_event_template_id o; o_link_code := o_link_code o;
     o_admin_id := o_admin_id o;
     o_customer_name := o_customer_name o; o_customer_phone := o_customer_phone o;
     o_customer_email := o_customer_email o;
     o_telegram_chat_id := o_telegram_chat_id o;
     o_telegram_username := o_telegram_username o;
     o_seats_count := o_seats_count o; o_total_price := o_total_price o;
     o_status := st;
     o_payment_status := match pay with Some p => Some p | None => o_payment_status o end;
     o_tickets_json := o_tickets_json o |}.

(** [UPDATE orders SET status = st (, payment_status = pay) WHERE id = oid] *)
Definition update_order_status (st : string) (pay : option string) (oid : Z)
    (d : Tables) : Tables :=
  set_orders
    (map (fun o => if o_id o =? oid then set_order_status st pay o else o)
         (orders d)) d.

(** [INSERT INTO orders ...]: the new row goes to the end of the table. *)
Definition insert_order (o : Order) (d : Tables) : Tables :=
  set_orders (orders d ++ [o]) d.

End Db.

(** ** The world and the monad of effects *)

(** The environment variables the code reads. *)
Record Env := {
  DATABASE_URL : option string;
  BOT_TOKEN : option string;
  ADMIN_CHAT_ID : option string;
  GROUP_ID : option string
}.

(** The two tools keep a connection pool each, in a variable of their
    module. *)
Inductive Tool := ToolCreateOrder | ToolManageOrder.

Global Instance Tool_eq_dec : EqDecision Tool.
Proof. solve_decision. Defined.

(** [OrderNotificationData] *)
Record OrderNotificationData := {
  n_orderId : Z;
  n_orderCode : string;
  n_eventName : string;
  n_eventDate : string;
  n_eventTime : string;
  n_cityName : string;
  n_customerName : string;
  n_customerPhone : string;
  n_customerEmail : option string;
  n_seatsCount : Z;
  n_totalPrice : Z;
  n_tickets : Js.JsVal
}.

(** The data the webhook hands to the refund notifications. *)
Record RefundNotificationData := {
  rn_refundCode : string;
  rn_amount : Z;
  rn_customerName : option string;
  rn_refundNumber : option string
}.

(** A text sent through the bot, given by the template that renders it
    and the data it is rendered from. *)
Inductive Message :=
| ChannelOrderMessage (o : OrderNotificationData)
| AdminOrderMessage (o : OrderNotificationData)
| RefundApprovedMessage (r : RefundNotificationData)
| RefundRejectedMessage (r : RefundNotificationData)
| RefundStatusMessage (approved : bool) (refundCode : string) (amount : Z)
    (timestamp : Z).

(** A call made to the Telegram Bot API. *)
Inductive TgCall :=
| SendMessage (chat : string) (m : Message)
| AnswerCallbackQuery (query : Js.JsVal) (text : string)
| EditMessageText (chat message : Js.JsVal) (m : Message).

Inductive Error :=
  DbError | TelegramError | TypeError | ReferenceError | SyntaxError.

(** What the program does not decide: the environment, the behaviour of
    the services it calls and the draws of the random source.  A run never
    changes it. *)
Record Config := {
  env : Env;
  (** the calls to the database that fail, by call number *)
  db_fault : nat -> bool;
  (** whether [new Pool] raises *)
  pool_ctor_fails : bool;
  (** the draws of [Math.random()] *)
  random : nat -> Q;
  (** whether [new TelegramBot] raises *)
  bot_ctor_fails : bool;
  (** [escapeMarkdown], which the notification service calls: the
      function, if the program has one.  The service declares it further
      down in the same module ([Markdown.escapeMarkdown] below), so the
      program always has it; what is proved holds in both cases. *)
  escapeMarkdown : option (string -> string);
  (** the calls to the Bot API that fail, by call number *)
  tg_fault : nat -> bool
}.

(** The database as the program's connection sees it. *)
Record Conn := {
  (** committed contents of the tables *)
  db : Db.Tables;
  (** contents as seen by the client inside its open transaction, if any *)
  tx : option Db.Tables;
  (** last value drawn from the sequence behind [orders.id]; a sequence
      is not transactional *)
  order_seq : Z;
  (** calls made to the database so far *)
  db_calls : nat
}.

(** The bot cached in [bot], the calls made to the Bot API so far and
    those that went through. *)
Record Telegram := {
  bot : bool;
  tg_calls : nat;
  outbox : list TgCall
}.

Record World := {
  config : Config;
  conn : Conn;
  (** the pools cached in the module variables [pool] of the tools *)
  pool : Tool -> bool;
  (** [Date.now()], in milliseconds *)
  clock : Z;
  (** draws made from [Math.random()] so far *)
  random_calls : nat;
  telegram : Telegram;
  (** [adminSessionTokens] *)
  adminSessionTokens : gmap string Z
}.

Definition set_conn (c : Conn) (w : World) : World :=
  {| config := config w; conn := c; pool := pool w; clock := clock w;
     random_calls := random_calls w; telegram := telegram w;
     adminSessionTokens := adminSessionTokens w |}.

Definition set_pool (t : Tool) (w : World) : World :=
  {| config := config w; conn := conn w;
     pool := fun t' => if decide (t' = t) then true else pool w t';
     clock := clock w; random_calls := random_calls w; telegram := telegram w;
     adminSessionTokens := adminSessionTokens w |}.

Definition set_clock (t : Z) (w : World) : World :=
  {| config := config w; conn := conn w; pool := pool w; clock := t;
     random_calls := random_calls w; telegram := telegram w;
     adminSessionTokens := adminSessionTokens w |}.

Definition set_random_calls (n : nat) (w : World) : World :=
  {| config := config w; conn := conn w; pool := pool w; clock := clock w;
     random_calls := n; telegram := telegram w;
     adminSessionTokens := adminSessionTokens w |}.

Definition set_telegram (t : Telegram) (w : World) : World :=
  {| config := config w; conn := conn w; pool := pool w; clock := clock w;
     random_calls := random_calls w; telegram := t;
     adminSessionTokens := adminSessionTokens w |}.

Definition set_adminSessionTokens (m : gmap string Z) (w : World) : World :=
  {| config := config w; conn := conn w; pool := pool w; clock := clock w;
     random_calls := random_calls w; telegram := telegram w;
     adminSessionTokens := m |}.

Inductive Outcome (A : Type) : Type :=
| Ok (a : A)
| Throw (e : Error).
Arguments Ok {A} a.
Arguments Throw {A} e.

Definition M (A : Type) : Type := World -> Outcome A * World.

Definition ret {A} (a : A) : M A := fun w => (Ok a, w).

Definition throw {A} (e : Error) : M A := fun w => (Throw e, w).

Definition bind {A B} (m : M A) (k : A -> M B) : M B :=
  fun w => match m w with
           | (Ok a, w') => k a w'
           | (Throw e, w') => (Throw e, w')
           end.

Notation "x <- m ;; k" := (bind m (fun x => k))
  (at level 100, m at next level, right associativity).
Notation "m ;;; k" := (bind m (fun _ => k))
  (at level 100, right associativity).

(** [try { m } catch (e) { h e }] *)
Definition try_catch {A} (m : M A) (h : Error -> M A) : M A :=
  fun w => match m w with
           | (Ok a, w') => (Ok a, w')
           | (Throw e, w') => h e w'
           end.

(** [try { m } finally { f }], for a [finally] block that cannot raise. *)
Definition try_finally {A} (m : M A) (f : World -> World) : M A :=
  fun w => let '(r, w') := m w in (r, f w').

(** ** Calls to the database *)

(** The tables a statement sees and writes: those of the open transaction
    if there is one, the committed ones otherwise (a statement outside a
    transaction commits on its own). *)
Definition view (c : Conn) : Db.Tables :=
  match tx c with Some d => d | None => db c end.

Definition put_view (d : Db.Tables) (c : Conn) : Conn :=
  match tx c with
  | Some _ => {| db := db c; tx := Some d; order_seq := order_seq c;
                 db_calls := db_calls c |}
  | None => {| db := d; tx := None; order_seq := order_seq c;
               db_calls := db_calls c |}
  end.

Definition set_tx (t : option Db.Tables) (c : Conn) : Conn :=
  {| db := db c; tx := t; order_seq := order_seq c; db_calls := db_calls c |}.

(** The connection after one more call. *)
Definition called (c : Conn) : Conn :=
  {| db := db c; tx := tx c; order_seq := order_seq c;
     db_calls := S (db_calls c) |}.

(** Every call to the server takes the next call number; the oracle says
    whether it raises, in which case it has no effect. *)
Definition db_call {A} (f : Conn -> A * Conn) : M A :=
  fun w =>
    let c := called (conn w) in
    if db_fault (config w) (db_calls (conn w)) then (Throw DbError, set_conn c w)
    else (Ok (f c).1, set_conn (f c).2 w).

(** [client.query(stmt)] and [pool.query(stmt)] for a statement that reads
    and writes tables. *)
Definition query {A} (stmt : Db.Tables -> A * Db.Tables) : M A :=
  db_call (fun c => ((stmt (view c)).1, put_view (stmt (view c)).2 c)).

(** [INSERT ... RETURNING id]: the id comes from the sequence. *)
Definition query_insert (row : Z -> Db.Order) : M Z :=
  db_call (fun c =>
    let id := order_seq c + 1 in
    (id, put_view (Db.insert_order (row id) (view c))
           {| db := db c; tx := tx c; order_seq := id; db_calls := db_calls c |})).

Definition query_begin : M unit :=
  db_call (fun c => (tt, set_tx (Some (db c)) c)).

Definition query_commit : M unit :=
  db_call (fun c => (tt, match tx c with
                         | Some d => {| db := d; tx := None;
                                        order_seq := order_seq c;
                                        db_calls := db_calls c |}
                         | None => c
                         end)).

Definition query_rollback : M unit :=
  db_call (fun c => (tt, set_tx None c)).

(** [dbPool.connect()] *)
Definition pool_connect : M unit := db_call (fun c => (tt, c)).

(** [client.release()]: the client goes back to the pool.  A transaction
    it still has open (its ROLLBACK raised, the connection is broken) is
    aborted by the server and never committed. *)
Definition client_release (w : World) : World :=
  set_conn (set_tx None (conn w)) w.

(** [getPool]: the cached pool, or a new one when DATABASE_URL is set.
    Both tools define it, each over its own [pool]. *)
Definition getPool (t : Tool) : M bool :=
  fun w =>
    if pool w t then (Ok true, w)
    else match DATABASE_URL (env (config w)) with
         | None | Some "" => (Ok false, w)
         | Some _ =>
             if pool_ctor_fails (config w) then (Ok false, w)
             else (Ok true, set_pool t w)
         end.

(** ** createOrderTool *)

Module CreateOrder.

(** [Math.random()] *)
Definition math_random : M Q :=
  fun w =>
    (Ok (random (config w) (random_calls w)),
     set_random_calls (S (random_calls w)) w).

Definition chars : string := "ABCDEFGHIJKLMNOPQRSTUVWXYZ0123456789".

(** [Math.floor(Math.random() * chars.length)], the product taken
    exactly. *)
Definition random_index (r : Q) : Z :=
  Qfloor (r * inject_Z (Z.of_nat (String.length chars))).

(** The loop of [generateOrderCode] with [n] rounds to go. *)
Fixpoint generate_loop (n : nat) (code : string) : M string :=
  match n with
  | O => ret code
  | S n' =>
      r <- math_random ;;
      generate_loop n' (code +:+ Js.charAt chars (random_index r))
  end.

Definition generateOrderCode : M string :=
  code <- generate_loop 8 "" ;;
  ret ("ORD-" +:+ code).


(** [withTransaction(dbPool, fn)] *)
Definition withTransaction {T} (fn : M T) : M T :=
  pool_connect ;;;
  try_finally
    (try_catch
       (query_begin ;;;
        result <- fn ;;
        query_commit ;;;
        ret result)
       (fun error => query_rollback ;;; throw error))
    client_release.

Record Context := {
  eventId : Z;
  customerName : string;
  customerPhone : string;
  customerEmail : option string;
  seatsCount : Z;
  totalPrice : option Z;
  telegramChatId : option string;
  telegramUsername : option string
}.

Record Result := {
  success : bool;
  orderCode : option string;
  orderId : option Z;
  eventName : option string;
  eventDate : option string;
  eventTime : option string;
  cityName : option string;
  r_customerName : option string;
  r_customerPhone : option string;
  r_customerEmail : option string;
  r_seatsCount : option Z;
  r_totalPrice : option Z;
  message : string
}.

Definition failure (msg : string) : Result :=
  {| success := false; orderCode := None; orderId := None; eventName := None;
     eventDate := None; eventTime := None; cityName := None;
     r_customerName := None; r_customerPhone := None; r_customerEmail := None;
     r_seatsCount := None; r_totalPrice := None; message := msg |}.

(** A row of the first query: the event with the names of its category
    and city. *)
Record EventRow := {
  event : Db.Event;
  category_name : string;
  city_name : string
}.

(** [SELECT e.*, c.name_ru as category_name, ci.name as city_name
     FROM events e JOIN categories c ON e.category_id = c.id
                   JOIN cities ci ON e.city_id = ci.id
     WHERE e.id = $1 FOR UPDATE].
    The row lock of FOR UPDATE does nothing to a client that runs
    alone, which is how the tool is run here. *)
Definition select_event (eid : Z) (d : Db.Tables) : list EventRow :=
  e ← filter (fun e => Db.ev_id e = eid) (Db.events d);
  c ← filter (fun c => Db.col_is (Db.ev_category_id e) (Db.cat_id c) = true)
             (Db.categories d);
  ci ← filter (fun ci => Db.col_is (Db.ev_city_id e) (Db.city_id ci) = true)
              (Db.cities d);
  [ {| event := e; category_name := Db.cat_name_ru c;
       city_name := Db.city_name ci |} ].

(** [x || null] on an optional string *)
Definition or_null (x : option string) : option string :=
  match x with
  | Some "" => None
  | _ => x
  end.

Definition new_order (ctx : Context) (code : string) (seats total : Z)
    (id : Z) : Db.Order :=
  {| Db.o_id := id;
     Db.o_order_code := code;
     Db.o_event_id := Some (eventId ctx);
     Db.o_event_template_id := None;
     Db.o_link_code := None;
     Db.o_admin_id := None;
     Db.o_customer_name := customerName ctx;
     Db.o_customer_phone := customerPhone ctx;
     Db.o_customer_email := or_null (customerEmail ctx);
     Db.o_telegram_chat_id := or_null (telegramChatId ctx);
     Db.o_telegram_username := or_null (telegramUsername ctx);
     Db.o_seats_count := seats;
     Db.o_total_price := total;
     Db.o_status := "pending";
     Db.o_payment_status := Some "pending";
     Db.o_tickets_json := None |}.

(** [event.date?.toISOString?.()?.split("T")[0] || String(event.date)];
    the column is held as the day it prints. *)
Definition event_date (e : Db.Event) : string :=
  match Db.ev_date e with
  | Some d => if String.eqb d "" then "null" else d
  | None => "null"
  end.

(** [event.time || "00:00"] *)
Definition event_time (e : Db.Event) : string :=
  match Db.ev_time e with
  | Some t => if String.eqb t "" then "00:00" else t
  | None => "00:00"
  end.

(** [context.seatsCount || 1] *)
Definition seats_of (ctx : Context) : Z :=
  if seatsCount ctx =? 0 then 1 else seatsCount ctx.

(** [context.totalPrice || (parseFloat(event.price) * seatsCount)];
    amounts are whole numbers in the model. *)
Definition total_of (ctx : Context) (e : Db.Event) : Z :=
  match totalPrice ctx with
  | Some p => if p =? 0 then Db.ev_price e * seats_of ctx else p
  | None => Db.ev_price e * seats_of ctx
  end.

(** The result returned for a created order. *)
Definition created (ctx : Context) (row : EventRow) (code : string) (id : Z)
    : Result :=
  {| success := true;
     orderCode := Some code;
     orderId := Some id;
     eventName := Some (Db.ev_name (event row));
     eventDate := Some (event_date (event row));
     eventTime := Some (event_time (event row));
     cityName := Some (city_name row);
     r_customerName := Some (customerName ctx);
     r_customerPhone := Some (customerPhone ctx);
     r_customerEmail := customerEmail ctx;
     r_seatsCount := Some (seats_of ctx);
     r_totalPrice := Some (total_of ctx (event row));
     message := "Заказ " +:+ code
                +:+ " успешно создан! Мероприятие: "
                +:+ Db.ev_name (event row) +:+ ", " +:+ city_name row
                +:+ ". Сумма: " +:+ pretty (total_of ctx (event row))
                +:+ " руб." |}.

Definition not_enough_seats (e : Db.Event) : Result :=
  failure ("Недостаточно мест. Доступно: " +:+ pretty (Db.ev_available_seats e)).

(** The function run inside the transaction. *)
Definition transaction_body (ctx : Context) : M Result :=
  eventResult <- query (fun d => (select_event (eventId ctx) d, d)) ;;
  match eventResult with
  | [] => ret (failure "Мероприятие не найдено")
  | row :: _ =>
      let event := event row in
      let seatsCount := seats_of ctx in
      if Db.ev_available_seats event <? seatsCount then
        ret (not_enough_seats event)
      else
        orderCode <- generateOrderCode ;;
        let totalPrice := total_of ctx event in
        id <- query_insert (new_order ctx orderCode seatsCount totalPrice) ;;
        query (fun d => (tt, Db.add_seats (- seatsCount) (Some (eventId ctx)) d)) ;;;
        ret (created ctx row orderCode id)
  end.

(** [createOrderTool.execute] *)
Definition execute (ctx : Context) : M Result :=
  dbPool <- getPool ToolCreateOrder ;;
  if negb dbPool then
    ret (failure "База данных недоступна. Попробуйте позже.")
  else
    try_catch
      (withTransaction (transaction_body ctx))
      (fun _ => ret (failure "Ошибка при создании заказа. Попробуйте позже.")).

End CreateOrder.


(** ** manageOrderTool

    The actions that work on one order.  ([list_pending], a listing that
    returns before any order is looked up, is not modelled; of the order
    object returned, [createdAt] and [tickets], which echo two columns,
    are left out.)  Every statement goes to the pool: none is part of a
    transaction. *)

Module ManageOrder.

Inductive Action := Get | ConfirmPayment | RejectPayment | Cancel.

Record Context := {
  action : Action;
  orderCode : option string;
  orderId : option Z
}.

(** The order object returned to the caller. *)
Record OrderView := {
  id : Z;
  v_orderCode : string;
  eventName : string;
  categoryName : string;
  cityName : option string;
  eventDate : option string;
  eventTime : option string;
  customerName : string;
  customerPhone : string;
  customerEmail : option string;
  telegramUsername : option string;
  seatsCount : Z;
  totalPrice : Z;
  status : string;
  paymentStatus : option string
}.

Record Result := {
  success : bool;
  order : option OrderView;
  message : string
}.

Definition failure (msg : string) : Result :=
  {| success := false; order := None; message := msg |}.

(** A row of the order queries: the order with the names joined to it. *)
Record OrderRow := {
  row_order : Db.Order;
  event_name : string;
  event_date : option string;
  event_time : option string;
  category_name : string;
  city_name : option string
}.

(** The [WHERE] clause: [o.id = $1] when [context.orderId] is given (and
    not 0), [o.order_code = $1] otherwise. *)
Inductive Where := ById (id : Z) | ByCode (code : string).

Definition matches (wh : Where) (o : Db.Order) : bool :=
  match wh with
  | ById i => Db.o_id o =? i
  | ByCode c => String.eqb (Db.o_order_code o) c
  end.

(** [SELECT o.*, e.name as event_name, e.date::text as event_date,
            e.time::text as event_time, c.name_ru as category_name,
            ci.name as city_name
     FROM orders o JOIN events e ON o.event_id = e.id
                   JOIN categories c ON e.category_id = c.id
                   JOIN cities ci ON e.city_id = ci.id
     WHERE ...] *)
Definition select_order (wh : Where) (d : Db.Tables) : list OrderRow :=
  o ← filter (fun o => matches wh o = true) (Db.orders d);
  e ← filter (fun e => Db.col_is (Db.o_event_id o) (Db.ev_id e) = true)
             (Db.events d);
  c ← filter (fun c => Db.col_is (Db.ev_category_id e) (Db.cat_id c) = true)
             (Db.categories d);
  ci ← filter (fun ci => Db.col_is (Db.ev_city_id e) (Db.city_id ci) = true)
              (Db.cities d);
  [ {| row_order := o; event_name := Db.ev_name e;
       event_date := Db.ev_date e; event_time := Db.ev_time e;
       category_name := Db.cat_name_ru c;
       city_name := Some (Db.city_name ci) |} ].

(** [a LEFT JOIN b ON ...]: the matching rows of [b], or one NULL row. *)
Definition left_join {B} (rows : list B) : list (option B) :=
  match rows with
  | [] => [None]
  | _ => map Some rows
  end.

(** [SELECT o.*, et.name as event_name, gl.event_date::text as event_date,
            gl.event_time::text as event_time, cat.name_ru as category_name,
            ci.name as city_name
     FROM orders o JOIN event_templates et ON o.event_template_id = et.id
                   JOIN categories cat ON et.category_id = cat.id
                   LEFT JOIN generated_links gl ON gl.link_code = o.link_code
                   LEFT JOIN cities ci ON gl.city_id = ci.id
     WHERE ...] *)
Definition select_link_order (wh : Where) (d : Db.Tables) : list OrderRow :=
  o ← filter (fun o => matches wh o = true) (Db.orders d);
  et ← filter (fun et => Db.col_is (Db.o_event_template_id o) (Db.et_id et) = true)
              (Db.event_templates d);
  cat ← filter (fun c => Db.col_is (Db.et_category_id et) (Db.cat_id c) = true)
               (Db.categories d);
  gl ← left_join
         (filter (fun gl => Db.col_str_is (Db.o_link_code o) (Db.gl_link_code gl) = true)
                 (Db.generated_links d));
  ci ← left_join
         (filter (fun ci => Db.col_is (gl ≫= Db.gl_city_id) (Db.city_id ci) = true)
                 (Db.cities d));
  [ {| row_order := o; event_name := Db.et_name et;
       event_date := gl ≫= Db.gl_event_date;
       event_time := gl ≫= Db.gl_event_time;
       category_name := Db.cat_name_ru cat;
       city_name := Db.city_name <$> ci |} ].

(** The order object built from the first row. *)
Definition view_of (row : OrderRow) : OrderView :=
  let o := row_order row in
  {| id := Db.o_id o;
     v_orderCode := Db.o_order_code o;
     eventName := event_name row;
     categoryName := category_name row;
     cityName := city_name row;
     eventDate := event_date row;
     eventTime := event_time row;
     customerName := Db.o_customer_name o;
     customerPhone := Db.o_customer_phone o;
     customerEmail := Db.o_customer_email o;
     telegramUsername := Db.o_telegram_username o;
     seatsCount := Db.o_seats_count o;
     totalPrice := Db.o_total_price o;
     status := Db.o_status o;
     paymentStatus := Db.o_payment_status o |}.

(** [order.status = st] and, when given, [order.paymentStatus = pay] *)
Definition with_status (st : string) (pay : option string) (v : OrderView)
    : OrderView :=
  {| id := id v; v_orderCode := v_orderCode v; eventName := eventName v;
     categoryName := categoryName v; cityName := cityName v;
     eventDate := eventDate v; eventTime := eventTime v;
     customerName := customerName v; customerPhone := customerPhone v;
     customerEmail := customerEmail v; telegramUsername := telegramUsername v;
     seatsCount := seatsCount v; totalPrice := totalPrice v;
     status := st;
     paymentStatus := match pay with Some p => Some p | None => paymentStatus v end |}.

(** [context.orderCode || context.orderId], as the messages print it *)
Definition order_ref (ctx : Context) : string :=
  match orderCode ctx with
  | Some c => if String.eqb c "" then
                match orderId ctx with Some i => pretty i | None => "undefined" end
              else c
  | None => match orderId ctx with Some i => pretty i | None => "undefined" end
  end.

(** The [WHERE] clause of the request; [None] when neither an order code
    nor an order id is given. *)
Definition where_of (ctx : Context) : option Where :=
  match orderId ctx with
  | Some i => if i =? 0 then
                match orderCode ctx with
                | Some c => if String.eqb c "" then None else Some (ByCode c)
                | None => None
                end
              else Some (ById i)
  | None => match orderCode ctx with
            | Some c => if String.eqb c "" then None else Some (ByCode c)
            | None => None
            end
  end.

(** The statement of the order update for each action that has one:
    [UPDATE orders SET payment_status = .., status = .., updated_at = NOW()
     WHERE id = $1]. *)
Definition update_order (st : string) (pay : option string) (oid : Z) : M unit :=
  query (fun d => (tt, Db.update_order_status st pay oid d)).

(** [UPDATE events SET available_seats = available_seats + $1 WHERE id = $2] *)
Definition restore_seats (seats : Z) (eid : option Z) : M unit :=
  query (fun d => (tt, Db.add_seats seats eid d)).

(** The order is looked up among the event orders first and, if it is not
    found there, among the link orders. *)
Definition lookup (wh : Where) : M (list OrderRow) :=
  rows <- query (fun d => (select_order wh d, d)) ;;
  match rows with
  | [] => query (fun d => (select_link_order wh d, d))
  | _ => ret rows
  end.

(** The part of [execute] inside [try]. *)
Definition run (ctx : Context) : M Result :=
  match where_of ctx with
  | None =>
      ret (failure "Код заказа или ID заказа обязателен для этого действия")
  | Some wh =>
      orderResult <- lookup wh ;;
      match orderResult with
      | [] => ret (failure ("Заказ " +:+ order_ref ctx +:+ " не найден"))
      | row :: _ =>
          let order := view_of row in
          match action ctx with
          | Get =>
              ret {| success := true; order := Some order;
                     message := "Заказ " +:+ v_orderCode order +:+ " найден" |}
          | ConfirmPayment =>
              update_order "confirmed" (Some "confirmed") (id order) ;;;
              ret {| success := true;
                     order := Some (with_status "confirmed" (Some "confirmed") order);
                     message := "✅ Оплата заказа " +:+ v_orderCode order
                                +:+ " подтверждена! Клиент: " +:+ customerName order
                                +:+ ", Сумма: " +:+ pretty (totalPrice order)
                                +:+ " руб." |}
          | RejectPayment =>
              update_order "rejected" (Some "rejected") (id order) ;;;
              restore_seats (Db.o_seats_count (row_order row))
                            (Db.o_event_id (row_order row)) ;;;
              ret {| success := true;
                     order := Some (with_status "rejected" (Some "rejected") order);
                     message := "❌ Оплата заказа " +:+ v_orderCode order
                                +:+ " отклонена. Места возвращены в продажу." |}
          | Cancel =>
              update_order "cancelled" None (id order) ;;;
              (if bool_decide (Db.o_payment_status (row_order row) = Some "rejected")
               then ret tt
               else restore_seats (Db.o_seats_count (row_order row))
                                  (Db.o_event_id (row_order row))) ;;;
              ret {| success := true;
                     order := Some (with_status "cancelled" None order);
                     message := "Заказ " +:+ v_orderCode order +:+ " отменён" |}
          end
      end
  end.

(** [manageOrderTool.execute] *)
Definition execute (ctx : Context) : M Result :=
  dbPool <- getPool ToolManageOrder ;;
  if negb dbPool then ret (failure "База данных недоступна")
  else try_catch (run ctx)
                 (fun _ => ret (failure "Ошибка при обработке заказа")).

End ManageOrder.

(** ** The Telegram notification service *)

Module TelegramAdmin.

(** [x] for an environment variable read as a condition: unset and empty
    both count as absent. *)
Definition configured (x : option string) : option string :=
  match x with
  | Some "" => None
  | _ => x
  end.

(** [getBot] *)
Definition getBot : M bool :=
  fun w =>
    match configured (BOT_TOKEN (env (config w))) with
    | None => (Ok false, w)
    | Some _ =>
        if bot (telegram w) then (Ok true, w)
        else if bot_ctor_fails (config w) then (Ok false, w)
        else (Ok true,
              set_telegram {| bot := true; tg_calls := tg_calls (telegram w);
                              outbox := outbox (telegram w) |} w)
    end.

(** A call to the Bot API: it takes the next call number; the oracle says
    whether it raises, and a call that goes through is added to the
    outbox. *)
Definition api (c : TgCall) : M unit :=
  fun w =>
    let t := telegram w in
    if tg_fault (config w) (tg_calls t) then
      (Throw TelegramError,
       set_telegram {| bot := bot t; tg_calls := S (tg_calls t);
                       outbox := outbox t |} w)
    else
      (Ok tt,
       set_telegram {| bot := bot t; tg_calls := S (tg_calls t);
                       outbox := (outbox t ++ [c])%list |} w).

(** [sendChannelNotification] *)
Definition sendChannelNotification (order : OrderNotificationData) : M bool :=
  telegramBot <- getBot ;;
  if negb telegramBot then ret false
  else
    fun w =>
      let targetChatId :=
        match configured (GROUP_ID (env (config w))) with
        | Some g => Some g
        | None => configured (ADMIN_CHAT_ID (env (config w)))
        end in
      match targetChatId with
      | None => ret false w
      | Some chat =>
          try_catch
            (api (SendMessage chat (ChannelOrderMessage order)) ;;; ret true)
            (fun _ => ret false) w
      end.

(** [sendOrderNotificationToAdmin]: the text is built, with
    [escapeMarkdown], before the [try] around the call. *)
Definition sendOrderNotificationToAdmin (order : OrderNotificationData) : M bool :=
  telegramBot <- getBot ;;
  if negb telegramBot then ret false
  else
    fun w =>
      match configured (ADMIN_CHAT_ID (env (config w))) with
      | None => ret false w
      | Some chat =>
          match escapeMarkdown (config w) with
          | None => throw ReferenceError w
          | Some _ =>
              try_catch
                (api (SendMessage chat (AdminOrderMessage order)) ;;; ret true)
                (fun _ => ret false) w
          end
      end.

(** [answerCallbackQuery] *)
Definition answerCallbackQuery (callbackQueryId : Js.JsVal) (text : string)
    : M bool :=
  telegramBot <- getBot ;;
  if negb telegramBot then ret false
  else try_catch (api (AnswerCallbackQuery callbackQueryId text) ;;; ret true)
                 (fun _ => ret false).

(** [sendRefundApprovedNotification] and [sendRefundRejectedNotification] *)
Definition sendRefundNotification (m : Message) : M bool :=
  telegramBot <- getBot ;;
  fun w =>
    match telegramBot, configured (GROUP_ID (env (config w))) with
    | true, Some chat =>
        try_catch (api (SendMessage chat m) ;;; ret true) (fun _ => ret false) w
    | _, _ => ret false w
    end.

Definition sendRefundApprovedNotification (r : RefundNotificationData) : M bool :=
  sendRefundNotification (RefundApprovedMessage r).

Definition sendRefundRejectedNotification (r : RefundNotificationData) : M bool :=
  sendRefundNotification (RefundRejectedMessage r).

End TelegramAdmin.

(** ** The route handlers *)

Module Api.

(** The body of a JSON response. *)
Inductive Body :=
| BodyOrder (r : CreateOrder.Result)
| BodyMessage (success : bool) (message : string)
| BodyTicketOrder (orderCode : string)
| BodyText (text : string).

Record Response := { status : Z; body : Body }.

(** [c.json(x)] answers with status 200 unless told otherwise. *)
Definition json (b : Body) : Response := {| status := 200; body := b |}.

Definition json_status (b : Body) (st : Z) : Response :=
  {| status := st; body := b |}.

(** [Promise.all([a, b])] for two calls written in the array: both are
    started, so both run; the first one that raised, if any, decides. *)
Definition promise_all {A B} (a : M A) (b : M B) : M (A * B) :=
  fun w =>
    let '(ra, w1) := a w in
    let '(rb, w2) := b w1 in
    match ra, rb with
    | Ok x, Ok y => (Ok (x, y), w2)
    | Throw e, _ => (Throw e, w2)
    | Ok _, Throw e => (Throw e, w2)
    end.

(** The notifications sent for a new order, inside their own [try]: what
    they raise is logged and dropped. *)
Definition notify (data : OrderNotificationData) : M unit :=
  try_catch
    (promise_all (TelegramAdmin.sendChannelNotification data)
                 (TelegramAdmin.sendOrderNotificationToAdmin data) ;;;
     ret tt)
    (fun _ => ret tt).

(** [body.name], which raises on a [null] body. *)
Definition prop (o : Js.JsVal) (name : string) : M Js.JsVal :=
  match Js.getProp o name with
  | Some v => ret v
  | None => throw TypeError
  end.

(** [typeof v !== "string" || v.trim().length < n] *)
Definition too_short (v : Js.JsVal) (n : Z) : bool :=
  match v with
  | Js.JStr s => Js.js_length (Js.trim s) <? n
  | _ => true
  end.

(** [v?.trim() || undefined]: [None] is [undefined]; a value that is
    neither absent nor a string has no [trim] to call. *)
Definition optional_trim (v : Js.JsVal) : M (option string) :=
  match v with
  | Js.JUndefined | Js.JNull => ret None
  | Js.JStr s => ret (CreateOrder.or_null (Some (Js.trim s)))
  | _ => throw TypeError
  end.

Definition string_of (v : Js.JsVal) : string :=
  match v with Js.JStr s => s | _ => "" end.

Definition number_of (v : Js.JsVal) : Z :=
  match v with Js.JNum z => z | _ => 0 end.

(** The input validation of [/api/create-order] and the context it builds
    for the tool: a response when the body is turned down, the context
    otherwise. *)
Definition validate (body : Js.JsVal) : M (Response + CreateOrder.Context) :=
  eventId <- prop body "eventId" ;;
  if negb (Js.truthy eventId)
     || negb (bool_decide (Js.typeof eventId = Js.TNumber)) then
    ret (inl (json_status (BodyMessage false "Не указано мероприятие") 400))
  else
  customerName <- prop body "customerName" ;;
  if negb (Js.truthy customerName) || too_short customerName 2 then
    ret (inl (json_status (BodyMessage false "Укажите ваше имя") 400))
  else
  customerPhone <- prop body "customerPhone" ;;
  if negb (Js.truthy customerPhone) || too_short customerPhone 5 then
    ret (inl (json_status (BodyMessage false "Укажите номер телефона") 400))
  else
  rawSeats <- prop body "seatsCount" ;;
  match Js.parseInt rawSeats with
  | None =>
      ret (inl (json_status
                  (BodyMessage false "Количество мест должно быть от 1 до 10") 400))
  | Some seatsCount =>
      if (seatsCount <? 1) || (10 <? seatsCount) then
        ret (inl (json_status
                    (BodyMessage false "Количество мест должно быть от 1 до 10") 400))
      else
        rawEmail <- prop body "customerEmail" ;;
        customerEmail <- optional_trim rawEmail ;;
        rawPrice <- prop body "totalPrice" ;;
        ret (inr {| CreateOrder.eventId := number_of eventId;
                    CreateOrder.customerName := Js.trim (string_of customerName);
                    CreateOrder.customerPhone := Js.trim (string_of customerPhone);
                    CreateOrder.customerEmail := customerEmail;
                    CreateOrder.seatsCount := seatsCount;
                    CreateOrder.totalPrice :=
                      if Js.truthy rawPrice then Js.parseInt rawPrice else None;
                    CreateOrder.telegramChatId := None;
                    CreateOrder.telegramUsername := None |})
  end.

(** [x || d] on an optional string of the result *)
Definition or_default (x : option string) (d : string) : string :=
  match x with
  | Some "" | None => d
  | Some s => s
  end.

Definition notification_of (result : CreateOrder.Result) (id : Z)
    (code : string) (tickets : Js.JsVal) : OrderNotificationData :=
  {| n_orderId := id;
     n_orderCode := code;
     n_eventName := or_default (CreateOrder.eventName result) "Мероприятие";
     n_eventDate := or_default (CreateOrder.eventDate result) "";
     n_eventTime := or_default (CreateOrder.eventTime result) "";
     n_cityName := or_default (CreateOrder.cityName result) "";
     n_customerName := or_default (CreateOrder.r_customerName result) "";
     n_customerPhone := or_default (CreateOrder.r_customerPhone result) "";
     n_customerEmail := CreateOrder.r_customerEmail result;
     n_seatsCount := match CreateOrder.r_seatsCount result with
                     | Some n => if n =? 0 then 1 else n
                     | None => 1
                     end;
     n_totalPrice := match CreateOrder.r_totalPrice result with
                     | Some p => p
                     | None => 0
                     end;
     n_tickets := tickets |}.

(** What the handler does once the body is accepted. *)
Definition place_order (body : Js.JsVal) (ctx : CreateOrder.Context) : M Response :=
  result <- CreateOrder.execute ctx ;;
  (match CreateOrder.success result, CreateOrder.orderId result,
         CreateOrder.orderCode result with
   | true, Some id, Some code =>
       if (id =? 0) || String.eqb code "" then ret tt
       else
         tickets <- prop body "tickets" ;;
         notify (notification_of result id code tickets)
   | _, _, _ => ret tt
   end) ;;;
  ret (json (BodyOrder result)).

(** The handler of [POST /api/create-order]; the request body is [None]
    when it is not JSON. *)
Definition create_order (request : option Js.JsVal) : M Response :=
  try_catch
    (body <- match request with
             | Some b => ret b
             | None => throw SyntaxError
             end ;;
     checked <- validate body ;;
     match checked with
     | inl response => ret response
     | inr ctx => place_order body ctx
     end)
    (fun _ => ret (json_status (BodyMessage false "Ошибка при создании заказа") 500)).

(** *** [POST /api/create-ticket-order]

    The handler reads its body without checking it; the model takes the
    body with its fields at their types.  The statements go to a pool of
    the handler's own, outside any transaction. *)

Record TicketBody := {
  eventSlug : string;
  t_seatsCount : Z;
  t_customerName : string;
  t_customerPhone : string;
  t_customerEmail : option string
}.

(** [SELECT e.id, e.price, e.available_seats, e.admin_id, e.name, e.date,
            e.time, c.name as city_name
     FROM events e LEFT JOIN cities c ON e.city_id = c.id
     WHERE e.slug = $1] *)
Definition select_by_slug (slug : string) (d : Db.Tables)
    : list (Db.Event * option string) :=
  e ← filter (fun e => Db.col_str_is (Db.ev_slug e) slug = true) (Db.events d);
  map (fun ci : option Db.City => (e, Db.city_name <$> ci))
      (ManageOrder.left_join
         (filter (fun ci => Db.col_is (Db.ev_city_id e) (Db.city_id ci) = true)
                 (Db.cities d))).

(** [Date.now()] *)
Definition date_now : M Z := fun w => (Ok (clock w), w).

Section TicketOrder.

(** The value the column [orders.payment_status] takes when an INSERT
    does not give one; the schema is not part of the sources. *)
Variable payment_status_default : option string.

Definition ticket_order_row (b : TicketBody) (e : Db.Event) (code : string)
    (total : Z) (id : Z) : Db.Order :=
  {| Db.o_id := id;
     Db.o_order_code := code;
     Db.o_event_id := Some (Db.ev_id e);
     Db.o_event_template_id := None;
     Db.o_link_code := None;
     Db.o_admin_id := Db.ev_admin_id e;
     Db.o_customer_name := t_customerName b;
     Db.o_customer_phone := t_customerPhone b;
     Db.o_customer_email := t_customerEmail b;
     Db.o_telegram_chat_id := None;
     Db.o_telegram_username := None;
     Db.o_seats_count := t_seatsCount b;
     Db.o_total_price := total;
     Db.o_status := "pending";
     Db.o_payment_status := payment_status_default;
     Db.o_tickets_json := None |}.

Definition create_ticket_order (b : TicketBody) : M Response :=
  try_catch
    (eventResult <- query (fun d => (select_by_slug (eventSlug b) d, d)) ;;
     match eventResult with
     | [] => ret (json (BodyMessage false "Мероприятие не найдено"))
     | (event, city_name) :: _ =>
         if Db.ev_available_seats event <? t_seatsCount b then
           ret (json (BodyMessage false "Недостаточно мест"))
         else
           now <- date_now ;;
           let orderCode := "TK" +:+ Js.toString36 now in
           let totalPrice := Db.ev_price event * t_seatsCount b in
           id <- query_insert (ticket_order_row b event orderCode totalPrice) ;;
           query (fun d => (tt, Db.add_seats (- t_seatsCount b)
                                  (Some (Db.ev_id event)) d)) ;;;
           notify {| n_orderId := id;
                     n_orderCode := orderCode;
                     n_eventName := Db.ev_name event;
                     n_eventDate := CreateOrder.event_date event;
                     n_eventTime := or_default (Db.ev_time event) "";
                     n_cityName := or_default city_name "";
                     n_customerName := t_customerName b;
                     n_customerPhone := t_customerPhone b;
                     n_customerEmail := t_customerEmail b;
                     n_seatsCount := t_seatsCount b;
                     n_totalPrice := totalPrice;
                     n_tickets := Js.JUndefined |} ;;;
           ret (json (BodyTicketOrder orderCode))
     end)
    (fun _ => ret (json_status (BodyMessage false "Ошибка создания заказа") 500)).

End TicketOrder.

(** *** [POST /webhooks/telegram/action], refund callbacks

    The branch taken when the callback data starts with [refund_]; the
    fields read off the callback query are given. *)

Record CallbackQuery := {
  cq_id : Js.JsVal;
  cq_data : string;
  cq_message_id : Js.JsVal;
  cq_chat_id : Js.JsVal
}.

(** [SELECT * FROM refund_links WHERE refund_code = $1]; the parameter is
    NULL when the callback data has no third part. *)
Definition select_refund (code : option string) (d : Db.Tables)
    : list Db.RefundLink :=
  match code with
  | Some c => filter (fun r => Db.rf_refund_code r = c) (Db.refund_links d)
  | None => []
  end.

Definition set_refund_status (st : string) (now : Z) (r : Db.RefundLink)
    : Db.RefundLink :=
  {| Db.rf_refund_code := Db.rf_refund_code r; Db.rf_amount := Db.rf_amount r;
     Db.rf_status := st; Db.rf_customer_name := Db.rf_customer_name r;
     Db.rf_refund_number := Db.rf_refund_number r;
     Db.rf_processed_at := Some now |}.

(** [UPDATE refund_links SET status = $1, processed_at = CURRENT_TIMESTAMP
     WHERE refund_code = $2] *)
Definition update_refund (st : string) (code : option string) (now : Z)
    (d : Db.Tables) : Db.Tables :=
  Db.set_refund_links
    (map (fun r => if bool_decide (Some (Db.rf_refund_code r) = code)
                   then set_refund_status st now r else r)
         (Db.refund_links d)) d.

Definition is_processed (st : string) : bool :=
  String.eqb st "approved" || String.eqb st "rejected".

Definition refund_callback (q : CallbackQuery) : M Response :=
  let parts := Js.split "_" (cq_data q) in
  let refundAction := parts !! 1%nat in
  let refundCode := parts !! 2%nat in
  try_catch
    (refundResult <- query (fun d => (select_refund refundCode d, d)) ;;
     match refundResult with
     | [] =>
         TelegramAdmin.answerCallbackQuery (cq_id q) "❌ Ссылка не найдена" ;;;
         ret tt
     | refund :: _ =>
         if is_processed (Db.rf_status refund) then
           TelegramAdmin.answerCallbackQuery (cq_id q)
             ("ℹ️ Уже обработано: "
              +:+ (if String.eqb (Db.rf_status refund) "approved"
                   then "одобрен" else "отклонён")) ;;;
           ret tt
         else
           let approve := bool_decide (refundAction = Some "approve") in
           let newStatus := if approve then "approved" else "rejected" in
           now <- date_now ;;
           query (fun d => (tt, update_refund newStatus refundCode now d)) ;;;
           let refundData :=
             {| rn_refundCode := Db.rf_refund_code refund;
                rn_amount := Db.rf_amount refund;
                rn_customerName := Db.rf_customer_name refund;
                rn_refundNumber := Db.rf_refund_number refund |} in
           (if approve then
              TelegramAdmin.sendRefundApprovedNotification refundData ;;;
              TelegramAdmin.answerCallbackQuery (cq_id q) "✅ Возврат одобрен"
            else
              TelegramAdmin.sendRefundRejectedNotification refundData ;;;
              TelegramAdmin.answerCallbackQuery (cq_id q) "❌ Возврат отклонён") ;;;
           timestamp <- date_now ;;
           telegramBot <- TelegramAdmin.getBot ;;
           if telegramBot then
             TelegramAdmin.api
               (EditMessageText (cq_chat_id q) (cq_message_id q)
                  (RefundStatusMessage approve (default "undefined" refundCode)
                     (Db.rf_amount refund) timestamp))
           else ret tt
     end)
    (fun _ =>
       TelegramAdmin.answerCallbackQuery (cq_id q) "❌ Ошибка обработки" ;;;
       ret tt) ;;;
  ret {| status := 200; body := BodyText "OK" |}.

End Api.

(** ** Admin sessions *)

Module Admin.

(** 24 hours, in milliseconds *)
Definition session_ms : Z := 24 * 60 * 60 * 1000.

(** [generateAdminToken]; [token] is what
    [crypto.randomBytes(48).toString('base64url')] yields. *)
Definition generateAdminToken (token : string) : M string :=
  fun w =>
    (Ok token,
     set_adminSessionTokens
       (<[token := clock w + session_ms]> (adminSessionTokens w)) w).

(** [isValidAdminToken] *)
Definition isValidAdminToken (token : string) : M bool :=
  fun w =>
    match adminSessionTokens w !! token with
    | None => (Ok false, w)
    | Some expiry =>
        if expiry =? 0 then (Ok false, w)
        else if expiry <? clock w then
          (Ok false, set_adminSessionTokens (delete token (adminSessionTokens w)) w)
        else (Ok true, w)
    end.

(** What happens to the sessions over time: a token is generated or a
    token is checked, at the time the clock shows. *)
Inductive Event :=
| Generate (token : string) (at_time : Z)
| Check (token : string) (at_time : Z).

Definition time_of (e : Event) : Z :=
  match e with Generate _ t | Check _ t => t end.

Definition step (e : Event) (w : World) : World :=
  match e with
  | Generate token t => (generateAdminToken token (set_clock t w)).2
  | Check token t => (isValidAdminToken token (set_clock t w)).2
  end.

(** The world after the events of [history], oldest first. *)
Definition after (history : list Event) (w : World) : World :=
  fold_left (fun w e => step e w) history w.

(** The clock never goes back: the events of [history], oldest first,
    happen at times that do not decrease, from [t] on, and none later
    than [now]. *)
Fixpoint ordered_from (t : Z) (history : list Event) (now : Z) : Prop :=
  match history with
  | [] => t <= now
  | e :: rest => t <= time_of e /\ ordered_from (time_of e) rest now
  end.

Definition ordered (history : list Event) (now : Z) : Prop :=
  ordered_from 0 history now.

(** [isValidAdminToken(token)] called at time [now], after [history]. *)
Definition valid_at (history : list Event) (now : Z) (token : string)
    (w : World) : bool :=
  match (isValidAdminToken token (set_clock now (after history w))).1 with
  | Ok b => b
  | Throw _ => false
  end.

End Admin.

(** ** Helpers of the notification service and of the server *)

Module Markdown.

(** The characters of the class [[_*[\]()~`>#+=|{}.!-]]: the eighteen
    characters that Telegram's Markdown gives a meaning to. *)
Definition special (c : ascii) : bool :=
  existsb (Ascii.eqb c) (list_ascii_of_string "_*[]()~`>#+=|{}.!-").

(** [escapeMarkdown]: every character of the class is replaced by a
    backslash followed by itself.  The characters of the class are ASCII,
    so that replacing them byte by byte in the UTF-8 text is replacing
    them in the text. *)
Fixpoint escapeMarkdown (text : string) : string :=
  match text with
  | EmptyString => EmptyString
  | String c rest =>
      if special c then String "\" (String c (escapeMarkdown rest))
      else String c (escapeMarkdown rest)
  end.

End Markdown.

(** The codes of refund links and of generated links. *)
Module Codes.

Definition chars : string := "ABCDEFGHJKLMNPQRSTUVWXYZ23456789".

(** [Math.floor(Math.random() * chars.length)], the product taken
    exactly. *)
Definition random_index (r : Q) : Z :=
  Qfloor (r * inject_Z (Z.of_nat (String.length chars))).

(** The loop of the two generators with [n] rounds to go. *)
Fixpoint generate_loop (n : nat) (result : string) : M string :=
  match n with
  | O => ret result
  | S n' =>
      r <- CreateOrder.math_random ;;
      generate_loop n' (result +:+ Js.charAt chars (random_index r))
  end.

(** [generateRefundCode] *)
Definition generateRefundCode : M string := generate_loop 6 "RFD-".

(** [generateLinkCode] *)
Definition generateLinkCode : M string := generate_loop 6 "LNK-".

End Codes.

(** The buttons put under the notifications sent to the administrator,
    and how the webhook reads a press of one. *)
Module Keyboard.

(** [`confirm_${order.orderId}`] and [`reject_${order.orderId}`], the
    callback data of the buttons under a payment notification. *)
Definition order_button (action : string) (orderId : Z) : string :=
  action +:+ "_" +:+ pretty orderId.

(** [`refund_approve_${refund.refundCode}`] and
    [`refund_reject_${refund.refundCode}`], the callback data of the
    buttons under a refund request. *)
Definition refund_button (action refundCode : string) : string :=
  "refund_" +:+ action +:+ "_" +:+ refundCode.

(** [const [action, orderIdStr] = data.split("_");
     const orderId = parseInt(orderIdStr)]: the action and the order id
    the webhook reads off the callback data; the id is [None] when
    [parseInt] gives [NaN]. *)
Definition parse_order_callback (data : string) : option string * option Z :=
  let parts := Js.split "_" data in
  (parts !! 0%nat,
   Js.parseInt (match parts !! 1%nat with
                | Some s => Js.JStr s
                | None => Js.JUndefined
                end)).

End Keyboard.

(** The two routes of the administrator's session. *)
Module AdminApi.

(** The bodies of the answers: [{ success: true, token }],
    [{ success: false, message }] and [{ valid }]. *)
Inductive Body :=
| Token (token : string)
| Failure (message : string)
| Valid (valid : bool).

Record Response := { status : Z; body : Body }.

(** [s.substring(n)] for a string whose first [n] characters are ASCII. *)
Fixpoint substring_from (n : nat) (s : string) : string :=
  match n, s with
  | O, _ => s
  | S n', String _ rest => substring_from n' rest
  | S _, EmptyString => EmptyString
  end.

Section VerifyPassword.

(** [process.env.ADMIN_PASSWORD] *)
Variable ADMIN_PASSWORD : option string.

(** The handler of [POST /api/admin/verify-password]; the request body
    is [None] when it is not JSON, and [token] is what
    [crypto.randomBytes(48).toString('base64url')] yields if it is
    called. *)
Definition verify_password (request : option Js.JsVal) (token : string)
    : M Response :=
  try_catch
    (body <- match request with
             | Some b => ret b
             | None => throw SyntaxError
             end ;;
     password <- Api.prop body "password" ;;
     match TelegramAdmin.configured ADMIN_PASSWORD with
     | None =>
         ret {| status := 500; body := Failure "Admin password not configured" |}
     | Some adminPassword =>
         if match password with
            | Js.JStr s => String.eqb s adminPassword
            | _ => false
            end
         then
           token <- Admin.generateAdminToken token ;;
           ret {| status := 200; body := Token token |}
         else ret {| status := 401; body := Failure "Неверный пароль" |}
     end)
    (fun _ => ret {| status := 500; body := Failure "Server error" |}).

End VerifyPassword.

(** The handler of [POST /api/admin/validate-session]; [authHeader] is
    the Authorization header, [None] when the request has none. *)
Definition validate_session (authHeader : option string) : M Response :=
  try_catch
    (match authHeader with
     | None => ret {| status := 401; body := Valid false |}
     | Some h =>
         if String.eqb h "" || negb (Js.startsWith "Bearer " h) then
           ret {| status := 401; body := Valid false |}
         else
           valid <- Admin.isValidAdminToken (substring_from 7 h) ;;
           if valid then ret {| status := 200; body := Valid true |}
           else ret {| status := 401; body := Valid false |}
     end)
    (fun _ => ret {| status := 500; body := Valid false |}).

End AdminApi.

(** ** Sample data

    A small database and world, used to run the definitions on concrete
    inputs. *)

Module Sample.

Definition concert : Db.Event :=
  {| Db.ev_id := 1; Db.ev_name := "Concert"; Db.ev_date := Some "2025-01-01";
     Db.ev_time := None; Db.ev_price := 1500; Db.ev_available_seats := 3;
     Db.ev_category_id := Some 1; Db.ev_city_id := Some 1;
     Db.ev_slug := Some "concert"; Db.ev_admin_id := None |}.

Definition tables : Db.Tables :=
  {| Db.events := [ concert ];
     Db.categories := [ {| Db.cat_id := 1; Db.cat_name_ru := "Music" |} ];
     Db.cities := [ {| Db.city_id := 1; Db.city_name := "Moscow" |} ];
     Db.orders := [];
     Db.event_templates := [];
     Db.generated_links := [];
     Db.refund_links := [] |}.

(** A world over the tables [d] in which the database calls numbered by
    [faults] fail; the Telegram bot is not configured. *)
Definition world (d : Db.Tables) (faults : nat -> bool) : World :=
  {| config :=
       {| env := {| DATABASE_URL := Some "postgresql://localhost/biletiks";
                    BOT_TOKEN := None; ADMIN_CHAT_ID := None;
                    GROUP_ID := None |};
          db_fault := faults;
          pool_ctor_fails := false;
          random := fun n => (Z.of_nat ((n * 7) mod 36) # 36)%Q;
          bot_ctor_fails := false;
          escapeMarkdown := None;
          tg_fault := fun _ => false |};
     conn := {| db := d; tx := None; order_seq := 0; db_calls := 0 |};
     pool := fun _ => false;
     clock := 1700000000000;
     random_calls := 0;
     telegram := {| bot := false; tg_calls := 0; outbox := [] |};
     adminSessionTokens := ∅ |}.

Definition no_faults : nat -> bool := fun _ => false.

Definition booking (seats : Z) : CreateOrder.Context :=
  {| CreateOrder.eventId := 1; CreateOrder.customerName := "Ann";
     CreateOrder.customerPhone := "12345"; CreateOrder.customerEmail := None;
     CreateOrder.seatsCount := seats; CreateOrder.totalPrice := None;
     CreateOrder.telegramChatId := None; CreateOrder.telegramUsername := None |}.

(** An order for two seats of the concert, pending. *)
Definition order7 : Db.Order :=
  {| Db.o_id := 7; Db.o_order_code := "ORD-AAAA1111"; Db.o_event_id := Some 1;
     Db.o_event_template_id := None; Db.o_link_code := None;
     Db.o_admin_id := None; Db.o_customer_name := "Ann";
     Db.o_customer_phone := "12345"; Db.o_customer_email := None;
     Db.o_telegram_chat_id := None; Db.o_telegram_username := None;
     Db.o_seats_count := 2; Db.o_total_price := 3000; Db.o_status := "pending";
     Db.o_payment_status := Some "pending"; Db.o_tickets_json := None |}.

Definition refund_done : Db.RefundLink :=
  {| Db.rf_refund_code := "RFD-ABC234"; Db.rf_amount := 1500;
     Db.rf_status := "approved"; Db.rf_customer_name := Some "Ann";
     Db.rf_refund_number := None; Db.rf_processed_at := Some 1699999999000 |}.

(** The tables with the order and a refund link already approved. *)
Definition tables_with_order : Db.Tables :=
  Db.set_refund_links [ refund_done ] (Db.set_orders [ order7 ] tables).

Definition reject7 : ManageOrder.Context :=
  {| ManageOrder.action := ManageOrder.RejectPayment;
     ManageOrder.orderCode := None; ManageOrder.orderId := Some 7 |}.

Definition cancel7 : ManageOrder.Context :=
  {| ManageOrder.action := ManageOrder.Cancel;
     ManageOrder.orderCode := None; ManageOrder.orderId := Some 7 |}.

(** The database call numbered [n] fails, no other does. *)
Definition fault_at (n : nat) : nat -> bool := fun k => Nat.eqb k n.

(** A request body for [/api/create-order]. *)
Definition request (seats : Js.JsVal) : Js.JsVal :=
  Js.JObj [ ("eventId", Js.JNum 1); ("customerName", Js.JStr "Ann");
            ("customerPhone", Js.JStr "12345"); ("seatsCount", seats) ].

Definition ticket_request : Api.TicketBody :=
  {| Api.eventSlug := "concert"; Api.t_seatsCount := 2;
     Api.t_customerName := "Ann"; Api.t_customerPhone := "12345";
     Api.t_customerEmail := None |}.

(** The press of the reject button on the refund link already approved. *)
Definition refund_press : Api.CallbackQuery :=
  {| Api.cq_id := Js.JStr "cq1"; Api.cq_data := "refund_reject_RFD-ABC234";
     Api.cq_message_id := Js.JNum 10; Api.cq_chat_id := Js.JNum 20 |}.

(** The sample world with the Telegram bot and its chats configured. *)
Definition with_bot (w : World) : World :=
  {| config :=
       {| env := {| DATABASE_URL := DATABASE_URL (env (config w));
                    BOT_TOKEN := Some "123:abc"; ADMIN_CHAT_ID := Some "1001";
                    GROUP_ID := Some "-2002" |};
          db_fault := db_fault (config w);
          pool_ctor_fails := pool_ctor_fails (config w);
          random := random (config w);
          bot_ctor_fails := false;
          escapeMarkdown := escapeMarkdown (config w);
          tg_fault := tg_fault (config w) |};
     conn := conn w; pool := pool w; clock := clock w;
     random_calls := random_calls w; telegram := telegram w;
     adminSessionTokens := adminSessionTokens w |}.

(** The world [w] with the calls to Telegram failing; [escapeMarkdown]
    is taken as the identity. *)
Definition telegram_down (w : World) : World :=
  {| config :=
       {| env := env (config w);
          db_fault := db_fault (config w);
          pool_ctor_fails := pool_ctor_fails (config w);
          random := random (config w);
          bot_ctor_fails := bot_ctor_fails (config w);
          escapeMarkdown := Some (fun s => s);
          tg_fault := fun _ => true |};
     conn := conn w; pool := pool w; clock := clock w;
     random_calls := random_calls w; telegram := telegram w;
     adminSessionTokens := adminSessionTokens w |}.

Definition telegram_is_down : World :=
  telegram_down (with_bot (world tables no_faults)).

(** The answer of [createOrderTool] to the sample booking of two seats. *)
Definition placed : CreateOrder.Result :=
  {| CreateOrder.success := true;
     CreateOrder.orderCode := Some "ORD-AHOV29GN";
     CreateOrder.orderId := Some 1;
     CreateOrder.eventName := Some "Concert";
     CreateOrder.eventDate := Some "2025-01-01";
     CreateOrder.eventTime := Some "00:00";
     CreateOrder.cityName := Some "Moscow";
     CreateOrder.r_customerName := Some "Ann";
     CreateOrder.r_customerPhone := Some "12345";
     CreateOrder.r_customerEmail := None;
     CreateOrder.r_seatsCount := Some 2;
     CreateOrder.r_totalPrice := Some 3000;
     CreateOrder.message :=
       "Заказ ORD-AHOV29GN успешно создан! Мероприятие: Concert, Moscow. Сумма: 3000 руб." |}.

End Sample.

(** ** Predicates on computations *)

(** The rows [manageOrderTool] works on: those of the query over event
    orders, or, when it finds none, those of the query over link
    orders. *)
Definition find_order (wh : ManageOrder.Where) (d : Db.Tables)
    : list ManageOrder.OrderRow :=
  match ManageOrder.select_order wh d with
  | [] => ManageOrder.select_link_order wh d
  | rows => rows
  end.


(** A computation that runs inside the open transaction of the client:
    it leaves the committed tables alone, the transaction open and the
    configuration as it is. *)
Definition in_tx {A} (m : M A) : Prop :=
  forall w r w', m w = (r, w') -> is_Some (tx (conn w)) ->
    db (conn w') = db (conn w) /\ is_Some (tx (conn w'))
    /\ config w' = config w.





(** What the session map must satisfy after the events [past], the last
    of them at time [t]: an entry holds the expiry set by the latest
    generation of its token, and a token generated and no longer in the
    map had expired by [t]. *)
Definition sessions_ok (past : list Admin.Event) (t : Z) (m : gmap string Z)
    : Prop :=
  0 <= t
  /\ (forall e, In e past -> Admin.time_of e <= t)
  /\ (forall token expiry,
        m !! token = Some expiry ->
        exists t0, In (Admin.Generate token t0) past
                   /\ expiry = t0 + Admin.session_ms
                   /\ forall t1, In (Admin.Generate token t1) past -> t1 <= t0)
  /\ (forall token t0,
        m !! token = None -> In (Admin.Generate token t0) past ->
        t0 + Admin.session_ms < t).

(** [isValidAdminToken] accepts exactly the tokens generated earlier for
    which the time elapsed since a generation is [within] bounds: over
    every history of generations and checks that starts with no session
    and in which the clock never goes back. *)
Definition accepts_exactly (within : Z -> Prop) : Prop :=
  forall history now token w,
    adminSessionTokens w = ∅ -> Admin.ordered history now ->
    Admin.valid_at history now token w = true
    <-> exists t0, In (Admin.Generate token t0) history /\ within (now - t0).

(** [body.name], [undefined] when the body has no such property (or is
    not an object). *)
Definition field (body : Js.JsVal) (name : string) : Js.JsVal :=
  default Js.JUndefined (Js.getProp body name).

(** The value is an integer between 1 and 10, given as a number or
    written out in decimal digits. *)
Definition integer_1_to_10 (v : Js.JsVal) : Prop :=
  exists z, 1 <= z <= 10 /\ (v = Js.JNum z \/ v = Js.JStr (pretty z)).

(** A text field that is missing, or a string shorter than [n] characters
    once trimmed. *)
Definition missing_or_short (v : Js.JsVal) (n : Z) : Prop :=
  v = Js.JUndefined \/ exists s, v = Js.JStr s /\ Js.js_length (Js.trim s) < n.

(** A body that fails the input validation, in the words of the claim:
    [eventId] missing or not a number; [customerName] missing or shorter
    than 2 characters after trimming; [customerPhone] missing or shorter
    than 5 characters after trimming; or [seatsCount] not an integer
    between 1 and 10. *)
Definition stated_invalid (body : Js.JsVal) : Prop :=
  field body "eventId" = Js.JUndefined
  \/ Js.typeof (field body "eventId") <> Js.TNumber
  \/ missing_or_short (field body "customerName") 2
  \/ missing_or_short (field body "customerPhone") 5
  \/ ~ integer_1_to_10 (field body "seatsCount").

(** A body that fails the input validation, as the handler decides it:
    [eventId] missing, 0 or not a number; [customerName] missing, empty,
    not a string or shorter than 2 characters after trimming;
    [customerPhone] likewise with 5; or [parseInt(seatsCount)] is [NaN],
    below 1 or above 10. *)
Definition handler_invalid (body : Js.JsVal) : Prop :=
  Js.truthy (field body "eventId") = false
  \/ Js.typeof (field body "eventId") <> Js.TNumber
  \/ Js.truthy (field body "customerName") = false
  \/ Api.too_short (field body "customerName") 2 = true
  \/ Js.truthy (field body "customerPhone") = false
  \/ Api.too_short (field body "customerPhone") 5 = true
  \/ match Js.parseInt (field body "seatsCount") with
     | None => True
     | Some n => n < 1 \/ 10 < n
     end.

(** The handler answers the request with status 400 and a body that says
    [success: false], and leaves the world as it is: no statement is sent
    to the database and no order is created. *)
Definition rejected_with_400 (body : Js.JsVal) : Prop :=
  forall w, exists msg,
    Api.create_order (Some body) w
    = (Ok (Api.json_status (Api.BodyMessage false msg) 400), w).

(** A computation that does not touch the database (nor the
    configuration). *)
Definition keeps_db {A} (m : M A) : Prop :=
  forall w r w', m w = (r, w') -> conn w' = conn w /\ config w' = config w.

(** ** Further predicates *)

(** A computation that leaves alone what is not the database: the cached
    pools, the Telegram side, the clock and the sessions. *)
Definition only_db {A} (m : M A) : Prop :=
  forall w r w', m w = (r, w') ->
    pool w' = pool w /\ telegram w' = telegram w /\ clock w' = clock w
    /\ adminSessionTokens w' = adminSessionTokens w.

(** The tables [manageOrderTool] leaves when every statement of the
    action goes through, the order being that of [row]. *)
Definition managed (a : ManageOrder.Action) (row : ManageOrder.OrderRow)
    (d : Db.Tables) : Db.Tables :=
  let o := ManageOrder.row_order row in
  match a with
  | ManageOrder.Get => d
  | ManageOrder.ConfirmPayment =>
      Db.update_order_status "confirmed" (Some "confirmed") (Db.o_id o) d
  | ManageOrder.RejectPayment =>
      Db.add_seats (Db.o_seats_count o) (Db.o_event_id o)
        (Db.update_order_status "rejected" (Some "rejected") (Db.o_id o) d)
  | ManageOrder.Cancel =>
      let d1 := Db.update_order_status "cancelled" None (Db.o_id o) d in
      if bool_decide (Db.o_payment_status o = Some "rejected") then d1
      else Db.add_seats (Db.o_seats_count o) (Db.o_event_id o) d1
  end.

(** The order object the action returns. *)
Definition managed_view (a : ManageOrder.Action) (row : ManageOrder.OrderRow)
    : ManageOrder.OrderView :=
  match a with
  | ManageOrder.Get => ManageOrder.view_of row
  | ManageOrder.ConfirmPayment =>
      ManageOrder.with_status "confirmed" (Some "confirmed") (ManageOrder.view_of row)
  | ManageOrder.RejectPayment =>
      ManageOrder.with_status "rejected" (Some "rejected") (ManageOrder.view_of row)
  | ManageOrder.Cancel =>
      ManageOrder.with_status "cancelled" None (ManageOrder.view_of row)
  end.

(** No connection pool can be had: none is cached, and DATABASE_URL is
    unset or empty or [new Pool] raises. *)
Definition no_database (w : World) : Prop :=
  (forall t, pool w t = false)
  /\ (DATABASE_URL (env (config w)) = None
      \/ DATABASE_URL (env (config w)) = Some ""
      \/ pool_ctor_fails (config w) = true).

(** What [UPDATE orders SET status = .. WHERE id = oid] makes of a row
    of [orders]. *)
Definition status_set (st : string) (pay : option string) (oid : Z)
    (o : Db.Order) : Db.Order :=
  if Db.o_id o =? oid then Db.set_order_status st pay o else o.

(** A row of the order queries with its order replaced by [f] of it. *)
Definition map_order (f : Db.Order -> Db.Order) (row : ManageOrder.OrderRow)
    : ManageOrder.OrderRow :=
  {| ManageOrder.row_order := f (ManageOrder.row_order row);
     ManageOrder.event_name := ManageOrder.event_name row;
     ManageOrder.event_date := ManageOrder.event_date row;
     ManageOrder.event_time := ManageOrder.event_time row;
     ManageOrder.category_name := ManageOrder.category_name row;
     ManageOrder.city_name := ManageOrder.city_name row |}.

(** The decision a refund callback records: approval when the second
    part of the callback data is [approve], rejection otherwise. *)
Definition decision_of (q : Api.CallbackQuery) : string :=
  if bool_decide (Js.split "_" (Api.cq_data q) !! 1%nat = Some "approve")
  then "approved" else "rejected".

(** The refund code a callback names: the third part of its data. *)
Definition code_of (q : Api.CallbackQuery) : option string :=
  Js.split "_" (Api.cq_data q) !! 2%nat.

(** A text in which the character [sep] does not occur. *)
Definition free_of (sep : ascii) (s : string) : Prop :=
  Forall (fun c => c <> sep) (list_ascii_of_string s).

(** A decimal digit. *)
Definition is_digit (c : ascii) : Prop := is_Some (Js.digit_of c).

(** A character of the alphabet of the refund and link codes. *)
Definition code_char (c : ascii) : Prop :=
  In c (list_ascii_of_string Codes.chars).

(** ** Further sample data *)

Module Sample2.

(** A booking of [seats] seats of the event [event]. *)
Definition booking_of (event seats : Z) : CreateOrder.Context :=
  {| CreateOrder.eventId := event; CreateOrder.customerName := "Ann";
     CreateOrder.customerPhone := "12345"; CreateOrder.customerEmail := None;
     CreateOrder.seatsCount := seats; CreateOrder.totalPrice := None;
     CreateOrder.telegramChatId := None; CreateOrder.telegramUsername := None |}.

(** A world in which DATABASE_URL is not set. *)
Definition offline : World :=
  {| config :=
       {| env := {| DATABASE_URL := None; BOT_TOKEN := None;
                    ADMIN_CHAT_ID := None; GROUP_ID := None |};
          db_fault := fun _ => false;
          pool_ctor_fails := false;
          random := fun n => (Z.of_nat ((n * 7) mod 36) # 36)%Q;
          bot_ctor_fails := false;
          escapeMarkdown := Some Markdown.escapeMarkdown;
          tg_fault := fun _ => false |};
     conn := {| db := Sample.tables; tx := None; order_seq := 0; db_calls := 0 |};
     pool := fun _ => false;
     clock := 1700000000000;
     random_calls := 0;
     telegram := {| bot := false; tg_calls := 0; outbox := [] |};
     adminSessionTokens := ∅ |}.

(** The row the order queries return for [Sample.order7]. *)
Definition row7 : ManageOrder.OrderRow :=
  {| ManageOrder.row_order := Sample.order7;
     ManageOrder.event_name := "Concert";
     ManageOrder.event_date := Some "2025-01-01";
     ManageOrder.event_time := None;
     ManageOrder.category_name := "Music";
     ManageOrder.city_name := Some "Moscow" |}.

Definition confirm7 : ManageOrder.Context :=
  {| ManageOrder.action := ManageOrder.ConfirmPayment;
     ManageOrder.orderCode := None; ManageOrder.orderId := Some 7 |}.

Definition get7 : ManageOrder.Context :=
  {| ManageOrder.action := ManageOrder.Get;
     ManageOrder.orderCode := Some "ORD-AAAA1111"; ManageOrder.orderId := None |}.


(** A request for nine seats of the concert, which has three. *)
Definition ticket_request_for_9 : Api.TicketBody :=
  {| Api.eventSlug := "concert"; Api.t_seatsCount := 9;
     Api.t_customerName := "Ann"; Api.t_customerPhone := "12345";
     Api.t_customerEmail := None |}.

(** A refund link nobody has decided on yet. *)
Definition refund_open : Db.RefundLink :=
  {| Db.rf_refund_code := "RFD-XYZ789"; Db.rf_amount := 900;
     Db.rf_status := "submitted"; Db.rf_customer_name := Some "Bob";
     Db.rf_refund_number := None; Db.rf_processed_at := None |}.

Definition tables_with_refunds : Db.Tables :=
  Db.set_refund_links [ Sample.refund_done; refund_open ] Sample.tables.

(** The press of the approve button on the open refund link. *)
Definition approve_press : Api.CallbackQuery :=
  {| Api.cq_id := Js.JStr "cq2"; Api.cq_data := "refund_approve_RFD-XYZ789";
     Api.cq_message_id := Js.JNum 11; Api.cq_chat_id := Js.JNum 20 |}.

(** A press whose data names no link of the table. *)
Definition stray_press : Api.CallbackQuery :=
  {| Api.cq_id := Js.JStr "cq3"; Api.cq_data := "refund_approve";
     Api.cq_message_id := Js.JNum 12; Api.cq_chat_id := Js.JNum 20 |}.

(** The press of the reject button made for the refund code [code]. *)
Definition press_of (action code : string) : Api.CallbackQuery :=
  {| Api.cq_id := Js.JStr "cq4";
     Api.cq_data := Keyboard.refund_button action code;
     Api.cq_message_id := Js.JNum 13; Api.cq_chat_id := Js.JNum 20 |}.

(** A login request with the password [p]. *)
Definition login (p : string) : Js.JsVal := Js.JObj [ ("password", Js.JStr p) ].

(** The order 7 placed through a generated link: it has a template and
    no event. *)
Definition link_order7 : Db.Order :=
  {| Db.o_id := 7; Db.o_order_code := "ORD-AAAA1111"; Db.o_event_id := None;
     Db.o_event_template_id := Some 5; Db.o_link_code := Some "LNK-ABC234";
     Db.o_admin_id := None; Db.o_customer_name := "Ann";
     Db.o_customer_phone := "12345"; Db.o_customer_email := None;
     Db.o_telegram_chat_id := None; Db.o_telegram_username := None;
     Db.o_seats_count := 2; Db.o_total_price := 3000; Db.o_status := "pending";
     Db.o_payment_status := Some "pending"; Db.o_tickets_json := None |}.

Definition tables_with_link_order : Db.Tables :=
  {| Db.events := [ Sample.concert ];
     Db.categories := [ {| Db.cat_id := 1; Db.cat_name_ru := "Music" |} ];
     Db.cities := [ {| Db.city_id := 1; Db.city_name := "Moscow" |} ];
     Db.orders := [ link_order7 ];
     Db.event_templates :=
       [ {| Db.et_id := 5; Db.et_name := "Tour"; Db.et_category_id := Some 1 |} ];
     Db.generated_links := [];
     Db.refund_links := [] |}.

Definition link_row7 : ManageOrder.OrderRow :=
  {| ManageOrder.row_order := link_order7;
     ManageOrder.event_name := "Tour";
     ManageOrder.event_date := None;
     ManageOrder.event_time := None;
     ManageOrder.category_name := "Music";
     ManageOrder.city_name := None |}.

(** The notification of the sample order. *)
Definition notice : OrderNotificationData :=
  {| n_orderId := 7; n_orderCode := "ORD-AAAA1111"; n_eventName := "Concert";
     n_eventDate := "2025-01-01"; n_eventTime := "19:00";
     n_cityName := "Moscow"; n_customerName := "Ann";
     n_customerPhone := "12345"; n_customerEmail := None; n_seatsCount := 2;
     n_totalPrice := 3000; n_tickets := Js.JUndefined |}.

(** The data of a refund notification. *)
Definition refund_notice : RefundNotificationData :=
  {| rn_refundCode := "RFD-XYZ789"; rn_amount := 900;
     rn_customerName := Some "Bob"; rn_refundNumber := None |}.

(** A request for one seat whose [customerEmail] is a number. *)
Definition request_with_bad_email : Js.JsVal :=
  Js.JObj [ ("eventId", Js.JNum 1); ("customerName", Js.JStr "Ann");
            ("customerPhone", Js.JStr "12345"); ("seatsCount", Js.JNum 1);
            ("customerEmail", Js.JNum 5) ].

End Sample2.

(** * Properties *)

(** ** Reasoning about computations

    A run is taken apart step by step: each lemma below turns the
    equation of a run into what its steps did. *)

Lemma bind_inv {A B} (m : M A) (k : A -> M B) w r w' :
  bind m k w = (r, w') ->
  (exists a w1, m w = (Ok a, w1) /\ k a w1 = (r, w'))
  \/ (exists e, m w = (Throw e, w') /\ r = Throw e).
Proof.
  unfold bind. destruct (m w) as [[a|e] w1]; intros H.
  - left. by exists a, w1.
  - right. exists e. by injection H as <- <-.
Qed.

Lemma ret_inv {A} (a : A) w r w' : ret a w = (r, w') -> r = Ok a /\ w' = w.
Proof. by intros [= <- <-]. Qed.

Lemma throw_inv {A} e w (r : Outcome A) w' :
  throw e w = (r, w') -> r = Throw e /\ w' = w.
Proof. by intros [= <- <-]. Qed.

Lemma try_catch_inv {A} (m : M A) h w r w' :
  try_catch m h w = (r, w') ->
  (exists a, m w = (Ok a, w') /\ r = Ok a)
  \/ (exists e w1, m w = (Throw e, w1) /\ h e w1 = (r, w')).
Proof.
  unfold try_catch. destruct (m w) as [[a|e] w1]; intros H.
  - left. exists a. by injection H as <- <-.
  - right. by exists e, w1.
Qed.

Lemma try_finally_inv {A} (m : M A) f w r w' :
  try_finally m f w = (r, w') -> exists w1, m w = (r, w1) /\ w' = f w1.
Proof.
  unfold try_finally. destruct (m w) as [r1 w1]. intros [= <- <-]. by exists w1.
Qed.

(** The two ways a call to the database can go. *)
Lemma db_call_inv {A} (f : Conn -> A * Conn) w r w' :
  db_call f w = (r, w') ->
  config w' = config w /\
  ((db_fault (config w) (db_calls (conn w)) = true
    /\ r = Throw DbError /\ conn w' = called (conn w))
   \/ (db_fault (config w) (db_calls (conn w)) = false
       /\ r = Ok (f (called (conn w))).1
       /\ conn w' = (f (called (conn w))).2)).
Proof.
  unfold db_call. destruct (db_fault _ _); intros [= <- <-]; split; auto.
Qed.

(** A statement run inside the client's transaction. *)
Lemma query_tx {A} (stmt : Db.Tables -> A * Db.Tables) w r w' d :
  query stmt w = (r, w') -> tx (conn w) = Some d ->
  config w' = config w /\ db (conn w') = db (conn w)
  /\ order_seq (conn w') = order_seq (conn w) /\
  ((r = Throw DbError /\ tx (conn w') = Some d)
   \/ (db_fault (config w) (db_calls (conn w)) = false
       /\ r = Ok (stmt d).1 /\ tx (conn w') = Some (stmt d).2)).
Proof.
  intros Hrun Htx. apply db_call_inv in Hrun as (Hcfg & Hcases).
  split; [done |].
  destruct Hcases as [(_ & -> & ->) | (Hf & -> & ->)]; unfold view, put_view; cbn;
    rewrite Htx; cbn; auto 10.
Qed.

(** A statement run on the pool, outside any transaction: it commits on
    its own. *)
Lemma query_auto {A} (stmt : Db.Tables -> A * Db.Tables) w r w' :
  query stmt w = (r, w') -> tx (conn w) = None ->
  config w' = config w /\ tx (conn w') = None
  /\ order_seq (conn w') = order_seq (conn w) /\
  ((db_fault (config w) (db_calls (conn w)) = true
    /\ r = Throw DbError /\ db (conn w') = db (conn w))
   \/ (db_fault (config w) (db_calls (conn w)) = false
       /\ r = Ok (stmt (db (conn w))).1
       /\ db (conn w') = (stmt (db (conn w))).2)).
Proof.
  intros Hrun Htx. apply db_call_inv in Hrun as (Hcfg & Hcases).
  split; [done |].
  destruct Hcases as [(Hf & -> & ->) | (Hf & -> & ->)]; unfold view, put_view; cbn;
    rewrite Htx; cbn; auto 10.
Qed.

Lemma query_insert_tx row w r w' d :
  query_insert row w = (r, w') -> tx (conn w) = Some d ->
  config w' = config w /\ db (conn w') = db (conn w) /\
  ((r = Throw DbError /\ tx (conn w') = Some d
    /\ order_seq (conn w') = order_seq (conn w))
   \/ (db_fault (config w) (db_calls (conn w)) = false
       /\ r = Ok (order_seq (conn w) + 1)
       /\ order_seq (conn w') = order_seq (conn w) + 1
       /\ tx (conn w')
          = Some (Db.insert_order (row (order_seq (conn w) + 1)) d))).
Proof.
  intros Hrun Htx. apply db_call_inv in Hrun as (Hcfg & Hcases).
  split; [done |].
  destruct Hcases as [(_ & -> & ->) | (Hf & -> & ->)]; unfold view, put_view; cbn;
    rewrite Htx; cbn; auto 10.
Qed.

Lemma query_insert_auto row w r w' :
  query_insert row w = (r, w') -> tx (conn w) = None ->
  config w' = config w /\ tx (conn w') = None /\
  ((db_fault (config w) (db_calls (conn w)) = true
    /\ r = Throw DbError /\ db (conn w') = db (conn w)
    /\ order_seq (conn w') = order_seq (conn w))
   \/ (db_fault (config w) (db_calls (conn w)) = false
       /\ r = Ok (order_seq (conn w) + 1)
       /\ order_seq (conn w') = order_seq (conn w) + 1
       /\ db (conn w')
          = Db.insert_order (row (order_seq (conn w) + 1)) (db (conn w)))).
Proof.
  intros Hrun Htx. apply db_call_inv in Hrun as (Hcfg & Hcases).
  split; [done |].
  destruct Hcases as [(Hf & -> & ->) | (Hf & -> & ->)]; unfold view, put_view; cbn;
    rewrite Htx; cbn; auto 10.
Qed.

(** ** Computations that run inside a transaction *)

Lemma in_tx_ret {A} (a : A) : in_tx (ret a).
Proof. intros w r w' [= <- <-] H. done. Qed.

Lemma in_tx_throw {A} e : in_tx (@throw A e).
Proof. intros w r w' [= <- <-] H. done. Qed.

Lemma in_tx_bind {A B} (m : M A) (k : A -> M B) :
  in_tx m -> (forall a, in_tx (k a)) -> in_tx (bind m k).
Proof.
  intros Hm Hk w r w' Hrun Htx.
  apply bind_inv in Hrun as [(a & w1 & Hm1 & Hk1) | (e & Hm1 & ->)].
  - destruct (Hm _ _ _ Hm1 Htx) as (Hd & Ht & Hc).
    destruct (Hk a _ _ _ Hk1 Ht) as (Hd' & Ht' & Hc').
    split; [congruence |]. split; [done | congruence].
  - by apply (Hm _ _ _ Hm1).
Qed.

Lemma in_tx_query {A} (stmt : Db.Tables -> A * Db.Tables) : in_tx (query stmt).
Proof.
  intros w r w' Hrun [d Htx].
  destruct (query_tx _ _ _ _ _ Hrun Htx) as (Hc & Hd & _ & [[_ Ht] | (_ & _ & Ht)]);
    rewrite Ht; eauto.
Qed.

Lemma in_tx_query_insert row : in_tx (query_insert row).
Proof.
  intros w r w' Hrun [d Htx].
  destruct (query_insert_tx _ _ _ _ _ Hrun Htx)
    as (Hc & Hd & [(_ & Ht & _) | (_ & _ & _ & Ht)]); rewrite Ht; eauto.
Qed.

Lemma in_tx_math_random : in_tx CreateOrder.math_random.
Proof. intros w r w' [= <- <-] H. done. Qed.

Lemma in_tx_generate_loop n code : in_tx (CreateOrder.generate_loop n code).
Proof.
  revert code. induction n as [|n IH]; intros code; cbn [CreateOrder.generate_loop].
  - apply in_tx_ret.
  - apply in_tx_bind; [apply in_tx_math_random | intros r; apply IH].
Qed.

Lemma in_tx_generateOrderCode : in_tx CreateOrder.generateOrderCode.
Proof.
  apply in_tx_bind; [apply in_tx_generate_loop | intros; apply in_tx_ret].
Qed.

Lemma in_tx_transaction_body ctx : in_tx (CreateOrder.transaction_body ctx).
Proof.
  unfold CreateOrder.transaction_body.
  apply in_tx_bind; [apply in_tx_query |].
  intros [|row rest]; [apply in_tx_ret |].
  case_match; [apply in_tx_ret |].
  apply in_tx_bind; [apply in_tx_generateOrderCode | intros code].
  apply in_tx_bind; [apply in_tx_query_insert | intros id].
  apply in_tx_bind; [apply in_tx_query | intros _; apply in_tx_ret].
Qed.

(** What [withTransaction] guarantees for a function that runs inside the
    transaction.  The client ends with no transaction open.  When the
    call raises, the committed tables are those it started from, and
    either a call to the database failed or [fn] raised.  When it returns,
    [fn] returned that value, started on the committed tables, and what
    [fn] left in the transaction is now committed. *)
Lemma withTransaction_spec {T} (fn : M T) w r w' :
  in_tx fn -> tx (conn w) = None ->
  CreateOrder.withTransaction fn w = (r, w') ->
  tx (conn w') = None /\ config w' = config w /\
  match r with
  | Throw e =>
      db (conn w') = db (conn w)
      /\ ((exists n, db_fault (config w) n = true)
          \/ exists w1 w2, fn w1 = (Throw e, w2) /\ config w1 = config w
                           /\ tx (conn w1) = Some (db (conn w)))
  | Ok a =>
      exists w1 w2,
        fn w1 = (Ok a, w2)
        /\ tx (conn w1) = Some (db (conn w))
        /\ order_seq (conn w1) = order_seq (conn w)
        /\ config w1 = config w
        /\ tx (conn w2) = Some (db (conn w'))
  end.
Proof.
  intros Hfn Htx Hrun. unfold CreateOrder.withTransaction in Hrun.
  apply bind_inv in Hrun as [([] & w1 & Hconnect & Hrun) | (e & Hconnect & ->)].
  2:{ (* connect raises *)
      apply db_call_inv in Hconnect as (Hcfg & [(Hf & _ & ->) | (_ & [=] & _)]).
      cbn. eauto 10. }
  apply db_call_inv in Hconnect as (Hcfg1 & [(_ & [=] & _) | (_ & _ & Hc1)]).
  cbn in Hc1.
  apply try_finally_inv in Hrun as (w2 & Hrun & ->).
  unfold client_release. cbn [conn set_conn config tx set_tx db].
  split; [done |].
  apply try_catch_inv in Hrun as [(a & Hrun & ->) | (e & w3 & Hrun & Hcatch)].
  - (* the body returns *)
    apply bind_inv in Hrun as [([] & w3 & Hbegin & Hrun) | (e & _ & [=])].
    apply db_call_inv in Hbegin as (Hcfg3 & [(_ & [=] & _) | (_ & _ & Hc3)]).
    cbn in Hc3.
    apply bind_inv in Hrun as [(a' & w4 & Hfn4 & Hrun) | (e & _ & [=])].
    apply bind_inv in Hrun as [([] & w5 & Hcommit & Hrun) | (e & _ & [=])].
    apply ret_inv in Hrun as [[= ->] ->].
    destruct (Hfn _ _ _ Hfn4) as (Hdb4 & [d Hd4] & Hcfg4).
    { rewrite Hc3. cbn. eauto. }
    apply db_call_inv in Hcommit as (Hcfg5 & [(_ & [=] & _) | (_ & _ & Hc5)]).
    cbn in Hc5. rewrite Hd4 in Hc5.
    split; [congruence |].
    exists w3, w4. rewrite Hc5, Hc3, Hc1. cbn. split; [done |].
    split; [done |]. split; [done |]. split; [congruence | done].
  - (* the body raises, the handler rolls back and raises again *)
    assert (Hw3 : config w3 = config w /\ db (conn w3) = db (conn w)
                  /\ ((exists n, db_fault (config w) n = true)
                      \/ exists w1 w2, fn w1 = (Throw e, w2)
                                       /\ config w1 = config w
                                       /\ tx (conn w1) = Some (db (conn w)))).
    { apply bind_inv in Hrun as [([] & w4 & Hbegin & Hrun) | (e' & Hbegin & [= ->])].
      2:{ apply db_call_inv in Hbegin as (Hcfg3 & [(Hf & _ & ->) | (_ & [=] & _)]).
          rewrite Hc1, Hcfg1 in *. cbn. split; [congruence |]. eauto. }
      apply db_call_inv in Hbegin as (Hcfg4 & [(_ & [=] & _) | (_ & _ & Hc4)]).
      cbn in Hc4.
      apply bind_inv in Hrun as [(a' & w5 & Hfn5 & Hrun) | (e' & Hfn5 & [= ->])].
      2:{ destruct (Hfn _ _ _ Hfn5) as (Hdb5 & _ & Hcfg5).
          { rewrite Hc4. cbn. eauto. }
          rewrite Hdb5, Hc4, Hc1, Hcfg5, Hcfg4, Hcfg1. cbn.
          split; [done |]. split; [done |]. right. exists w4, w3.
          split; [done |]. split; [congruence |]. by rewrite Hc4, Hc1. }
      destruct (Hfn _ _ _ Hfn5) as (Hdb5 & _ & Hcfg5).
      { rewrite Hc4. cbn. eauto. }
      apply bind_inv in Hrun as [([] & w6 & Hcommit & Hrun) | (e' & Hcommit & [= ->])].
      { by apply ret_inv in Hrun as [[=] _]. }
      apply db_call_inv in Hcommit as (Hcfg6 & [(Hf & _ & ->) | (_ & [=] & _)]).
      cbn. rewrite Hdb5, Hc4, Hc1, Hcfg6, Hcfg5, Hcfg4, Hcfg1. cbn.
      split; [done |]. split; [done |]. left.
      rewrite Hcfg5, Hcfg4, Hcfg1 in Hf. eauto. }
    destruct Hw3 as (Hcfg3 & Hdb3 & Hwhy).
    apply bind_inv in Hcatch as [([] & w4 & Hrb & Hthrow) | (e' & Hrb & ->)].
    + apply throw_inv in Hthrow as [-> ->].
      apply db_call_inv in Hrb as (Hcfg4 & [(_ & [=] & _) | (_ & _ & ->)]).
      cbn. split; [congruence |]. split; [done | done].
    + apply db_call_inv in Hrb as (Hcfg4 & [(Hf & [= ->] & ->) | (_ & [=] & _)]).
      cbn. split; [congruence |]. split; [done |]. left.
      rewrite Hcfg3 in Hf. eauto.
Qed.

(** ** createOrderTool *)

(** Drawing an order code never raises and touches the random source
    only. *)
Lemma generate_loop_inv n code w r w' :
  CreateOrder.generate_loop n code w = (r, w') ->
  (exists c, r = Ok c) /\ conn w' = conn w /\ config w' = config w.
Proof.
  revert code w. induction n as [|n IH]; intros code w;
    cbn [CreateOrder.generate_loop]; intros Hrun.
  - apply ret_inv in Hrun as [-> ->]. eauto.
  - apply bind_inv in Hrun as [(x & w1 & Hr & Hrun) | (e & [=] & _)].
    injection Hr as <- <-. by apply IH in Hrun.
Qed.

Lemma generateOrderCode_inv w r w' :
  CreateOrder.generateOrderCode w = (r, w') ->
  (exists c, r = Ok c) /\ conn w' = conn w /\ config w' = config w.
Proof.
  unfold CreateOrder.generateOrderCode. intros Hrun.
  apply bind_inv in Hrun as [(c & w1 & Hloop & Hrun) | (e & Hloop & ->)].
  - apply ret_inv in Hrun as [-> ->].
    apply generate_loop_inv in Hloop as (_ & ? & ?). eauto.
  - by apply generate_loop_inv in Hloop as ([c [=]] & _).
Qed.

(** The outcomes of the function run inside the transaction, which sees
    the tables [d]: it raises, because a call to the database failed; or
    it returns a failure and has written nothing; or the event was found
    with enough seats and it has inserted the order and taken the
    seats. *)
Lemma transaction_body_spec ctx w d r w' :
  tx (conn w) = Some d ->
  CreateOrder.transaction_body ctx w = (r, w') ->
  match r with
  | Throw _ => exists n, db_fault (config w) n = true
  | Ok res =>
      (CreateOrder.success res = false /\ tx (conn w') = Some d /\
       match CreateOrder.select_event (CreateOrder.eventId ctx) d with
       | [] => res = CreateOrder.failure "Мероприятие не найдено"
       | row :: _ =>
           Db.ev_available_seats (CreateOrder.event row) < CreateOrder.seats_of ctx
           /\ res = CreateOrder.not_enough_seats (CreateOrder.event row)
       end)
      \/ (exists row rest code,
            CreateOrder.select_event (CreateOrder.eventId ctx) d = row :: rest
            /\ CreateOrder.seats_of ctx <= Db.ev_available_seats (CreateOrder.event row)
            /\ res = CreateOrder.created ctx row code (order_seq (conn w) + 1)
            /\ tx (conn w') = Some
                 (Db.add_seats (- CreateOrder.seats_of ctx)
                    (Some (CreateOrder.eventId ctx))
                    (Db.insert_order
                       (CreateOrder.new_order ctx code (CreateOrder.seats_of ctx)
                          (CreateOrder.total_of ctx (CreateOrder.event row))
                          (order_seq (conn w) + 1)) d)))
  end.
Proof.
  intros Htx Hrun. unfold CreateOrder.transaction_body in Hrun.
  apply bind_inv in Hrun as [(rows & w1 & Hsel & Hrun) | (e & Hsel & ->)].
  2:{ apply db_call_inv in Hsel as (_ & [(Hf & _) | (_ & [=] & _)]). eauto. }
  destruct (query_tx _ _ _ _ _ Hsel Htx)
    as (Hcfg1 & Hdb1 & Hseq1 & [[[=] _] | (_ & [= ->] & Htx1)]).
  cbn [fst snd] in Hrun, Htx1.
  destruct (CreateOrder.select_event (CreateOrder.eventId ctx) d)
    as [|row rest] eqn:Esel.
  { apply ret_inv in Hrun as [-> ->]. left. done. }
  destruct (Z.ltb_spec (Db.ev_available_seats (CreateOrder.event row))
              (CreateOrder.seats_of ctx)) as [Hlt | Hge].
  { apply ret_inv in Hrun as [-> ->]. left. done. }
  apply bind_inv in Hrun as [(code & w2 & Hcode & Hrun) | (e & Hcode & ->)].
  2:{ by apply generateOrderCode_inv in Hcode as ([c [=]] & _). }
  apply generateOrderCode_inv in Hcode as (_ & Hc2 & Hcfg2).
  apply bind_inv in Hrun as [(id & w3 & Hins & Hrun) | (e & Hins & ->)].
  2:{ apply db_call_inv in Hins as (_ & [(Hf & _) | (_ & [=] & _)]).
      rewrite Hcfg2, Hcfg1 in Hf. eauto. }
  assert (Htx2 : tx (conn w2) = Some d) by (by rewrite Hc2).
  destruct (query_insert_tx _ _ _ _ _ Hins Htx2)
    as (Hcfg3 & Hdb3 & [[[=] _] | (_ & [= ->] & Hseq3 & Htx3)]).
  apply bind_inv in Hrun as [([] & w4 & Hupd & Hrun) | (e & Hupd & ->)].
  2:{ apply db_call_inv in Hupd as (_ & [(Hf & _) | (_ & [=] & _)]).
      rewrite Hcfg3, Hcfg2, Hcfg1 in Hf. eauto. }
  destruct (query_tx _ _ _ _ _ Hupd Htx3)
    as (Hcfg4 & Hdb4 & Hseq4 & [[[=] _] | (_ & _ & Htx4)]).
  apply ret_inv in Hrun as [-> ->].
  right. exists row, rest, code. rewrite Htx4, Hc2, Hseq1. done.
Qed.

Lemma getPool_inv t w r w' :
  getPool t w = (r, w') ->
  (exists b, r = Ok b) /\ conn w' = conn w /\ config w' = config w.
Proof.
  unfold getPool. destruct (pool w t); [intros [= <- <-]; eauto |].
  destruct (DATABASE_URL (env (config w))) as [[|c u]|];
    try (intros [= <- <-]; eauto).
  destruct (pool_ctor_fails (config w)); intros [= <- <-]; eauto.
Qed.

(** The outcomes of [createOrderTool.execute] for a client that starts
    with no transaction open: it never raises and ends with no transaction
    open; either it reports a failure and the committed tables are those
    it started from, or it reports the created order and the committed
    tables are the initial ones with the order inserted and the seats
    taken. *)
Lemma execute_spec ctx w :
  tx (conn w) = None ->
  exists res w',
    CreateOrder.execute ctx w = (Ok res, w') /\ tx (conn w') = None /\
    ((CreateOrder.success res = false /\ db (conn w') = db (conn w))
     \/ (exists row rest code id,
           CreateOrder.select_event (CreateOrder.eventId ctx) (db (conn w))
           = row :: rest
           /\ CreateOrder.seats_of ctx <= Db.ev_available_seats (CreateOrder.event row)
           /\ res = CreateOrder.created ctx row code id
           /\ db (conn w') =
                Db.add_seats (- CreateOrder.seats_of ctx)
                  (Some (CreateOrder.eventId ctx))
                  (Db.insert_order
                     (CreateOrder.new_order ctx code (CreateOrder.seats_of ctx)
                        (CreateOrder.total_of ctx (CreateOrder.event row)) id)
                     (db (conn w))))).
Proof.
  intros Htx.
  destruct (CreateOrder.execute ctx w) as [r w'] eqn:Hrun.
  unfold CreateOrder.execute in Hrun.
  apply bind_inv in Hrun as [(b & w1 & Hpool & Hrun) | (e & Hpool & ->)].
  2:{ by apply getPool_inv in Hpool as ([b [=]] & _). }
  apply getPool_inv in Hpool as (_ & Hc1 & Hcfg1).
  destruct b; cbn [negb] in Hrun.
  2:{ apply ret_inv in Hrun as [-> ->]. eexists _, _. split; [done |].
      rewrite Hc1. split; [done |]. by left. }
  apply try_catch_inv in Hrun as [(res & Hrun & ->) | (e & w2 & Hrun & Hcatch)].
  - apply withTransaction_spec in Hrun as (Htx' & _ & w3 & w4 & Hbody & Htx3 & _ & _ & Htx4);
      [| apply in_tx_transaction_body | by rewrite Hc1].
    exists res, w'. split; [done |]. split; [done |].
    apply transaction_body_spec with (d := db (conn w1)) in Hbody; [| done].
    rewrite Hc1 in *.
    destruct Hbody as [(Hf & Ht & _) | (row & rest & code & Hsel & Hge & -> & Ht)].
    + left. split; [done |]. congruence.
    + right. exists row, rest, code. eexists. split; [done |]. split; [done |].
      split; [reflexivity |]. congruence.
  - apply ret_inv in Hcatch as [-> ->].
    apply withTransaction_spec in Hrun as (Htx' & _ & Hdb & _);
      [| apply in_tx_transaction_body | by rewrite Hc1].
    eexists _, _. split; [done |]. split; [done |]. left.
    split; [done |]. by rewrite Hdb, Hc1.
Qed.

(** C3. Every order that [createOrderTool] reports as created starts its
    life pending: the run has added exactly one row to [orders], the row
    carries the id and the code returned to the caller, and its [status]
    and [payment_status] are both ['pending']. *)
Theorem created_order_is_pending ctx w res w' :
  tx (conn w) = None ->
  CreateOrder.execute ctx w = (Ok res, w') ->
  CreateOrder.success res = true ->
  exists o,
    Db.orders (db (conn w')) = (Db.orders (db (conn w)) ++ [o])%list
    /\ CreateOrder.orderId res = Some (Db.o_id o)
    /\ CreateOrder.orderCode res = Some (Db.o_order_code o)
    /\ Db.o_status o = "pending"
    /\ Db.o_payment_status o = Some "pending".
Proof.
  intros Htx Hrun Hok.
  destruct (execute_spec ctx w Htx) as (res0 & w0 & Hrun0 & _ & Hcases).
  rewrite Hrun in Hrun0. injection Hrun0 as <- <-.
  destruct Hcases as [[Hfail _] | (row & rest & code & id & _ & _ & -> & Hdb)].
  { congruence. }
  eexists. rewrite Hdb. cbn. split; [reflexivity |]. done.
Qed.

Lemma created_order_is_pending_witness :
  exists res w',
    CreateOrder.execute (Sample.booking 2)
      (Sample.world Sample.tables Sample.no_faults) = (Ok res, w')
    /\ CreateOrder.success res = true
    /\ exists o,
         Db.orders (db (conn w'))
         = (Db.orders (db (conn (Sample.world Sample.tables Sample.no_faults)))
            ++ [o])%list
         /\ CreateOrder.orderId res = Some (Db.o_id o)
         /\ CreateOrder.orderCode res = Some (Db.o_order_code o)
         /\ Db.o_status o = "pending"
         /\ Db.o_payment_status o = Some "pending".
Proof.
  eexists _, _. split; [vm_compute; reflexivity |]. split; [reflexivity |].
  eapply (created_order_is_pending (Sample.booking 2)
            (Sample.world Sample.tables Sample.no_faults));
    [reflexivity | vm_compute; reflexivity | reflexivity].
Defined.

(** C4. When the event query finds the event and the event has fewer
    seats left than the request asks for, [createOrderTool] reports a
    failure, inserts no order and leaves [available_seats] as it was (the
    committed tables are unchanged), whatever calls to the database fail;
    and when the database is reachable and no call fails, the message
    reports the number of seats available. *)
Theorem not_enough_seats_rejected ctx w row rest :
  tx (conn w) = None ->
  CreateOrder.select_event (CreateOrder.eventId ctx) (db (conn w)) = row :: rest ->
  Db.ev_available_seats (CreateOrder.event row) < CreateOrder.seatsCount ctx ->
  exists res w',
    CreateOrder.execute ctx w = (Ok res, w')
    /\ CreateOrder.success res = false
    /\ Db.orders (db (conn w')) = Db.orders (db (conn w))
    /\ Db.events (db (conn w')) = Db.events (db (conn w))
    /\ db (conn w') = db (conn w)
    /\ ((getPool ToolCreateOrder w).1 = Ok true ->
        (forall n, db_fault (config w) n = false) ->
        CreateOrder.message res
        = "Недостаточно мест. Доступно: "
          +:+ pretty (Db.ev_available_seats (CreateOrder.event row))).
Proof.
  intros Htx Hsel Hlt.
  assert (Hlt' : Db.ev_available_seats (CreateOrder.event row)
                 < CreateOrder.seats_of ctx).
  { unfold CreateOrder.seats_of.
    destruct (Z.eqb_spec (CreateOrder.seatsCount ctx) 0); lia. }
  destruct (execute_spec ctx w Htx) as (res & w' & Hrun & _ & Hcases).
  exists res, w'. split; [done |].
  destruct Hcases as [[Hfail Hdb] | (row' & rest' & code & id & Hsel' & Hge & _)].
  2:{ rewrite Hsel in Hsel'. injection Hsel' as <- <-. lia. }
  rewrite Hdb. do 4 (split; [done |]).
  intros Hpool Hok.
  unfold CreateOrder.execute in Hrun.
  apply bind_inv in Hrun as [(b & w1 & Hp & Hrun) | (e & _ & [=])].
  rewrite Hp in Hpool. cbn in Hpool. injection Hpool as ->.
  apply getPool_inv in Hp as (_ & Hc1 & Hcfg1).
  cbn [negb] in Hrun.
  apply try_catch_inv in Hrun as [(res0 & Hrun & [= <-]) | (e & w2 & Hrun & _)].
  - apply withTransaction_spec in Hrun as (_ & _ & w3 & w4 & Hbody & Htx3 & _);
      [| apply in_tx_transaction_body | by rewrite Hc1].
    apply transaction_body_spec with (d := db (conn w1)) in Hbody; [| done].
    rewrite Hc1, Hsel in Hbody.
    destruct Hbody as [(_ & _ & _ & ->) | (row' & rest' & code & Hsel' & Hge & _)].
    + reflexivity.
    + injection Hsel' as <- <-. lia.
  - apply withTransaction_spec in Hrun as (_ & _ & _ & Hwhy);
      [| apply in_tx_transaction_body | by rewrite Hc1].
    rewrite Hcfg1 in Hwhy.
    destruct Hwhy as [[n Hn] | (w3 & w4 & Hbody & Hcfg3 & Htx3)].
    { by rewrite Hok in Hn. }
    apply transaction_body_spec with (d := db (conn w1)) in Hbody; [| done].
    destruct Hbody as [n Hn]. rewrite Hcfg3, Hok in Hn. done.
Qed.

Lemma not_enough_seats_rejected_witness :
  exists res w',
    CreateOrder.execute (Sample.booking 5)
      (Sample.world Sample.tables Sample.no_faults) = (Ok res, w')
    /\ CreateOrder.success res = false
    /\ Db.orders (db (conn w')) = []
    /\ CreateOrder.message res = "Недостаточно мест. Доступно: 3".
Proof.
  destruct (not_enough_seats_rejected (Sample.booking 5)
              (Sample.world Sample.tables Sample.no_faults)
              {| CreateOrder.event := Sample.concert;
                 CreateOrder.category_name := "Music";
                 CreateOrder.city_name := "Moscow" |} []
              eq_refl ltac:(vm_compute; reflexivity) ltac:(vm_compute; reflexivity))
    as (res & w' & Hrun & Hfail & Hord & _ & _ & Hmsg).
  exists res, w'. split; [done |]. split; [done |]. split; [done |].
  rewrite Hmsg; [vm_compute; reflexivity | reflexivity | reflexivity].
Defined.

(** ** generateOrderCode *)



Lemma append_cons c (s t : string) : String c s +:+ t = String c (s +:+ t).
Proof. reflexivity. Qed.

Lemma append_nil_r (s : string) : s +:+ "" = s.
Proof. induction s as [|c s IH]; [done |]. by rewrite append_cons, IH. Qed.


Lemma append_assoc (s t u : string) : (s +:+ t) +:+ u = s +:+ (t +:+ u).
Proof.
  induction s as [|c s IH]; [done |]. by rewrite !append_cons, IH.
Qed.




(** ** manageOrderTool *)

(** A statement sent to the pool when no call to the database fails. *)
Lemma query_auto_ok {A} (stmt : Db.Tables -> A * Db.Tables) w r w' :
  query stmt w = (r, w') -> tx (conn w) = None ->
  (forall n, db_fault (config w) n = false) ->
  r = Ok (stmt (db (conn w))).1
  /\ db (conn w') = (stmt (db (conn w))).2
  /\ tx (conn w') = None /\ config w' = config w.
Proof.
  intros Hrun Htx Hok.
  destruct (query_auto _ _ _ _ Hrun Htx)
    as (Hcfg & Htx' & _ & [(Hf & _) | (_ & -> & Hdb)]).
  - by rewrite Hok in Hf.
  - done.
Qed.

(** The lookup of [manageOrderTool], made of one query or two, when no
    call to the database fails: it yields the rows of [find_order] and
    writes nothing. *)
Lemma lookup_ok wh w r w' :
  ManageOrder.lookup wh w = (r, w') ->
  tx (conn w) = None -> (forall n, db_fault (config w) n = false) ->
  r = Ok (find_order wh (db (conn w)))
  /\ db (conn w') = db (conn w) /\ tx (conn w') = None
  /\ config w' = config w.
Proof.
  intros Hrun Htx Hok. unfold find_order. unfold ManageOrder.lookup in Hrun.
  apply bind_inv in Hrun as [(rows1 & w1 & Hq1 & Hrun) | (e & Hq1 & ->)].
  - apply query_auto_ok in Hq1 as ([= ->] & Hdb1 & Htx1 & Hcfg1); [| done..].
    cbn [fst snd] in *.
    destruct (ManageOrder.select_order wh (db (conn w))) as [|row rest].
    + apply query_auto_ok in Hrun as (-> & Hdb2 & Htx2 & Hcfg2);
        [| done | by rewrite Hcfg1].
      cbn [fst snd] in *. rewrite Hdb1 in *.
      split; [done |]. split; [done |]. split; [done | congruence].
    + by apply ret_inv in Hrun as [-> ->].
  - by apply query_auto_ok in Hq1 as ([=] & _).
Qed.

(** C7. For every order that [manageOrderTool] finds, the action
    [reject_payment] sets [status] and [payment_status] of the order to
    ['rejected'], adds the order's [seats_count] to the [available_seats]
    of the event the order points to, and returns the order object with
    the rejected status (the database being reachable and no call to it
    failing). *)
Theorem reject_payment_returns_seats ctx wh w row rest :
  ManageOrder.action ctx = ManageOrder.RejectPayment ->
  ManageOrder.where_of ctx = Some wh ->
  tx (conn w) = None ->
  (getPool ToolManageOrder w).1 = Ok true ->
  (forall n, db_fault (config w) n = false) ->
  find_order wh (db (conn w)) = row :: rest ->
  exists res v w',
    ManageOrder.execute ctx w = (Ok res, w')
    /\ ManageOrder.success res = true
    /\ ManageOrder.order res = Some v
    /\ ManageOrder.id v = Db.o_id (ManageOrder.row_order row)
    /\ ManageOrder.status v = "rejected"
    /\ ManageOrder.paymentStatus v = Some "rejected"
    /\ Db.orders (db (conn w'))
       = map (fun x => if Db.o_id x =? Db.o_id (ManageOrder.row_order row)
                       then Db.set_order_status "rejected" (Some "rejected") x
                       else x)
             (Db.orders (db (conn w)))
    /\ Forall (fun x => Db.o_id x = Db.o_id (ManageOrder.row_order row) ->
                        Db.o_status x = "rejected"
                        /\ Db.o_payment_status x = Some "rejected")
              (Db.orders (db (conn w')))
    /\ Db.events (db (conn w'))
       = map (fun e =>
                if Db.col_is (Db.o_event_id (ManageOrder.row_order row)) (Db.ev_id e)
                then Db.set_available_seats
                       (Db.ev_available_seats e
                        + Db.o_seats_count (ManageOrder.row_order row)) e
                else e)
             (Db.events (db (conn w))).
Proof.
  intros Hact Hwh Htx Hpool Hok Hfind.
  destruct (ManageOrder.execute ctx w) as [r w'] eqn:Hrun.
  unfold ManageOrder.execute in Hrun.
  apply bind_inv in Hrun as [(b & w1 & Hp & Hrun) | (e & Hp & ->)].
  2:{ by apply getPool_inv in Hp as ([b [=]] & _). }
  rewrite Hp in Hpool. cbn in Hpool. injection Hpool as ->.
  apply getPool_inv in Hp as (_ & Hc1 & Hcfg1). cbn [negb] in Hrun.
  assert (Hok1 : forall n, db_fault (config w1) n = false) by (by rewrite Hcfg1).
  assert (Htx1 : tx (conn w1) = None) by (by rewrite Hc1).
  assert (Hbody : exists res,
             ManageOrder.run ctx w1 = (Ok res, w')
             /\ r = Ok res
             /\ res = {| ManageOrder.success := true;
                         ManageOrder.order :=
                           Some (ManageOrder.with_status "rejected" (Some "rejected")
                                   (ManageOrder.view_of row));
                         ManageOrder.message :=
                           "❌ Оплата заказа "
                           +:+ ManageOrder.v_orderCode (ManageOrder.view_of row)
                           +:+ " отклонена. Места возвращены в продажу." |}
             /\ db (conn w')
                = Db.add_seats (Db.o_seats_count (ManageOrder.row_order row))
                    (Db.o_event_id (ManageOrder.row_order row))
                    (Db.update_order_status "rejected" (Some "rejected")
                       (Db.o_id (ManageOrder.row_order row)) (db (conn w)))).
  { destruct (ManageOrder.run ctx w1) as [r1 w2] eqn:Hrun1.
    assert (Hrun0 := Hrun1).
    unfold ManageOrder.run in Hrun1. rewrite Hwh, Hact in Hrun1.
    apply bind_inv in Hrun1 as [(rows & w3 & Hl & Hrun1) | (e & Hl & ->)].
    2:{ by apply lookup_ok in Hl as ([=] & _). }
    apply lookup_ok in Hl as ([= ->] & Hdb3 & Htx3 & Hcfg3); [| done..].
    rewrite Hc1, Hfind in Hrun1.
    assert (Hok3 : forall n, db_fault (config w3) n = false) by (by rewrite Hcfg3).
    apply bind_inv in Hrun1 as [([] & w4 & Hu & Hrun1) | (e & Hu & ->)].
    2:{ by apply query_auto_ok in Hu as ([=] & _). }
    apply query_auto_ok in Hu as (_ & Hdb4 & Htx4 & Hcfg4); [| done..].
    assert (Hok4 : forall n, db_fault (config w4) n = false) by (by rewrite Hcfg4).
    apply bind_inv in Hrun1 as [([] & w5 & Hs & Hrun1) | (e & Hs & ->)].
    2:{ by apply query_auto_ok in Hs as ([=] & _). }
    apply query_auto_ok in Hs as (_ & Hdb5 & Htx5 & Hcfg5); [| done..].
    apply ret_inv in Hrun1 as [-> ->].
    unfold try_catch in Hrun. rewrite Hrun0 in Hrun. injection Hrun as <- <-.
    eexists. split; [done |]. split; [done |]. split; [reflexivity |].
    cbn [fst snd] in *. rewrite Hdb5, Hdb4, Hdb3, Hc1. done. }
  destruct Hbody as (res & _ & -> & -> & Hdb).
  eexists _, _, w'. split; [reflexivity |]. rewrite Hdb. cbn.
  do 6 (split; [reflexivity |]). split; [| reflexivity].
  apply Forall_forall. intros x Hx Hid.
  apply list_elem_of_fmap in Hx as (y & -> & Hy).
  destruct (Z.eqb_spec (Db.o_id y) (Db.o_id (ManageOrder.row_order row))) as [E | NE].
  - done.
  - done.
Qed.

Lemma reject_payment_returns_seats_witness :
  exists res v w',
    ManageOrder.execute Sample.reject7
      (Sample.world Sample.tables_with_order Sample.no_faults) = (Ok res, w')
    /\ ManageOrder.order res = Some v
    /\ ManageOrder.status v = "rejected"
    /\ ManageOrder.paymentStatus v = Some "rejected"
    /\ map Db.o_status (Db.orders (db (conn w'))) = ["rejected"]
    /\ map Db.ev_available_seats (Db.events (db (conn w'))) = [5].
Proof.
  destruct (reject_payment_returns_seats Sample.reject7 (ManageOrder.ById 7)
              (Sample.world Sample.tables_with_order Sample.no_faults)
              {| ManageOrder.row_order := Sample.order7;
                 ManageOrder.event_name := "Concert";
                 ManageOrder.event_date := Some "2025-01-01";
                 ManageOrder.event_time := None;
                 ManageOrder.category_name := "Music";
                 ManageOrder.city_name := Some "Moscow" |} []
              eq_refl eq_refl eq_refl eq_refl (fun _ => eq_refl)
              ltac:(vm_compute; reflexivity))
    as (res & v & w' & Hrun & _ & Hv & _ & Hst & Hpay & Hord & _ & Hev).
  exists res, v, w'. rewrite Hord, Hev. done.
Defined.

(** ** Which operations are transactions *)

Lemma query_calls {A} (stmt : Db.Tables -> A * Db.Tables) w r w' :
  query stmt w = (r, w') -> db_calls (conn w') = S (db_calls (conn w)).
Proof.
  intros Hrun. apply db_call_inv in Hrun as (_ & [(_ & _ & ->) | (_ & _ & ->)]);
    unfold put_view; cbn; [done |]. by destruct (tx (conn w)).
Qed.

Lemma query_insert_calls row w r w' :
  query_insert row w = (r, w') -> db_calls (conn w') = S (db_calls (conn w)).
Proof.
  intros Hrun. apply db_call_inv in Hrun as (_ & [(_ & _ & ->) | (_ & _ & ->)]);
    unfold put_view; cbn; [done |]. by destruct (tx (conn w)).
Qed.

(** A statement sent to the pool, by what the oracle says of its call. *)
Lemma query_auto_at {A} (stmt : Db.Tables -> A * Db.Tables) w r w' :
  query stmt w = (r, w') -> tx (conn w) = None ->
  config w' = config w /\ tx (conn w') = None
  /\ db_calls (conn w') = S (db_calls (conn w))
  /\ if db_fault (config w) (db_calls (conn w))
     then r = Throw DbError /\ db (conn w') = db (conn w)
     else r = Ok (stmt (db (conn w))).1
          /\ db (conn w') = (stmt (db (conn w))).2.
Proof.
  intros Hrun Htx. pose proof (query_calls _ _ _ _ Hrun) as Hn.
  destruct (query_auto _ _ _ _ Hrun Htx)
    as (Hcfg & Htx' & _ & [(-> & Hr & Hdb) | (-> & Hr & Hdb)]); auto.
Qed.

(** Running a computation forward, one step at a time. *)
Lemma bind_ok {A B} (m : M A) (k : A -> M B) w a w1 :
  m w = (Ok a, w1) -> bind m k w = k a w1.
Proof. unfold bind. by intros ->. Qed.

Lemma bind_throw {A B} (m : M A) (k : A -> M B) w e w1 :
  m w = (Throw e, w1) -> bind m k w = (Throw e, w1).
Proof. unfold bind. by intros ->. Qed.

Lemma try_catch_ok {A} (m : M A) h w a w1 :
  m w = (Ok a, w1) -> try_catch m h w = (Ok a, w1).
Proof. unfold try_catch. by intros ->. Qed.

Lemma try_catch_throw {A} (m : M A) h w e w1 :
  m w = (Throw e, w1) -> try_catch m h w = h e w1.
Proof. unfold try_catch. by intros ->. Qed.

(** A statement sent to the pool runs to the outcome its call number
    decides. *)
Lemma query_auto_run {A} (stmt : Db.Tables -> A * Db.Tables) w :
  tx (conn w) = None ->
  exists w',
    query stmt w
    = (if db_fault (config w) (db_calls (conn w)) then Throw DbError
       else Ok (stmt (db (conn w))).1, w')
    /\ config w' = config w /\ tx (conn w') = None
    /\ db_calls (conn w') = S (db_calls (conn w))
    /\ order_seq (conn w') = order_seq (conn w)
    /\ db (conn w')
       = if db_fault (config w) (db_calls (conn w)) then db (conn w)
         else (stmt (db (conn w))).2.
Proof.
  intros Htx. destruct (query stmt w) as [r w'] eqn:Hrun. exists w'.
  pose proof (query_calls _ _ _ _ Hrun) as Hn.
  destruct (query_auto _ _ _ _ Hrun Htx)
    as (Hcfg & Htx' & Hseq & [(-> & -> & Hdb) | (-> & -> & Hdb)]); auto 10.
Qed.

Lemma query_insert_auto_run row w :
  tx (conn w) = None ->
  exists w',
    query_insert row w
    = (if db_fault (config w) (db_calls (conn w)) then Throw DbError
       else Ok (order_seq (conn w) + 1), w')
    /\ config w' = config w /\ tx (conn w') = None
    /\ db_calls (conn w') = S (db_calls (conn w))
    /\ db (conn w')
       = if db_fault (config w) (db_calls (conn w)) then db (conn w)
         else Db.insert_order (row (order_seq (conn w) + 1)) (db (conn w)).
Proof.
  intros Htx. destruct (query_insert row w) as [r w'] eqn:Hrun. exists w'.
  pose proof (query_insert_calls _ _ _ _ Hrun) as Hn.
  destruct (query_insert_auto _ _ _ _ Hrun Htx)
    as (Hcfg & Htx' & [(-> & -> & Hdb & _) | (-> & -> & _ & Hdb)]); auto 10.
Qed.

Lemma getPool_run t w :
  (getPool t w).1 = Ok true ->
  exists w1, getPool t w = (Ok true, w1)
             /\ conn w1 = conn w /\ config w1 = config w.
Proof.
  destruct (getPool t w) as [r w1] eqn:Hp. cbn. intros ->. exists w1.
  by apply getPool_inv in Hp as (_ & ? & ?).
Qed.







(** ** Admin sessions *)

Lemma sessions_after_generate token t w :
  adminSessionTokens (Admin.step (Admin.Generate token t) w)
  = <[token := t + Admin.session_ms]> (adminSessionTokens w).
Proof. reflexivity. Qed.

Lemma sessions_after_check token t w :
  adminSessionTokens (Admin.step (Admin.Check token t) w)
  = match adminSessionTokens w !! token with
    | Some expiry =>
        if (negb (expiry =? 0)) && (expiry <? t)
        then delete token (adminSessionTokens w)
        else adminSessionTokens w
    | None => adminSessionTokens w
    end.
Proof.
  unfold Admin.step, Admin.isValidAdminToken.
  cbn [adminSessionTokens set_clock clock].
  destruct (adminSessionTokens w !! token) as [expiry |]; [| done].
  destruct (expiry =? 0); [done |]. by destruct (expiry <? t).
Qed.

(** The session invariant is kept by one more event. *)
Lemma sessions_ok_step past t e w :
  sessions_ok past t (adminSessionTokens w) -> t <= Admin.time_of e ->
  sessions_ok (past ++ [e]) (Admin.time_of e)
    (adminSessionTokens (Admin.step e w)).
Proof.
  intros (Ht & Hpast & Hsome & Hnone) Hle.
  assert (Hin : forall x, In x (past ++ [e]) -> In x past \/ x = e).
  { intros x Hx. apply in_app_or in Hx as [? | [-> | []]]; auto. }
  split; [lia |]. split.
  { intros x Hx. destruct (Hin x Hx) as [Hx' | ->]; [| lia].
    specialize (Hpast x Hx'). lia. }
  assert (Hkeep :
    (forall token t0, In (Admin.Generate token t0) (past ++ [e]) ->
                      In (Admin.Generate token t0) past) ->
    (forall token expiry,
       adminSessionTokens w !! token = Some expiry ->
       exists t0, In (Admin.Generate token t0) (past ++ [e])
                  /\ expiry = t0 + Admin.session_ms
                  /\ forall t1, In (Admin.Generate token t1) (past ++ [e]) -> t1 <= t0)
    /\ (forall token t0,
          adminSessionTokens w !! token = None ->
          In (Admin.Generate token t0) (past ++ [e]) ->
          t0 + Admin.session_ms < Admin.time_of e)).
  { intros Hgens. split.
    - intros token ex Hl. destruct (Hsome _ _ Hl) as (t0 & Hgen & -> & Hmax).
      exists t0. split; [apply in_or_app; by left |]. split; [done |].
      intros t1 H1. apply Hmax. by apply Hgens.
    - intros token t0 Hl Hgen. specialize (Hnone _ _ Hl (Hgens _ _ Hgen)). lia. }
  destruct e as [tok t' | tok t']; cbn [Admin.time_of] in *.
  - (* a token is generated *)
    rewrite sessions_after_generate. split.
    + intros token expiry Hlook.
      destruct (decide (tok = token)) as [-> | Hne].
      * rewrite lookup_insert_eq in Hlook. injection Hlook as <-.
        exists t'. split; [apply in_or_app; right; by left |].
        split; [done |]. intros t1 H1.
        destruct (Hin _ H1) as [H1' | [= ->]]; [| lia].
        specialize (Hpast _ H1'). cbn in Hpast. lia.
      * rewrite lookup_insert_ne in Hlook by done.
        destruct (Hsome _ _ Hlook) as (t0 & Hgen & -> & Hmax).
        exists t0. split; [apply in_or_app; by left |]. split; [done |].
        intros t1 H1. destruct (Hin _ H1) as [H1' | [= -> _]]; [by apply Hmax | done].
    + intros token t0 Hlook Hgen.
      destruct (decide (tok = token)) as [-> | Hne].
      * by rewrite lookup_insert_eq in Hlook.
      * rewrite lookup_insert_ne in Hlook by done.
        destruct (Hin _ Hgen) as [Hgen' | [= -> _]]; [| done].
        specialize (Hnone _ _ Hlook Hgen'). lia.
  - (* a token is checked *)
    assert (Hgens : forall token t0,
               In (Admin.Generate token t0) (past ++ [Admin.Check tok t']) ->
               In (Admin.Generate token t0) past).
    { intros token t0 H0. by destruct (Hin _ H0) as [? | [=]]. }
    destruct (Hkeep Hgens) as [Hsome' Hnone'].
    rewrite sessions_after_check.
    destruct (adminSessionTokens w !! tok) as [expiry |] eqn:Hlook; [| done].
    destruct (Z.eqb_spec expiry 0) as [? | Hnz]; cbn [negb andb]; [done |].
    destruct (Z.ltb_spec expiry t') as [Hexp | Hlive]; [| done].
    (* the token has expired and is removed *)
    split.
    + intros token ex Hl.
      destruct (decide (tok = token)) as [-> | Hne];
        [by rewrite lookup_delete_eq in Hl |].
      rewrite lookup_delete_ne in Hl by done. by apply Hsome'.
    + intros token t0 Hl Hgen.
      destruct (decide (tok = token)) as [-> | Hne].
      * destruct (Hsome _ _ Hlook) as (t1 & _ & -> & Hmax).
        specialize (Hmax _ (Hgens _ _ Hgen)). lia.
      * rewrite lookup_delete_ne in Hl by done. by apply (Hnone' token t0).
Qed.

Lemma sessions_ok_after rest : forall past t w now,
  sessions_ok past t (adminSessionTokens w) ->
  Admin.ordered_from t rest now ->
  exists t', sessions_ok (past ++ rest) t' (adminSessionTokens (Admin.after rest w))
             /\ t' <= now.
Proof.
  induction rest as [|e rest IH]; intros past t w now Hok Hord.
  - exists t. rewrite app_nil_r. done.
  - destruct Hord as [Hle Hord].
    destruct (IH (past ++ [e]) (Admin.time_of e) (Admin.step e w) now)
      as (t' & Hok' & Hle'); [by apply (sessions_ok_step past t) | done |].
    exists t'. by rewrite <- app_assoc in Hok'.
Qed.

Lemma ordered_from_lower history lo now e :
  Admin.ordered_from lo history now -> In e history -> lo <= Admin.time_of e.
Proof.
  revert lo. induction history as [|x rest IH]; intros lo Hord Hin; [done |].
  destruct Hord as [Hle Hord]. destruct Hin as [-> | Hin]; [done |].
  specialize (IH _ Hord Hin). lia.
Qed.

Lemma sessions_ok_empty : sessions_ok [] 0 ∅.
Proof.
  split; [done |]. split; [by intros e [] |]. split.
  - intros token expiry H. by rewrite lookup_empty in H.
  - by intros token t0 _ [].
Qed.

(** What a check answers, read off the session map. *)
Lemma isValidAdminToken_true token w :
  (Admin.isValidAdminToken token w).1 = Ok true
  <-> exists expiry, adminSessionTokens w !! token = Some expiry
                     /\ expiry <> 0 /\ clock w <= expiry.
Proof.
  unfold Admin.isValidAdminToken.
  destruct (adminSessionTokens w !! token) as [expiry |]; cbn.
  2:{ split; [done | by intros (? & [=] & _)]. }
  destruct (Z.eqb_spec expiry 0) as [-> | Hnz]; cbn.
  { split; [done | by intros (? & [= <-] & ? & _)]. }
  destruct (Z.ltb_spec expiry (clock w)); cbn.
  - split; [done |]. intros (? & [= <-] & _ & ?). lia.
  - split; [| done]. intros _. exists expiry. done.
Qed.

(** C9, as stated, does not hold: a token is still accepted when exactly
    24 hours have elapsed since it was generated. *)
Lemma accepted_at_24_hours :
  ~ accepts_exactly (fun elapsed => elapsed < Admin.session_ms).
Proof.
  intros H.
  destruct (H [Admin.Generate "token" 1000] (1000 + Admin.session_ms) "token"
              (Sample.world Sample.tables Sample.no_faults) eq_refl)
    as [Hvalid _].
  { cbn. unfold Admin.session_ms. lia. }
  destruct (Hvalid ltac:(vm_compute; reflexivity)) as (t0 & [[= <-] | []] & Hlt).
  lia.
Qed.

(** C9, amended.  Over every history of generations and checks that
    starts with no session and in which the clock never goes back,
    [isValidAdminToken] returns true if and only if the token was
    generated earlier and at most 24 hours have elapsed since a
    generation of it.  A check made after the expiry of a token removes
    the token from the session map and returns false, and a check that
    returns true finds an expiry that has not passed. *)
Theorem admin_token_valid_for_24_hours :
  accepts_exactly (fun elapsed => elapsed <= Admin.session_ms)
  /\ (forall token w expiry,
        adminSessionTokens w !! token = Some expiry ->
        expiry <> 0 -> expiry < clock w ->
        Admin.isValidAdminToken token w
        = (Ok false,
           set_adminSessionTokens (delete token (adminSessionTokens w)) w)
        /\ adminSessionTokens (Admin.isValidAdminToken token w).2 !! token = None)
  /\ (forall token w,
        (Admin.isValidAdminToken token w).1 = Ok true ->
        exists expiry, adminSessionTokens w !! token = Some expiry
                       /\ clock w <= expiry).
Proof.
  split; [| split].
  - intros history now token w Hempty Hord.
    destruct (sessions_ok_after history [] 0 w now) as (t & Hok & Hle);
      [rewrite Hempty; apply sessions_ok_empty | done |].
    cbn [app] in Hok. destruct Hok as (Ht & Hpast & Hsome & Hnone).
    unfold Admin.valid_at.
    pose proof (isValidAdminToken_true token
                  (set_clock now (Admin.after history w))) as Hiff.
    cbn [adminSessionTokens set_clock clock] in Hiff.
    assert (Hpos : 0 < Admin.session_ms) by (unfold Admin.session_ms; lia).
    split.
    + intros Hvalid.
      destruct (Admin.isValidAdminToken token _).1 as [[] |] eqn:E; try done.
      destruct (proj1 Hiff eq_refl) as (expiry & Hlook & _ & Hnow).
      destruct (Hsome _ _ Hlook) as (t0 & Hgen & -> & _).
      exists t0. split; [done | lia].
    + intros (t0 & Hgen & Hwithin).
      destruct (adminSessionTokens (Admin.after history w) !! token)
        as [expiry |] eqn:Hlook.
      * destruct (Hsome _ _ Hlook) as (t1 & Hgen1 & -> & Hmax).
        specialize (Hmax _ Hgen). specialize (Hpast _ Hgen1). cbn in Hpast.
        rewrite (proj2 Hiff); [done |].
        exists (t1 + Admin.session_ms). split; [done |].
        pose proof (ordered_from_lower _ _ _ _ Hord Hgen1) as Hlow.
        cbn in Hlow. lia.
      * specialize (Hnone _ _ Hlook Hgen). lia.
  - intros token w expiry Hlook Hnz Hexp.
    unfold Admin.isValidAdminToken. rewrite Hlook.
    destruct (Z.eqb_spec expiry 0); [done |].
    destruct (Z.ltb_spec expiry (clock w)); [| lia].
    split; [done |]. cbn. apply lookup_delete_eq.
  - intros token w Hvalid.
    apply isValidAdminToken_true in Hvalid as (expiry & ? & _ & ?). eauto.
Qed.

Lemma admin_token_valid_for_24_hours_witness :
  Admin.valid_at [Admin.Generate "token" 1000] (1000 + Admin.session_ms) "token"
    (Sample.world Sample.tables Sample.no_faults) = true
  /\ Admin.valid_at [Admin.Generate "token" 1000] (1001 + Admin.session_ms) "token"
       (Sample.world Sample.tables Sample.no_faults) = false.
Proof.
  destruct admin_token_valid_for_24_hours as (Hiff & _).
  split.
  - apply (Hiff [Admin.Generate "token" 1000] (1000 + Admin.session_ms) "token"
             (Sample.world Sample.tables Sample.no_faults) eq_refl).
    + cbn. unfold Admin.session_ms. lia.
    + exists 1000. split; [by left | lia].
  - destruct (Admin.valid_at _ (1001 + Admin.session_ms) _ _) eqn:E; [| done].
    apply (Hiff [Admin.Generate "token" 1000] (1001 + Admin.session_ms) "token"
             (Sample.world Sample.tables Sample.no_faults) eq_refl) in E.
    + destruct E as (t0 & [[= <-] | []] & Hle). lia.
    + cbn. unfold Admin.session_ms. lia.
Defined.

(** ** The handler of /api/create-order *)

Lemma prop_field body name name' :
  Js.getProp body name' <> None ->
  Api.prop body name = ret (field body name).
Proof.
  unfold Api.prop, field, Js.getProp. by destruct body.
Qed.

(** C6, as stated, does not hold: a request whose [seatsCount] is the
    text 2.5, which is not an integer between 1 and 10, is accepted, and
    an order for 2 seats is created. *)
Lemma fraction_of_seats_accepted :
  ~ (forall body, stated_invalid body -> rejected_with_400 body).
Proof.
  intros H.
  destruct (H (Sample.request (Js.JStr "2.5"))) with
    (w := Sample.world Sample.tables Sample.no_faults) as [msg Hrun].
  - do 4 right. intros (z & Hz & [[=] | Heq]). cbn in Heq.
    assert (z = 1 \/ z = 2 \/ z = 3 \/ z = 4 \/ z = 5 \/ z = 6 \/ z = 7
            \/ z = 8 \/ z = 9 \/ z = 10) as Hcases by lia.
    destruct Hcases as [-> | [-> | [-> | [-> | [-> | [-> | [-> | [-> | [-> | ->]]]]]]]]];
      vm_compute in Heq; discriminate Heq.
  - vm_compute in Hrun. discriminate Hrun.
Qed.

(** C6, amended.  For every request whose body is JSON other than
    [null], if [eventId] is missing, 0 or not a number, if [customerName]
    or [customerPhone] is missing, empty, not a string or shorter than 2,
    respectively 5, characters after trimming, or if [parseInt] reads
    [seatsCount] as [NaN] or as a number below 1 or above 10, then the
    handler answers with status 400 and [success: false] and no order is
    created. *)
Theorem invalid_request_rejected body :
  Js.getProp body "eventId" <> None ->
  handler_invalid body ->
  rejected_with_400 body.
Proof.
  intros Hbody Hinvalid w. unfold Api.create_order.
  assert (Hv : exists msg,
             Api.validate body w
             = (Ok (inl (Api.json_status (Api.BodyMessage false msg) 400)), w)).
  { unfold Api.validate.
    rewrite (prop_field _ "eventId" _ Hbody). unfold bind at 1, ret at 1.
    destruct (Js.truthy (field body "eventId")) eqn:E1; cbn [negb orb];
      [| by eexists].
    destruct (bool_decide _) eqn:E2; cbn [negb]; [| by eexists].
    apply bool_decide_eq_true_1 in E2.
    rewrite (prop_field _ "customerName" _ Hbody). unfold bind at 1, ret at 1.
    destruct (Js.truthy (field body "customerName")) eqn:E3; cbn [negb orb];
      [| by eexists].
    destruct (Api.too_short (field body "customerName") 2) eqn:E4; [by eexists |].
    rewrite (prop_field _ "customerPhone" _ Hbody). unfold bind at 1, ret at 1.
    destruct (Js.truthy (field body "customerPhone")) eqn:E5; cbn [negb orb];
      [| by eexists].
    destruct (Api.too_short (field body "customerPhone") 5) eqn:E6; [by eexists |].
    rewrite (prop_field _ "seatsCount" _ Hbody). unfold bind at 1, ret at 1.
    destruct (Js.parseInt (field body "seatsCount")) as [n |] eqn:E7;
      [| by eexists].
    destruct (Z.ltb_spec n 1) as [? | Hlo]; cbn [orb]; [by eexists |].
    destruct (Z.ltb_spec 10 n) as [? | Hhi]; [by eexists |].
    exfalso.
    destruct Hinvalid as [? | [? | [? | [? | [? | [? | Hseats]]]]]];
      try congruence.
    rewrite E7 in Hseats. lia. }
  destruct Hv as [msg Hv]. exists msg.
  erewrite try_catch_ok; [reflexivity |].
  unfold bind at 1, ret at 1. by rewrite (bind_ok _ _ _ _ _ Hv).
Qed.

Lemma invalid_request_rejected_witness :
  exists msg,
    Api.create_order (Some (Sample.request (Js.JNum 11)))
      (Sample.world Sample.tables Sample.no_faults)
    = (Ok (Api.json_status (Api.BodyMessage false msg) 400),
       Sample.world Sample.tables Sample.no_faults).
Proof.
  apply (invalid_request_rejected (Sample.request (Js.JNum 11))).
  - discriminate.
  - do 6 right. vm_compute. right. reflexivity.
Defined.

(** *** The notifications *)

Lemma keeps_db_ret {A} (a : A) : keeps_db (ret a).
Proof. by intros w r w' [= <- <-]. Qed.

Lemma keeps_db_throw {A} e : keeps_db (@throw A e).
Proof. by intros w r w' [= <- <-]. Qed.

Lemma keeps_db_bind {A B} (m : M A) (k : A -> M B) :
  keeps_db m -> (forall a, keeps_db (k a)) -> keeps_db (bind m k).
Proof.
  intros Hm Hk w r w' Hrun.
  apply bind_inv in Hrun as [(a & w1 & Hm1 & Hk1) | (e & Hm1 & ->)].
  - destruct (Hm _ _ _ Hm1), (Hk _ _ _ _ Hk1). split; congruence.
  - by apply (Hm _ _ _ Hm1).
Qed.

Lemma keeps_db_try_catch {A} (m : M A) h :
  keeps_db m -> (forall e, keeps_db (h e)) -> keeps_db (try_catch m h).
Proof.
  intros Hm Hh w r w' Hrun.
  apply try_catch_inv in Hrun as [(a & Hm1 & ->) | (e & w1 & Hm1 & Hh1)].
  - by apply (Hm _ _ _ Hm1).
  - destruct (Hm _ _ _ Hm1), (Hh _ _ _ _ Hh1). split; congruence.
Qed.

Lemma keeps_db_getBot : keeps_db TelegramAdmin.getBot.
Proof.
  intros w r w'. unfold TelegramAdmin.getBot.
  destruct (TelegramAdmin.configured _); [| by intros [= <- <-]].
  destruct (bot (telegram w)); [by intros [= <- <-] |].
  destruct (bot_ctor_fails (config w)); by intros [= <- <-].
Qed.

Lemma keeps_db_api c : keeps_db (TelegramAdmin.api c).
Proof.
  intros w r w'. unfold TelegramAdmin.api.
  destruct (tg_fault _ _); by intros [= <- <-].
Qed.

Lemma keeps_db_send c : keeps_db
  (try_catch (TelegramAdmin.api c ;;; ret true) (fun _ => ret false)).
Proof.
  apply keeps_db_try_catch; [| intros; apply keeps_db_ret].
  apply keeps_db_bind; [apply keeps_db_api | intros; apply keeps_db_ret].
Qed.

Lemma keeps_db_sendChannelNotification order :
  keeps_db (TelegramAdmin.sendChannelNotification order).
Proof.
  apply keeps_db_bind; [apply keeps_db_getBot |].
  intros [|]; cbn [negb]; [| apply keeps_db_ret].
  intros w r w'.
  destruct (match TelegramAdmin.configured (GROUP_ID (env (config w))) with
            | Some g => Some g
            | None => TelegramAdmin.configured (ADMIN_CHAT_ID (env (config w)))
            end) as [chat |].
  - apply keeps_db_send.
  - apply keeps_db_ret.
Qed.

Lemma keeps_db_sendOrderNotificationToAdmin order :
  keeps_db (TelegramAdmin.sendOrderNotificationToAdmin order).
Proof.
  apply keeps_db_bind; [apply keeps_db_getBot |].
  intros [|]; cbn [negb]; [| apply keeps_db_ret].
  intros w r w'.
  destruct (TelegramAdmin.configured (ADMIN_CHAT_ID (env (config w))));
    [| apply keeps_db_ret].
  destruct (escapeMarkdown (config w)); [apply keeps_db_send | apply keeps_db_throw].
Qed.

Lemma keeps_db_promise_all {A B} (a : M A) (b : M B) :
  keeps_db a -> keeps_db b -> keeps_db (Api.promise_all a b).
Proof.
  intros Ha Hb w r w'. unfold Api.promise_all.
  destruct (a w) as [ra w1] eqn:Ea. destruct (b w1) as [rb w2] eqn:Eb.
  destruct (Ha _ _ _ Ea), (Hb _ _ _ Eb).
  destruct ra, rb; intros [= <- <-]; split; congruence.
Qed.

(** The notifications of a new order never raise and do not touch the
    database. *)
Lemma notify_run data w :
  exists w', Api.notify data w = (Ok tt, w')
             /\ conn w' = conn w /\ config w' = config w.
Proof.
  destruct (Api.notify data w) as [r w'] eqn:Hrun. exists w'.
  assert (Hkeep : keeps_db (Api.notify data)).
  { apply keeps_db_try_catch; [| intros; apply keeps_db_ret].
    apply keeps_db_bind; [| intros; apply keeps_db_ret].
    apply keeps_db_promise_all;
      [apply keeps_db_sendChannelNotification
      | apply keeps_db_sendOrderNotificationToAdmin]. }
  split; [| by apply (Hkeep _ _ _ Hrun)].
  unfold Api.notify in Hrun.
  apply try_catch_inv in Hrun as [([] & Hrun & ->) | (e & w1 & _ & Hcatch)].
  - done.
  - by apply ret_inv in Hcatch as [-> ->].
Qed.

Lemma bind_ret {A B} (a : A) (k : A -> M B) w : bind (ret a) k w = k a w.
Proof. reflexivity. Qed.

Lemma validate_body_not_null body w x w' :
  Api.validate body w = (Ok x, w') -> Js.getProp body "eventId" <> None.
Proof.
  unfold Api.validate. intros Hrun Hnone.
  apply bind_inv in Hrun as [(v & w1 & Hp & _) | (e & _ & [=])].
  unfold Api.prop in Hp. by rewrite Hnone in Hp.
Qed.

(** What is done for an accepted request once the tool has returned:
    whatever the notifications do, the answer is the result of the tool,
    with status 200. *)
Lemma place_order_run body ctx w res w1 :
  Js.getProp body "eventId" <> None ->
  CreateOrder.execute ctx w = (Ok res, w1) ->
  exists w2,
    Api.place_order body ctx w = (Ok (Api.json (Api.BodyOrder res)), w2)
    /\ conn w2 = conn w1 /\ config w2 = config w1.
Proof.
  intros Hbody Hrun. unfold Api.place_order.
  rewrite (bind_ok _ _ _ _ _ Hrun).
  destruct (CreateOrder.success res), (CreateOrder.orderId res) as [id |],
    (CreateOrder.orderCode res) as [code |];
    try (exists w1; by rewrite bind_ret).
  destruct ((id =? 0) || String.eqb code "");
    [exists w1; by rewrite bind_ret |].
  rewrite (prop_field _ "tickets" _ Hbody).
  destruct (notify_run (Api.notification_of res id code (field body "tickets")) w1)
    as (w2 & Hn & Hc & Hcfg).
  exists w2. split; [| done].
  erewrite bind_ok; [reflexivity |].
  rewrite bind_ret. exact Hn.
Qed.

(** C5. Once [createOrderTool] has returned for an accepted request (in
    particular when it has created the order), a failure of the Telegram
    notifications does not reach the caller of [/api/create-order]: the
    answer is the result of the tool, with status 200, and the database
    is as the tool left it.  [sendChannelNotification] never raises, and
    returns false when the bot is not configured or the send fails;
    [sendOrderNotificationToAdmin] returns false when the bot is not
    configured, and when the send fails. *)
Theorem notification_failures_swallowed :
  (forall body ctx w res w1,
     Api.validate body w = (Ok (inr ctx), w) ->
     CreateOrder.execute ctx w = (Ok res, w1) ->
     exists w2,
       Api.create_order (Some body) w
       = (Ok {| Api.status := 200; Api.body := Api.BodyOrder res |}, w2)
       /\ conn w2 = conn w1)
  /\ (forall order w,
        exists sent w',
          TelegramAdmin.sendChannelNotification order w = (Ok sent, w')
          /\ ((TelegramAdmin.getBot w).1 = Ok false -> sent = false)
          /\ (tg_fault (config w) (tg_calls (telegram w)) = true -> sent = false))
  /\ (forall order w,
        ((TelegramAdmin.getBot w).1 = Ok false ->
         exists w', TelegramAdmin.sendOrderNotificationToAdmin order w
                    = (Ok false, w'))
        /\ (forall chat,
              (TelegramAdmin.getBot w).1 = Ok true ->
              TelegramAdmin.configured (ADMIN_CHAT_ID (env (config w))) = Some chat ->
              is_Some (escapeMarkdown (config w)) ->
              tg_fault (config w) (tg_calls (telegram w)) = true ->
              exists w', TelegramAdmin.sendOrderNotificationToAdmin order w
                         = (Ok false, w'))).
Proof.
  split; [| split].
  - intros body ctx w res w1 Hv Hrun.
    pose proof (validate_body_not_null _ _ _ _ Hv) as Hbody.
    destruct (place_order_run body ctx w res w1 Hbody Hrun) as (w2 & Hp & Hc & _).
    exists w2. split; [| done]. unfold Api.create_order.
    erewrite try_catch_ok; [reflexivity |].
    rewrite bind_ret.
    by rewrite (bind_ok _ _ _ _ _ Hv).
  - intros order w. unfold TelegramAdmin.sendChannelNotification.
    destruct (TelegramAdmin.getBot w) as [rb w1] eqn:Hbot.
    assert (Hw1 : config w1 = config w /\ tg_calls (telegram w1) = tg_calls (telegram w)
                  /\ exists b, rb = Ok b).
    { unfold TelegramAdmin.getBot in Hbot.
      destruct (TelegramAdmin.configured _); [| injection Hbot as <- <-; eauto].
      destruct (bot (telegram w)); [injection Hbot as <- <-; eauto |].
      destruct (bot_ctor_fails (config w)); injection Hbot as <- <-; eauto. }
    destruct Hw1 as (Hcfg & Hcalls & [b ->]).
    rewrite (bind_ok _ _ _ _ _ Hbot). cbn [fst].
    destruct b; cbn [negb]; [| by eexists _, _].
    destruct (match TelegramAdmin.configured (GROUP_ID (env (config w1))) with
              | Some g => Some g
              | None => TelegramAdmin.configured (ADMIN_CHAT_ID (env (config w1)))
              end) as [chat |]; [| by eexists _, _].
    unfold try_catch, bind, TelegramAdmin.api. rewrite Hcfg, Hcalls.
    destruct (tg_fault (config w) (tg_calls (telegram w)));
      eexists _, _; (split; [reflexivity |]); done.
  - intros order w. unfold TelegramAdmin.sendOrderNotificationToAdmin.
    destruct (TelegramAdmin.getBot w) as [rb w1] eqn:Hbot.
    assert (Hw1 : config w1 = config w
                  /\ tg_calls (telegram w1) = tg_calls (telegram w)).
    { unfold TelegramAdmin.getBot in Hbot.
      destruct (TelegramAdmin.configured _); [| by injection Hbot as <- <-].
      destruct (bot (telegram w)); [by injection Hbot as <- <-|].
      destruct (bot_ctor_fails (config w)); by injection Hbot as <- <-. }
    destruct Hw1 as (Hcfg & Hcalls). cbn [fst]. split.
    + intros ->. rewrite (bind_ok _ _ _ _ _ Hbot). by eexists.
    + intros chat -> Hchat [f Hf] Hfault. rewrite (bind_ok _ _ _ _ _ Hbot).
      cbn [negb]. rewrite Hcfg, Hchat, Hf.
      unfold try_catch, bind, TelegramAdmin.api. rewrite Hcfg, Hcalls, Hfault.
      by eexists.
Qed.

Lemma notification_failures_swallowed_witness :
  exists w2,
    Api.create_order (Some (Sample.request (Js.JNum 2))) Sample.telegram_is_down
    = (Ok {| Api.status := 200; Api.body := Api.BodyOrder Sample.placed |}, w2)
    /\ conn w2 = conn (CreateOrder.execute (Sample.booking 2)
                         Sample.telegram_is_down).2.
Proof.
  apply (proj1 notification_failures_swallowed
           (Sample.request (Js.JNum 2)) (Sample.booking 2)
           Sample.telegram_is_down Sample.placed
           (CreateOrder.execute (Sample.booking 2) Sample.telegram_is_down).2).
  - vm_compute; reflexivity.
  - vm_compute; reflexivity.
Defined.

(** * Further properties of the tools and the handlers *)

(** ** What a call to the database leaves alone *)

Lemma only_db_ret {A} (a : A) : only_db (ret a).
Proof. by intros w r w' [= <- <-]. Qed.

Lemma only_db_throw {A} e : only_db (@throw A e).
Proof. by intros w r w' [= <- <-]. Qed.

Lemma only_db_bind {A B} (m : M A) (k : A -> M B) :
  only_db m -> (forall a, only_db (k a)) -> only_db (bind m k).
Proof.
  intros Hm Hk w r w' Hrun.
  apply bind_inv in Hrun as [(a & w1 & Hm1 & Hk1) | (e & Hm1 & ->)].
  - destruct (Hm _ _ _ Hm1) as (? & ? & ? & ?).
    destruct (Hk _ _ _ _ Hk1) as (? & ? & ? & ?). repeat split; congruence.
  - by apply (Hm _ _ _ Hm1).
Qed.

Lemma only_db_try_catch {A} (m : M A) h :
  only_db m -> (forall e, only_db (h e)) -> only_db (try_catch m h).
Proof.
  intros Hm Hh w r w' Hrun.
  apply try_catch_inv in Hrun as [(a & Hm1 & ->) | (e & w1 & Hm1 & Hh1)].
  - by apply (Hm _ _ _ Hm1).
  - destruct (Hm _ _ _ Hm1) as (? & ? & ? & ?).
    destruct (Hh _ _ _ _ Hh1) as (? & ? & ? & ?). repeat split; congruence.
Qed.

Lemma only_db_db_call {A} (f : Conn -> A * Conn) : only_db (db_call f).
Proof.
  intros w r w'. unfold db_call. destruct (db_fault _ _); by intros [= <- <-].
Qed.

Lemma only_db_query {A} (stmt : Db.Tables -> A * Db.Tables) : only_db (query stmt).
Proof. apply only_db_db_call. Qed.

Lemma only_db_lookup wh : only_db (ManageOrder.lookup wh).
Proof.
  apply only_db_bind; [apply only_db_query |].
  intros [| row rest]; [apply only_db_query | apply only_db_ret].
Qed.

Lemma only_db_run ctx : only_db (ManageOrder.run ctx).
Proof.
  unfold ManageOrder.run.
  destruct (ManageOrder.where_of ctx) as [wh |]; [| apply only_db_ret].
  apply only_db_bind; [apply only_db_lookup |].
  intros [| row rest]; [apply only_db_ret |].
  unfold ManageOrder.update_order, ManageOrder.restore_seats.
  destruct (ManageOrder.action ctx).
  - apply only_db_ret.
  - apply only_db_bind; [apply only_db_query | intros; apply only_db_ret].
  - apply only_db_bind; [apply only_db_query | intros].
    apply only_db_bind; [apply only_db_query | intros; apply only_db_ret].
  - apply only_db_bind; [apply only_db_query | intros].
    apply only_db_bind; [| intros; apply only_db_ret].
    destruct (bool_decide _); [apply only_db_ret | apply only_db_query].
Qed.

(** Once [getPool] has answered with a pool, the pool is cached: the
    next call answers with it whatever the environment says. *)
Lemma getPool_cached t w w1 :
  getPool t w = (Ok true, w1) -> pool w1 t = true.
Proof.
  unfold getPool. destruct (pool w t) eqn:Hp; [by intros [= <-] |].
  destruct (DATABASE_URL (env (config w))) as [[| c u] |]; try done.
  destruct (pool_ctor_fails (config w)); [done |].
  intros [= <-]. cbn. by rewrite decide_True.
Qed.

Lemma getPool_of_cached t w :
  pool w t = true -> getPool t w = (Ok true, w).
Proof. unfold getPool. by intros ->. Qed.

(** ** manageOrderTool, every statement going through *)

Lemma lookup_run wh w :
  tx (conn w) = None -> (forall n, db_fault (config w) n = false) ->
  exists w',
    ManageOrder.lookup wh w = (Ok (find_order wh (db (conn w))), w')
    /\ db (conn w') = db (conn w) /\ tx (conn w') = None
    /\ config w' = config w /\ pool w' = pool w.
Proof.
  intros Htx Hok. destruct (ManageOrder.lookup wh w) as [r w'] eqn:Hrun.
  destruct (only_db_lookup wh _ _ _ Hrun) as (Hpool & _).
  apply lookup_ok in Hrun as (-> & ? & ? & ?); [| done..].
  by exists w'.
Qed.

Lemma query_run_ok {A} (stmt : Db.Tables -> A * Db.Tables) w :
  tx (conn w) = None -> (forall n, db_fault (config w) n = false) ->
  exists w',
    query stmt w = (Ok (stmt (db (conn w))).1, w')
    /\ db (conn w') = (stmt (db (conn w))).2 /\ tx (conn w') = None
    /\ config w' = config w /\ pool w' = pool w.
Proof.
  intros Htx Hok. destruct (query stmt w) as [r w'] eqn:Hrun.
  destruct (only_db_query stmt _ _ _ Hrun) as (Hpool & _).
  apply query_auto_ok in Hrun as (-> & ? & ? & ?); [| done..].
  by exists w'.
Qed.

(** The tool on an order it finds, when the database is reachable and no
    call to it fails. *)
Lemma manage_run ctx wh w row rest :
  ManageOrder.where_of ctx = Some wh ->
  tx (conn w) = None ->
  (getPool ToolManageOrder w).1 = Ok true ->
  (forall n, db_fault (config w) n = false) ->
  find_order wh (db (conn w)) = row :: rest ->
  exists res w',
    ManageOrder.execute ctx w = (Ok res, w')
    /\ ManageOrder.success res = true
    /\ ManageOrder.order res = Some (managed_view (ManageOrder.action ctx) row)
    /\ db (conn w') = managed (ManageOrder.action ctx) row (db (conn w))
    /\ tx (conn w') = None /\ config w' = config w
    /\ pool w' ToolManageOrder = true.
Proof.
  intros Hwh Htx Hpool Hok Hfind.
  destruct (getPool_run _ _ Hpool) as (w1 & Hp & Hc1 & Hcfg1).
  pose proof (getPool_cached _ _ _ Hp) as Hpool1.
  rewrite <- Hc1, <- Hcfg1 in *. clear Hc1 Hcfg1 Hpool.
  unfold ManageOrder.execute. rewrite (bind_ok _ _ _ _ _ Hp). cbn [negb].
  destruct (lookup_run wh w1 Htx Hok) as (w2 & Hl & Hdb2 & Htx2 & Hcfg2 & Hp2).
  rewrite Hfind in Hl.
  assert (Hok2 : forall n, db_fault (config w2) n = false) by (by rewrite Hcfg2).
  unfold managed, managed_view.
  destruct (ManageOrder.action ctx) eqn:Hact.
  - eexists _, w2. split.
    { erewrite try_catch_ok; [reflexivity |].
      unfold ManageOrder.run. rewrite Hwh, Hact.
      by rewrite (bind_ok _ _ _ _ _ Hl). }
    rewrite Hp2. by cbn.
  - destruct (query_run_ok
                (fun d => (tt, Db.update_order_status "confirmed" (Some "confirmed")
                                 (Db.o_id (ManageOrder.row_order row)) d))
                w2 Htx2 Hok2) as (w3 & Hq3 & Hdb3 & Htx3 & Hcfg3 & Hp3).
    eexists _, w3. split.
    { erewrite try_catch_ok; [reflexivity |].
      unfold ManageOrder.run. rewrite Hwh, Hact.
      rewrite (bind_ok _ _ _ _ _ Hl). unfold ManageOrder.update_order.
      cbn [ManageOrder.view_of ManageOrder.id].
      by rewrite (bind_ok _ _ _ _ _ Hq3). }
    cbn [fst snd] in *. rewrite Hdb3, Hdb2, Hp3, Hp2, Hcfg3, Hcfg2. by cbn.
  - destruct (query_run_ok
                (fun d => (tt, Db.update_order_status "rejected" (Some "rejected")
                                 (Db.o_id (ManageOrder.row_order row)) d))
                w2 Htx2 Hok2) as (w3 & Hq3 & Hdb3 & Htx3 & Hcfg3 & Hp3).
    assert (Hok3 : forall n, db_fault (config w3) n = false)
      by (by rewrite Hcfg3).
    destruct (query_run_ok
                (fun d => (tt, Db.add_seats (Db.o_seats_count (ManageOrder.row_order row))
                                 (Db.o_event_id (ManageOrder.row_order row)) d))
                w3 Htx3 Hok3) as (w4 & Hq4 & Hdb4 & Htx4 & Hcfg4 & Hp4).
    eexists _, w4. split.
    { erewrite try_catch_ok; [reflexivity |].
      unfold ManageOrder.run. rewrite Hwh, Hact.
      rewrite (bind_ok _ _ _ _ _ Hl).
      unfold ManageOrder.update_order, ManageOrder.restore_seats.
      cbn [ManageOrder.view_of ManageOrder.id].
      rewrite (bind_ok _ _ _ _ _ Hq3). by rewrite (bind_ok _ _ _ _ _ Hq4). }
    cbn [fst snd] in *.
    rewrite Hdb4, Hdb3, Hdb2, Hp4, Hp3, Hp2, Hcfg4, Hcfg3, Hcfg2. by cbn.
  - destruct (query_run_ok
                (fun d => (tt, Db.update_order_status "cancelled" None
                                 (Db.o_id (ManageOrder.row_order row)) d))
                w2 Htx2 Hok2) as (w3 & Hq3 & Hdb3 & Htx3 & Hcfg3 & Hp3).
    assert (Hok3 : forall n, db_fault (config w3) n = false)
      by (by rewrite Hcfg3).
    cbn [fst snd] in *.
    destruct (bool_decide
                (Db.o_payment_status (ManageOrder.row_order row) = Some "rejected"))
      eqn:Hrej.
    + eexists _, w3. split.
      { erewrite try_catch_ok; [reflexivity |].
        unfold ManageOrder.run. rewrite Hwh, Hact.
        rewrite (bind_ok _ _ _ _ _ Hl). unfold ManageOrder.update_order.
        cbn [ManageOrder.view_of ManageOrder.id].
        rewrite (bind_ok _ _ _ _ _ Hq3). rewrite Hrej. by rewrite bind_ret. }
      rewrite Hdb3, Hdb2, Hp3, Hp2, Hcfg3, Hcfg2. by cbn.
    + destruct (query_run_ok
                  (fun d => (tt, Db.add_seats
                                   (Db.o_seats_count (ManageOrder.row_order row))
                                   (Db.o_event_id (ManageOrder.row_order row)) d))
                  w3 Htx3 Hok3) as (w4 & Hq4 & Hdb4 & Htx4 & Hcfg4 & Hp4).
      eexists _, w4. split.
      { erewrite try_catch_ok; [reflexivity |].
        unfold ManageOrder.run. rewrite Hwh, Hact.
        rewrite (bind_ok _ _ _ _ _ Hl).
        unfold ManageOrder.update_order, ManageOrder.restore_seats.
        cbn [ManageOrder.view_of ManageOrder.id].
        rewrite (bind_ok _ _ _ _ _ Hq3). rewrite Hrej.
        by rewrite (bind_ok _ _ _ _ _ Hq4). }
      cbn [fst snd] in *.
      rewrite Hdb4, Hdb3, Hdb2, Hp4, Hp3, Hp2, Hcfg4, Hcfg3, Hcfg2. by cbn.
Qed.

(** ** createOrderTool *)

(** X1. A created order takes its seats.  When [createOrderTool] reports a
    created order, the event the query returned had the seats asked for
    ([seatsCount], or 1 when it is 0); [available_seats] of the event
    with the requested id has gone down by that number and no other event
    has changed; the one row added to [orders] points to the event and
    carries that number of seats and the total price ([totalPrice] when
    given and not 0, the event's price times the seats otherwise), which
    are also the figures returned to the caller. *)
Theorem successful_order_takes_seats ctx w res w' :
  tx (conn w) = None ->
  CreateOrder.execute ctx w = (Ok res, w') ->
  CreateOrder.success res = true ->
  exists row rest o,
    CreateOrder.select_event (CreateOrder.eventId ctx) (db (conn w)) = row :: rest
    /\ CreateOrder.seats_of ctx <= Db.ev_available_seats (CreateOrder.event row)
    /\ Db.events (db (conn w'))
       = map (fun e =>
                if Db.ev_id e =? CreateOrder.eventId ctx
                then Db.set_available_seats
                       (Db.ev_available_seats e - CreateOrder.seats_of ctx) e
                else e)
             (Db.events (db (conn w)))
    /\ Db.orders (db (conn w')) = Db.orders (db (conn w)) ++ [o]
    /\ Db.o_event_id o = Some (CreateOrder.eventId ctx)
    /\ Db.o_seats_count o = CreateOrder.seats_of ctx
    /\ Db.o_total_price o = CreateOrder.total_of ctx (CreateOrder.event row)
    /\ CreateOrder.r_seatsCount res = Some (Db.o_seats_count o)
    /\ CreateOrder.r_totalPrice res = Some (Db.o_total_price o).
Proof.
  intros Htx Hrun Hok.
  destruct (execute_spec ctx w Htx) as (res0 & w0 & Hrun0 & _ & Hcases).
  rewrite Hrun in Hrun0. injection Hrun0 as <- <-.
  destruct Hcases as [[Hfail _] | (row & rest & code & id & Hsel & Hge & -> & Hdb)].
  { congruence. }
  exists row, rest. eexists. rewrite Hdb. cbn.
  split; [done |]. split; [done |]. split; [| done].
  apply map_ext. intros e. rewrite Z.eqb_sym.
  by replace (Db.ev_available_seats e + - CreateOrder.seats_of ctx)
    with (Db.ev_available_seats e - CreateOrder.seats_of ctx) by lia.
Qed.

Lemma successful_order_takes_seats_witness :
  exists row rest o,
    CreateOrder.select_event 1 Sample.tables = row :: rest
    /\ CreateOrder.seats_of (Sample.booking 2)
       <= Db.ev_available_seats (CreateOrder.event row)
    /\ map Db.ev_available_seats
         (Db.events (db (conn (CreateOrder.execute (Sample.booking 2)
                                 Sample.telegram_is_down).2))) = [1]
    /\ Db.o_seats_count o = 2 /\ Db.o_total_price o = 3000.
Proof.
  destruct (successful_order_takes_seats (Sample.booking 2)
              Sample.telegram_is_down Sample.placed
              (CreateOrder.execute (Sample.booking 2) Sample.telegram_is_down).2
              eq_refl ltac:(vm_compute; reflexivity) eq_refl)
    as (row & rest & o & Hsel & Hge & Hev & _ & _ & Hseats & Htotal & _).
  exists row, rest, o. split; [exact Hsel |]. split; [exact Hge |].
  rewrite Hev, Hseats, Htotal. vm_compute in Hsel. injection Hsel as <- <-.
  by vm_compute.
Defined.

(** X2. An unknown event is turned down.  When the event query returns no
    row (no event has the requested id, or the event lacks the category
    or the city the query joins it to), [createOrderTool] reports a
    failure and leaves the committed tables as they were, whatever calls
    to the database fail; when the database is reachable and no call
    fails, the result is the message that the event was not found. *)
Theorem unknown_event_rejected ctx w :
  tx (conn w) = None ->
  CreateOrder.select_event (CreateOrder.eventId ctx) (db (conn w)) = [] ->
  exists res w',
    CreateOrder.execute ctx w = (Ok res, w')
    /\ CreateOrder.success res = false
    /\ db (conn w') = db (conn w)
    /\ ((getPool ToolCreateOrder w).1 = Ok true ->
        (forall n, db_fault (config w) n = false) ->
        res = CreateOrder.failure "Мероприятие не найдено").
Proof.
  intros Htx Hsel.
  destruct (execute_spec ctx w Htx) as (res & w' & Hrun & _ & Hcases).
  exists res, w'. split; [done |].
  destruct Hcases as [[Hfail Hdb] | (row' & rest' & code & id & Hsel' & _)].
  2:{ by rewrite Hsel in Hsel'. }
  do 2 (split; [done |]).
  intros Hpool Hok.
  unfold CreateOrder.execute in Hrun.
  apply bind_inv in Hrun as [(b & w1 & Hp & Hrun) | (e & _ & [=])].
  rewrite Hp in Hpool. cbn in Hpool. injection Hpool as ->.
  apply getPool_inv in Hp as (_ & Hc1 & Hcfg1).
  cbn [negb] in Hrun.
  apply try_catch_inv in Hrun as [(res0 & Hrun & [= <-]) | (e & w2 & Hrun & _)].
  - apply withTransaction_spec in Hrun as (_ & _ & w3 & w4 & Hbody & Htx3 & _);
      [| apply in_tx_transaction_body | by rewrite Hc1].
    apply transaction_body_spec with (d := db (conn w1)) in Hbody; [| done].
    rewrite Hc1, Hsel in Hbody.
    by destruct Hbody as [(_ & _ & ->) | (row' & rest' & code & [=] & _)].
  - apply withTransaction_spec in Hrun as (_ & _ & _ & Hwhy);
      [| apply in_tx_transaction_body | by rewrite Hc1].
    rewrite Hcfg1 in Hwhy.
    destruct Hwhy as [[n Hn] | (w3 & w4 & Hbody & Hcfg3 & Htx3)].
    { by rewrite Hok in Hn. }
    apply transaction_body_spec with (d := db (conn w1)) in Hbody; [| done].
    destruct Hbody as [n Hn]. rewrite Hcfg3, Hok in Hn. done.
Qed.

Lemma unknown_event_rejected_witness :
  exists w',
    CreateOrder.execute (Sample2.booking_of 9 2)
      (Sample.world Sample.tables Sample.no_faults)
    = (Ok (CreateOrder.failure "Мероприятие не найдено"), w')
    /\ db (conn w') = Sample.tables.
Proof.
  destruct (unknown_event_rejected (Sample2.booking_of 9 2)
              (Sample.world Sample.tables Sample.no_faults) eq_refl eq_refl)
    as (res & w' & Hrun & _ & Hdb & Hmsg).
  exists w'. rewrite <- Hmsg; [done | reflexivity | reflexivity].
Defined.

(** X3. Without a database the tools answer at once.  When no pool is cached
    and none can be made (DATABASE_URL unset or empty, or [new Pool]
    raising), [createOrderTool] and [manageOrderTool] return their
    message that the database is unavailable, with [success] false, and
    nothing is sent to the database: the world is left as it was. *)
Theorem tools_without_database w :
  no_database w ->
  (forall ctx,
     CreateOrder.execute ctx w
     = (Ok (CreateOrder.failure "База данных недоступна. Попробуйте позже."), w))
  /\ (forall ctx,
        ManageOrder.execute ctx w
        = (Ok (ManageOrder.failure "База данных недоступна"), w)).
Proof.
  intros [Hpool Henv].
  assert (Hget : forall t, getPool t w = (Ok false, w)).
  { intros t. unfold getPool. rewrite Hpool.
    destruct Henv as [-> | [-> | Hctor]]; [done | done |].
    destruct (DATABASE_URL (env (config w))) as [[| c u] |]; [done | | done].
    by rewrite Hctor. }
  split; intros ctx.
  - unfold CreateOrder.execute. by rewrite (bind_ok _ _ _ _ _ (Hget _)).
  - unfold ManageOrder.execute. by rewrite (bind_ok _ _ _ _ _ (Hget _)).
Qed.

Lemma tools_without_database_witness :
  CreateOrder.execute (Sample.booking 2) Sample2.offline
  = (Ok (CreateOrder.failure "База данных недоступна. Попробуйте позже."),
     Sample2.offline)
  /\ ManageOrder.execute Sample.reject7 Sample2.offline
     = (Ok (ManageOrder.failure "База данных недоступна"), Sample2.offline).
Proof.
  destruct (tools_without_database Sample2.offline) as [Hc Hm].
  - split; [reflexivity | by left].
  - split; [apply Hc | apply Hm].
Defined.

(** ** manageOrderTool *)

(** X4. Confirming a payment moves no seat.  On an order the tool finds,
    [confirm_payment] sets [status] and [payment_status] of the order to
    ['confirmed'] and returns the order object with that status; the
    events, and so the seats on sale, are as they were (the database
    being reachable and no call to it failing). *)
Theorem confirm_payment_keeps_seats ctx wh w row rest :
  ManageOrder.action ctx = ManageOrder.ConfirmPayment ->
  ManageOrder.where_of ctx = Some wh ->
  tx (conn w) = None ->
  (getPool ToolManageOrder w).1 = Ok true ->
  (forall n, db_fault (config w) n = false) ->
  find_order wh (db (conn w)) = row :: rest ->
  exists res v w',
    ManageOrder.execute ctx w = (Ok res, w')
    /\ ManageOrder.success res = true
    /\ ManageOrder.order res = Some v
    /\ ManageOrder.id v = Db.o_id (ManageOrder.row_order row)
    /\ ManageOrder.status v = "confirmed"
    /\ ManageOrder.paymentStatus v = Some "confirmed"
    /\ Db.orders (db (conn w'))
       = map (fun x => if Db.o_id x =? Db.o_id (ManageOrder.row_order row)
                       then Db.set_order_status "confirmed" (Some "confirmed") x
                       else x)
             (Db.orders (db (conn w)))
    /\ Db.events (db (conn w')) = Db.events (db (conn w)).
Proof.
  intros Hact Hwh Htx Hpool Hok Hfind.
  destruct (manage_run ctx wh w row rest Hwh Htx Hpool Hok Hfind)
    as (res & w' & Hrun & Hs & Hv & Hdb & _).
  rewrite Hact in Hv, Hdb.
  exists res, (managed_view ManageOrder.ConfirmPayment row), w'.
  rewrite Hdb. by cbn.
Qed.

Lemma confirm_payment_keeps_seats_witness :
  exists res v w',
    ManageOrder.execute Sample2.confirm7
      (Sample.world Sample.tables_with_order Sample.no_faults) = (Ok res, w')
    /\ ManageOrder.order res = Some v
    /\ ManageOrder.status v = "confirmed"
    /\ map Db.o_payment_status (Db.orders (db (conn w'))) = [Some "confirmed"]
    /\ map Db.ev_available_seats (Db.events (db (conn w'))) = [3].
Proof.
  destruct (confirm_payment_keeps_seats Sample2.confirm7 (ManageOrder.ById 7)
              (Sample.world Sample.tables_with_order Sample.no_faults)
              Sample2.row7 []
              eq_refl eq_refl eq_refl eq_refl (fun _ => eq_refl)
              ltac:(vm_compute; reflexivity))
    as (res & v & w' & Hrun & _ & Hv & _ & Hst & _ & Hord & Hev).
  exists res, v, w'. rewrite Hord, Hev. done.
Defined.

(** X5. Cancelling returns the seats unless the payment was rejected.  On an
    order the tool finds, [cancel] sets [status] to ['cancelled'] and
    leaves [payment_status] as it was; the order's [seats_count] is added
    to [available_seats] of the event the order points to, except when
    the order's [payment_status] was ['rejected'], in which case no event
    changes (the database being reachable and no call to it failing). *)
Theorem cancel_returns_seats_unless_rejected ctx wh w row rest :
  ManageOrder.action ctx = ManageOrder.Cancel ->
  ManageOrder.where_of ctx = Some wh ->
  tx (conn w) = None ->
  (getPool ToolManageOrder w).1 = Ok true ->
  (forall n, db_fault (config w) n = false) ->
  find_order wh (db (conn w)) = row :: rest ->
  exists res v w',
    ManageOrder.execute ctx w = (Ok res, w')
    /\ ManageOrder.success res = true
    /\ ManageOrder.order res = Some v
    /\ ManageOrder.status v = "cancelled"
    /\ ManageOrder.paymentStatus v = Db.o_payment_status (ManageOrder.row_order row)
    /\ Db.orders (db (conn w'))
       = map (fun x => if Db.o_id x =? Db.o_id (ManageOrder.row_order row)
                       then Db.set_order_status "cancelled" None x
                       else x)
             (Db.orders (db (conn w)))
    /\ Db.events (db (conn w'))
       = if bool_decide (Db.o_payment_status (ManageOrder.row_order row)
                         = Some "rejected")
         then Db.events (db (conn w))
         else map (fun e =>
                     if Db.col_is (Db.o_event_id (ManageOrder.row_order row))
                          (Db.ev_id e)
                     then Db.set_available_seats
                            (Db.ev_available_seats e
                             + Db.o_seats_count (ManageOrder.row_order row)) e
                     else e)
                  (Db.events (db (conn w))).
Proof.
  intros Hact Hwh Htx Hpool Hok Hfind.
  destruct (manage_run ctx wh w row rest Hwh Htx Hpool Hok Hfind)
    as (res & w' & Hrun & Hs & Hv & Hdb & _).
  rewrite Hact in Hv, Hdb.
  exists res, (managed_view ManageOrder.Cancel row), w'.
  rewrite Hdb. unfold managed. by destruct (bool_decide _); cbn.
Qed.

Lemma cancel_returns_seats_unless_rejected_witness :
  exists res v w',
    ManageOrder.execute Sample.cancel7
      (Sample.world Sample.tables_with_order Sample.no_faults) = (Ok res, w')
    /\ ManageOrder.order res = Some v
    /\ ManageOrder.status v = "cancelled"
    /\ ManageOrder.paymentStatus v = Some "pending"
    /\ map Db.o_status (Db.orders (db (conn w'))) = ["cancelled"]
    /\ map Db.ev_available_seats (Db.events (db (conn w'))) = [5].
Proof.
  destruct (cancel_returns_seats_unless_rejected Sample.cancel7 (ManageOrder.ById 7)
              (Sample.world Sample.tables_with_order Sample.no_faults)
              Sample2.row7 []
              eq_refl eq_refl eq_refl eq_refl (fun _ => eq_refl)
              ltac:(vm_compute; reflexivity))
    as (res & v & w' & Hrun & _ & Hv & Hst & Hpay & Hord & Hev).
  exists res, v, w'. rewrite Hord, Hev. done.
Defined.

(** *** The order queries after an update

    The two updates of the tool keep the columns the order queries select
    and join on, so that a query run after them returns the rows it
    returned before, with the order of each row updated. *)

Lemma bind_filter_fmap_map {A B C} (P Q : A -> Prop)
    `{!forall x, Decision (P x)} `{!forall x, Decision (Q x)}
    (g : A -> A) (h : B -> C) (k' : A -> list C) (k : A -> list B) (l : list A) :
  (forall x, P (g x) <-> Q x) ->
  (forall x, k' (g x) = h <$> k x) ->
  filter P (g <$> l) ≫= k' = h <$> (filter Q l ≫= k).
Proof.
  intros HP Hk. induction l as [| a l IH]; [done |].
  rewrite fmap_cons, !filter_cons.
  destruct (decide (P (g a))) as [Hp | Hp], (decide (Q a)) as [Hq | Hq];
    [| by apply HP in Hp | by apply HP in Hq | done].
  by rewrite !bind_cons, fmap_app, IH, Hk.
Qed.

Lemma bind_filter_map {A B C} (P Q : A -> Prop)
    `{!forall x, Decision (P x)} `{!forall x, Decision (Q x)}
    (h : B -> C) (k' : A -> list C) (k : A -> list B) (l : list A) :
  (forall x, P x <-> Q x) ->
  (forall x, k' x = h <$> k x) ->
  filter P l ≫= k' = h <$> (filter Q l ≫= k).
Proof.
  intros HP Hk. rewrite <- (list_fmap_id l) at 1.
  by apply bind_filter_fmap_map.
Qed.

Lemma bind_map_out {A B C} (h : B -> C) (k' : A -> list C) (k : A -> list B)
    (l : list A) :
  (forall x, k' x = h <$> k x) -> l ≫= k' = h <$> (l ≫= k).
Proof.
  intros Hk. induction l as [| a l IH]; [done |].
  by rewrite !bind_cons, fmap_app, IH, Hk.
Qed.

Lemma status_set_id st pay oid o :
  Db.o_id (status_set st pay oid o) = Db.o_id o.
Proof. unfold status_set. by destruct (_ =? _). Qed.

Lemma status_set_matches wh st pay oid o :
  ManageOrder.matches wh (status_set st pay oid o) = ManageOrder.matches wh o.
Proof. unfold status_set. by destruct (_ =? _), wh. Qed.

Lemma select_order_updated wh st pay oid n eid d :
  ManageOrder.select_order wh
    (Db.add_seats n eid (Db.update_order_status st pay oid d))
  = map_order (status_set st pay oid) <$> ManageOrder.select_order wh d.
Proof.
  unfold ManageOrder.select_order. cbn [Db.add_seats Db.update_order_status
    Db.set_events Db.set_orders Db.orders Db.events Db.categories Db.cities].
  apply (bind_filter_fmap_map _ _ (status_set st pay oid)).
  { intros o. by rewrite status_set_matches. }
  intros o.
  apply (bind_filter_fmap_map _ _
           (fun e => if Db.col_is eid (Db.ev_id e)
                     then Db.set_available_seats (Db.ev_available_seats e + n) e
                     else e)).
  { intros e. unfold status_set.
    by destruct (Db.o_id o =? oid), (Db.col_is eid (Db.ev_id e)). }
  intros e. apply bind_filter_map.
  { intros c. by destruct (Db.col_is eid (Db.ev_id e)). }
  intros c. apply bind_filter_map.
  { intros ci. by destruct (Db.col_is eid (Db.ev_id e)). }
  intros ci. by destruct (Db.col_is eid (Db.ev_id e)).
Qed.

Lemma select_link_order_updated wh st pay oid n eid d :
  ManageOrder.select_link_order wh
    (Db.add_seats n eid (Db.update_order_status st pay oid d))
  = map_order (status_set st pay oid) <$> ManageOrder.select_link_order wh d.
Proof.
  unfold ManageOrder.select_link_order. cbn [Db.add_seats Db.update_order_status
    Db.set_events Db.set_orders Db.orders Db.events Db.categories Db.cities
    Db.event_templates Db.generated_links].
  apply (bind_filter_fmap_map _ _ (status_set st pay oid)).
  { intros o. by rewrite status_set_matches. }
  intros o.
  assert (Hf : Db.o_event_template_id (status_set st pay oid o)
               = Db.o_event_template_id o
               /\ Db.o_link_code (status_set st pay oid o) = Db.o_link_code o).
  { unfold status_set. by destruct (_ =? _). }
  destruct Hf as [-> ->].
  apply bind_map_out. intros et. apply bind_map_out. intros cat.
  apply bind_map_out. intros gl. apply bind_map_out. intros ci. done.
Qed.

Lemma find_order_updated wh st pay oid n eid d :
  find_order wh (Db.add_seats n eid (Db.update_order_status st pay oid d))
  = map_order (status_set st pay oid) <$> find_order wh d.
Proof.
  unfold find_order. rewrite select_order_updated, select_link_order_updated.
  by destruct (ManageOrder.select_order wh d).
Qed.

(** X6. Rejecting and then cancelling returns the seats once.  When the
    payment of an order the tool finds is rejected and the same order is
    then cancelled, both calls succeed, the second changes no event, and
    the seats on sale afterwards are those from before the two calls with
    the order's [seats_count] added once to the event the order points
    to; every order with that id ends up ['cancelled'] with
    [payment_status] ['rejected'] (the database being reachable and no
    call to it failing). *)
Theorem reject_then_cancel_returns_seats_once reject cancel wh w row rest :
  ManageOrder.action reject = ManageOrder.RejectPayment ->
  ManageOrder.action cancel = ManageOrder.Cancel ->
  ManageOrder.where_of reject = Some wh ->
  ManageOrder.where_of cancel = Some wh ->
  tx (conn w) = None ->
  (getPool ToolManageOrder w).1 = Ok true ->
  (forall n, db_fault (config w) n = false) ->
  find_order wh (db (conn w)) = row :: rest ->
  exists res1 w1 res2 w2,
    ManageOrder.execute reject w = (Ok res1, w1)
    /\ ManageOrder.execute cancel w1 = (Ok res2, w2)
    /\ ManageOrder.success res1 = true
    /\ ManageOrder.success res2 = true
    /\ Db.events (db (conn w2)) = Db.events (db (conn w1))
    /\ Db.events (db (conn w2))
       = map (fun e =>
                if Db.col_is (Db.o_event_id (ManageOrder.row_order row)) (Db.ev_id e)
                then Db.set_available_seats
                       (Db.ev_available_seats e
                        + Db.o_seats_count (ManageOrder.row_order row)) e
                else e)
             (Db.events (db (conn w)))
    /\ Forall (fun x => Db.o_id x = Db.o_id (ManageOrder.row_order row) ->
                        Db.o_status x = "cancelled"
                        /\ Db.o_payment_status x = Some "rejected")
              (Db.orders (db (conn w2))).
Proof.
  intros Hact1 Hact2 Hwh1 Hwh2 Htx Hpool Hok Hfind.
  destruct (manage_run reject wh w row rest Hwh1 Htx Hpool Hok Hfind)
    as (res1 & w1 & Hrun1 & Hs1 & _ & Hdb1 & Htx1 & Hcfg1 & Hpool1).
  rewrite Hact1 in Hdb1. cbn [managed] in Hdb1.
  set (o := ManageOrder.row_order row) in *.
  assert (Hfind1 : find_order wh (db (conn w1))
                   = map_order (status_set "rejected" (Some "rejected") (Db.o_id o)) row
                     :: (map_order (status_set "rejected" (Some "rejected") (Db.o_id o))
                         <$> rest)).
  { by rewrite Hdb1, find_order_updated, Hfind. }
  assert (Hok1 : forall n, db_fault (config w1) n = false) by (by rewrite Hcfg1).
  assert (Hp1 : (getPool ToolManageOrder w1).1 = Ok true)
    by (by rewrite (getPool_of_cached _ _ Hpool1)).
  destruct (manage_run cancel wh w1 _ _ Hwh2 Htx1 Hp1 Hok1 Hfind1)
    as (res2 & w2 & Hrun2 & Hs2 & _ & Hdb2 & _).
  rewrite Hact2 in Hdb2. cbn [managed map_order ManageOrder.row_order] in Hdb2.
  fold o in Hdb2.
  assert (Hso : status_set "rejected" (Some "rejected") (Db.o_id o) o
                = Db.set_order_status "rejected" (Some "rejected") o).
  { unfold status_set. by rewrite Z.eqb_refl. }
  rewrite Hso in Hdb2. cbn [Db.set_order_status Db.o_payment_status Db.o_id] in Hdb2.
  rewrite bool_decide_eq_true_2 in Hdb2 by done.
  exists res1, w1, res2, w2. do 4 (split; [done |]).
  rewrite Hdb2, Hdb1. cbn. split; [done |]. split; [done |].
  apply Forall_forall. intros x Hx Hid.
  apply list_elem_of_fmap in Hx as (y & -> & Hy).
  apply list_elem_of_fmap in Hy as (z & -> & Hz).
  destruct (Z.eqb_spec (Db.o_id z) (Db.o_id o)) as [E | NE]; cbn.
  - rewrite E, Z.eqb_refl. by cbn.
  - rewrite (proj2 (Z.eqb_neq _ _) NE) in *. done.
Qed.

Lemma reject_then_cancel_returns_seats_once_witness :
  exists res1 w1 res2 w2,
    ManageOrder.execute Sample.reject7
      (Sample.world Sample.tables_with_order Sample.no_faults) = (Ok res1, w1)
    /\ ManageOrder.execute Sample.cancel7 w1 = (Ok res2, w2)
    /\ map Db.ev_available_seats (Db.events (db (conn w2))) = [5]
    /\ map Db.o_status (Db.orders (db (conn w2))) = ["cancelled"].
Proof.
  destruct (reject_then_cancel_returns_seats_once Sample.reject7 Sample.cancel7
              (ManageOrder.ById 7)
              (Sample.world Sample.tables_with_order Sample.no_faults)
              Sample2.row7 []
              eq_refl eq_refl eq_refl eq_refl eq_refl eq_refl (fun _ => eq_refl)
              ltac:(vm_compute; reflexivity))
    as (res1 & w1 & res2 & w2 & Hrun1 & Hrun2 & _ & _ & _ & Hev & _).
  exists res1, w1, res2, w2. split; [done |]. split; [done |].
  rewrite Hev. split; [reflexivity |].
  vm_compute in Hrun1. injection Hrun1 as <- <-.
  vm_compute in Hrun2. injection Hrun2 as <- <-. reflexivity.
Defined.

Lemma query_reads_only {A} (sel : Db.Tables -> A) w r w' :
  query (fun d => (sel d, d)) w = (r, w') -> tx (conn w) = None ->
  db (conn w') = db (conn w) /\ tx (conn w') = None.
Proof.
  intros Hrun Htx.
  by destruct (query_auto _ _ _ _ Hrun Htx)
    as (_ & ? & _ & [(_ & _ & ?) | (_ & _ & ?)]).
Qed.

Lemma lookup_reads_only wh w r w' :
  ManageOrder.lookup wh w = (r, w') -> tx (conn w) = None ->
  db (conn w') = db (conn w).
Proof.
  intros Hrun Htx. unfold ManageOrder.lookup in Hrun.
  apply bind_inv in Hrun as [(rows & w1 & Hq1 & Hrun) | (e & Hq1 & ->)].
  - apply query_reads_only in Hq1 as [Hdb1 Htx1]; [| done].
    destruct rows as [| row rest].
    + apply query_reads_only in Hrun as [Hdb2 _]; [| done]. congruence.
    + by apply ret_inv in Hrun as [_ ->].
  - by apply query_reads_only in Hq1 as [? _].
Qed.

(** X7. Looking an order up writes nothing.  The action [get] never raises
    and leaves the committed tables as they were, whatever calls to the
    database fail; when the order is found, the database being reachable
    and no call to it failing, it returns the order object built from the
    first row of the query, with [success] true. *)
Theorem get_order_reads_only ctx w :
  ManageOrder.action ctx = ManageOrder.Get ->
  tx (conn w) = None ->
  exists res w',
    ManageOrder.execute ctx w = (Ok res, w')
    /\ db (conn w') = db (conn w)
    /\ (forall wh row rest,
          ManageOrder.where_of ctx = Some wh ->
          (getPool ToolManageOrder w).1 = Ok true ->
          (forall n, db_fault (config w) n = false) ->
          find_order wh (db (conn w)) = row :: rest ->
          ManageOrder.success res = true
          /\ ManageOrder.order res = Some (ManageOrder.view_of row)).
Proof.
  intros Hact Htx.
  destruct (ManageOrder.execute ctx w) as [r w'] eqn:Hrun.
  assert (Hres : (exists res, r = Ok res) /\ db (conn w') = db (conn w)).
  { unfold ManageOrder.execute in Hrun.
    apply bind_inv in Hrun as [(b & w1 & Hp & Hrun) | (e & Hp & ->)].
    2:{ by apply getPool_inv in Hp as ([b [=]] & _). }
    apply getPool_inv in Hp as (_ & Hc1 & _). rewrite <- Hc1 in *.
    destruct b; cbn [negb] in Hrun.
    2:{ apply ret_inv in Hrun as [-> ->]. eauto. }
    assert (Hbody : forall r1 w2, ManageOrder.run ctx w1 = (r1, w2) ->
                                  db (conn w2) = db (conn w1)).
    { intros r1 w2 Hbody. unfold ManageOrder.run in Hbody. rewrite Hact in Hbody.
      destruct (ManageOrder.where_of ctx) as [wh |].
      2:{ by apply ret_inv in Hbody as [_ ->]. }
      apply bind_inv in Hbody as [(rows & w3 & Hl & Hbody) | (e & Hl & ->)].
      - apply lookup_reads_only in Hl; [| done].
        destruct rows; by apply ret_inv in Hbody as [_ ->].
      - by apply lookup_reads_only in Hl. }
    apply try_catch_inv in Hrun as [(res & Hrun & ->) | (e & w2 & Hrun & Hcatch)].
    - apply Hbody in Hrun. eauto.
    - apply ret_inv in Hcatch as [-> ->]. apply Hbody in Hrun. eauto. }
  destruct Hres as [[res ->] Hdb]. exists res, w'.
  split; [done |]. split; [done |].
  intros wh row rest Hwh Hpool Hok Hfind.
  destruct (manage_run ctx wh w row rest Hwh Htx Hpool Hok Hfind)
    as (res0 & w0 & Hrun0 & Hs & Hv & _).
  rewrite Hrun in Hrun0. injection Hrun0 as <- <-.
  by rewrite Hact in Hv.
Qed.

Lemma get_order_reads_only_witness :
  exists res w',
    ManageOrder.execute Sample2.get7
      (Sample.world Sample.tables_with_order (Sample.fault_at 0)) = (Ok res, w')
    /\ db (conn w') = Sample.tables_with_order.
Proof.
  destruct (get_order_reads_only Sample2.get7
              (Sample.world Sample.tables_with_order (Sample.fault_at 0))
              eq_refl eq_refl) as (res & w' & Hrun & Hdb & _).
  by exists res, w'.
Defined.



(** ** [POST /api/create-order] *)

(** X9. What the validation lets through.  Every request the handler hands
    to [createOrderTool] has a numeric [eventId] other than 0, between 1
    and 10 seats (so that the tool books the number asked for), and a
    name and a phone number that are the trimmed texts of the request,
    of at least 2 and 5 characters; an e-mail address is absent or not
    empty.  Validation itself changes nothing. *)
Theorem accepted_request_is_well_formed body w ctx w' :
  Api.validate body w = (Ok (inr ctx), w') ->
  w' = w
  /\ field body "eventId" = Js.JNum (CreateOrder.eventId ctx)
  /\ CreateOrder.eventId ctx <> 0
  /\ 1 <= CreateOrder.seatsCount ctx <= 10
  /\ CreateOrder.seats_of ctx = CreateOrder.seatsCount ctx
  /\ (exists name phone,
        field body "customerName" = Js.JStr name
        /\ field body "customerPhone" = Js.JStr phone
        /\ CreateOrder.customerName ctx = Js.trim name
        /\ CreateOrder.customerPhone ctx = Js.trim phone)
  /\ 2 <= Js.js_length (CreateOrder.customerName ctx)
  /\ 5 <= Js.js_length (CreateOrder.customerPhone ctx)
  /\ CreateOrder.customerEmail ctx <> Some "".
Proof.
  intros Hrun.
  pose proof (validate_body_not_null _ _ _ _ Hrun) as Hbody.
  unfold Api.validate in Hrun.
  rewrite (prop_field _ "eventId" _ Hbody) in Hrun. unfold bind at 1, ret at 1 in Hrun.
  destruct (Js.truthy (field body "eventId")) eqn:E1; cbn [negb orb] in Hrun;
    [| by apply ret_inv in Hrun as [[=] _]].
  destruct (bool_decide _) eqn:E2; cbn [negb] in Hrun;
    [| by apply ret_inv in Hrun as [[=] _]].
  apply bool_decide_eq_true_1 in E2.
  rewrite (prop_field _ "customerName" _ Hbody) in Hrun.
  unfold bind at 1, ret at 1 in Hrun.
  destruct (Js.truthy (field body "customerName")) eqn:E3; cbn [negb orb] in Hrun;
    [| by apply ret_inv in Hrun as [[=] _]].
  destruct (Api.too_short (field body "customerName") 2) eqn:E4;
    [by apply ret_inv in Hrun as [[=] _] |].
  rewrite (prop_field _ "customerPhone" _ Hbody) in Hrun.
  unfold bind at 1, ret at 1 in Hrun.
  destruct (Js.truthy (field body "customerPhone")) eqn:E5; cbn [negb orb] in Hrun;
    [| by apply ret_inv in Hrun as [[=] _]].
  destruct (Api.too_short (field body "customerPhone") 5) eqn:E6;
    [by apply ret_inv in Hrun as [[=] _] |].
  rewrite (prop_field _ "seatsCount" _ Hbody) in Hrun.
  unfold bind at 1, ret at 1 in Hrun.
  destruct (Js.parseInt (field body "seatsCount")) as [n |] eqn:E7;
    [| by apply ret_inv in Hrun as [[=] _]].
  destruct (Z.ltb_spec n 1) as [? | Hlo]; cbn [orb] in Hrun;
    [by apply ret_inv in Hrun as [[=] _] |].
  destruct (Z.ltb_spec 10 n) as [? | Hhi];
    [by apply ret_inv in Hrun as [[=] _] |].
  rewrite (prop_field _ "customerEmail" _ Hbody) in Hrun.
  unfold bind at 1, ret at 1 in Hrun.
  apply bind_inv in Hrun as [(email & w1 & Hemail & Hrun) | (e & _ & [=])].
  rewrite (prop_field _ "totalPrice" _ Hbody) in Hrun.
  unfold bind at 1, ret at 1 in Hrun.
  apply ret_inv in Hrun as [[= ->] ->].
  cbn [CreateOrder.eventId CreateOrder.seatsCount CreateOrder.customerName
       CreateOrder.customerPhone CreateOrder.customerEmail].
  assert (Hw : w1 = w /\ email <> Some "").
  { unfold Api.optional_trim in Hemail.
    destruct (field body "customerEmail") as [| | | | s | |];
      try (by apply ret_inv in Hemail as [[= ->] ->]); try done.
    apply ret_inv in Hemail as [[= ->] ->]. split; [done |].
    unfold CreateOrder.or_null. by destruct (Js.trim s). }
  destruct Hw as [-> Hemail'].
  destruct (field body "eventId") as [| | | z | | |] eqn:Eid; try done.
  destruct (field body "customerName") as [| | | | name | |] eqn:Ename; try done.
  destruct (field body "customerPhone") as [| | | | phone | |] eqn:Ephone; try done.
  unfold Api.too_short in E4, E6. apply Z.ltb_ge in E4, E6.
  cbn [Js.truthy] in E1. cbn [Api.string_of Api.number_of].
  split; [done |]. split; [done |].
  split; [by destruct (Z.eqb_spec z 0) |].
  split; [lia |].
  split; [unfold CreateOrder.seats_of; cbn; destruct (Z.eqb_spec n 0); [lia | done] |].
  split; [by exists name, phone |].
  split; [lia |]. split; [lia | done].
Qed.

Lemma accepted_request_is_well_formed_witness :
  exists ctx,
    Api.validate (Sample.request (Js.JStr " 2 seats"))
      (Sample.world Sample.tables Sample.no_faults)
    = (Ok (inr ctx), Sample.world Sample.tables Sample.no_faults)
    /\ CreateOrder.seatsCount ctx = 2
    /\ 1 <= CreateOrder.seatsCount ctx <= 10
    /\ CreateOrder.customerName ctx = "Ann".
Proof.
  exists (Sample.booking 2). split; [vm_compute; reflexivity |].
  destruct (accepted_request_is_well_formed
              (Sample.request (Js.JStr " 2 seats"))
              (Sample.world Sample.tables Sample.no_faults)
              (Sample.booking 2)
              (Sample.world Sample.tables Sample.no_faults)
              ltac:(vm_compute; reflexivity))
    as (_ & _ & _ & Hseats & _).
  split; [reflexivity |]. split; [exact Hseats | reflexivity].
Defined.

(** ** [POST /api/create-ticket-order] *)

(** X10. A ticket order that goes through.  When the event with the slug has
    the seats asked for and no call to the database fails, the handler
    answers with status 200 and the order code [TK] followed by the time
    in base 36, whatever becomes of the notifications; one row has been
    added to [orders], with [status] ['pending'], that code, the seats
    asked for and the event's price times the seats; and
    [available_seats] of the event has gone down by the seats asked for,
    no other event having changed. *)
Theorem ticket_order_created pd b w event city rest :
  tx (conn w) = None ->
  (forall n, db_fault (config w) n = false) ->
  Api.select_by_slug (Api.eventSlug b) (db (conn w)) = (event, city) :: rest ->
  Api.t_seatsCount b <= Db.ev_available_seats event ->
  exists w' o,
    Api.create_ticket_order pd b w
    = (Ok {| Api.status := 200;
             Api.body := Api.BodyTicketOrder ("TK" +:+ Js.toString36 (clock w)) |},
       w')
    /\ Db.orders (db (conn w')) = Db.orders (db (conn w)) ++ [o]
    /\ Db.o_status o = "pending"
    /\ Db.o_order_code o = "TK" +:+ Js.toString36 (clock w)
    /\ Db.o_event_id o = Some (Db.ev_id event)
    /\ Db.o_seats_count o = Api.t_seatsCount b
    /\ Db.o_total_price o = Db.ev_price event * Api.t_seatsCount b
    /\ Db.events (db (conn w'))
       = map (fun e =>
                if Db.ev_id e =? Db.ev_id event
                then Db.set_available_seats
                       (Db.ev_available_seats e - Api.t_seatsCount b) e
                else e)
             (Db.events (db (conn w))).
Proof.
  intros Htx Hok Hsel Hseats.
  destruct (query_auto_run (fun d => (Api.select_by_slug (Api.eventSlug b) d, d)) w Htx)
    as (w1 & Hq1 & Hcfg1 & Htx1 & _ & Hseq1 & Hdb1).
  destruct (only_db_query _ _ _ _ Hq1) as (_ & _ & Hclock1 & _).
  rewrite Hok in Hq1, Hdb1. cbn [fst snd] in Hq1, Hdb1. rewrite Hsel in Hq1.
  set (code := "TK" +:+ Js.toString36 (clock w)).
  set (total := Db.ev_price event * Api.t_seatsCount b).
  destruct (query_insert_auto_run (Api.ticket_order_row pd b event code total) w1 Htx1)
    as (w2 & Hq2 & Hcfg2 & Htx2 & _ & Hdb2).
  rewrite Hcfg1, Hok in Hq2, Hdb2.
  destruct (query_auto_run
              (fun d => (tt, Db.add_seats (- Api.t_seatsCount b)
                               (Some (Db.ev_id event)) d)) w2 Htx2)
    as (w3 & Hq3 & Hcfg3 & Htx3 & _ & _ & Hdb3).
  rewrite Hcfg2, Hcfg1, Hok in Hq3, Hdb3. cbn [fst snd] in Hq3, Hdb3.
  assert (Hrun : exists w4,
             Api.create_ticket_order pd b w
             = (Ok (Api.json (Api.BodyTicketOrder code)), w4)
             /\ conn w4 = conn w3).
  { destruct (Api.create_ticket_order pd b w) as [r w4] eqn:Hrun. exists w4.
    unfold Api.create_ticket_order, try_catch in Hrun.
    rewrite (bind_ok _ _ _ _ _ Hq1) in Hrun.
    rewrite (proj2 (Z.ltb_ge _ _) Hseats) in Hrun.
    unfold Api.date_now at 1 in Hrun. unfold bind at 1 in Hrun.
    rewrite Hclock1 in Hrun. fold code in Hrun. fold total in Hrun.
    rewrite (bind_ok _ _ _ _ _ Hq2) in Hrun.
    rewrite (bind_ok _ _ _ _ _ Hq3) in Hrun.
    match type of Hrun with
    | context [Api.notify ?data] =>
        destruct (notify_run data w3) as (w5 & Hn & Hc5 & _)
    end.
    rewrite (bind_ok _ _ _ _ _ Hn) in Hrun. cbn [ret] in Hrun.
    by injection Hrun as <- <-. }
  destruct Hrun as (w4 & Hrun & Hc4).
  exists w4. eexists. split; [exact Hrun |].
  rewrite Hc4, Hdb3, Hdb2, Hdb1. cbn.
  split; [reflexivity |]. do 5 (split; [reflexivity |]).
  apply map_ext. intros e. rewrite Z.eqb_sym.
  by replace (Db.ev_available_seats e + - Api.t_seatsCount b)
    with (Db.ev_available_seats e - Api.t_seatsCount b) by lia.
Qed.

Lemma ticket_order_created_witness :
  exists w' o,
    Api.create_ticket_order None Sample.ticket_request Sample.telegram_is_down
    = (Ok {| Api.status := 200; Api.body := Api.BodyTicketOrder "TKLOYW3V28" |}, w')
    /\ Db.orders (db (conn w')) = [o]
    /\ Db.o_seats_count o = 2
    /\ map Db.ev_available_seats (Db.events (db (conn w'))) = [1].
Proof.
  destruct (ticket_order_created None Sample.ticket_request Sample.telegram_is_down
              Sample.concert (Some "Moscow") []
              eq_refl (fun _ => eq_refl) ltac:(vm_compute; reflexivity)
              ltac:(vm_compute; discriminate))
    as (w' & o & Hrun & Hord & _ & _ & _ & Hseats & _ & Hev).
  exists w', o. rewrite Hord, Hev. split; [| done].
  rewrite Hrun. by vm_compute.
Defined.

(** X11. A ticket order that is turned down.  When no event has the slug, or
    the first event the query returns has fewer seats than asked for,
    the handler answers with [success] false and its message, under
    status 200, and the tables are as they were (the call to the
    database going through). *)
Theorem ticket_order_rejected pd b w :
  tx (conn w) = None ->
  db_fault (config w) (db_calls (conn w)) = false ->
  match Api.select_by_slug (Api.eventSlug b) (db (conn w)) with
  | [] => True
  | (event, _) :: _ => Db.ev_available_seats event < Api.t_seatsCount b
  end ->
  exists w',
    Api.create_ticket_order pd b w
    = (Ok {| Api.status := 200;
             Api.body :=
               Api.BodyMessage false
                 match Api.select_by_slug (Api.eventSlug b) (db (conn w)) with
                 | [] => "Мероприятие не найдено"
                 | _ => "Недостаточно мест"
                 end |}, w')
    /\ db (conn w') = db (conn w).
Proof.
  intros Htx Hok Hcase.
  destruct (query_auto_run (fun d => (Api.select_by_slug (Api.eventSlug b) d, d)) w Htx)
    as (w1 & Hq1 & _ & _ & _ & _ & Hdb1).
  rewrite Hok in Hq1, Hdb1. cbn [fst snd] in Hq1, Hdb1.
  exists w1. split; [| done]. unfold Api.create_ticket_order.
  erewrite try_catch_ok; [reflexivity |].
  rewrite (bind_ok _ _ _ _ _ Hq1).
  destruct (Api.select_by_slug (Api.eventSlug b) (db (conn w)))
    as [| [event city] rest]; [done |].
  by rewrite (proj2 (Z.ltb_lt _ _) Hcase).
Qed.

Lemma ticket_order_rejected_witness :
  exists w',
    Api.create_ticket_order None Sample2.ticket_request_for_9
      (Sample.world Sample.tables Sample.no_faults)
    = (Ok {| Api.status := 200;
             Api.body := Api.BodyMessage false "Недостаточно мест" |}, w')
    /\ db (conn w') = Sample.tables.
Proof.
  destruct (ticket_order_rejected None Sample2.ticket_request_for_9
              (Sample.world Sample.tables Sample.no_faults)
              eq_refl eq_refl ltac:(vm_compute; reflexivity))
    as (w' & Hrun & Hdb).
  exists w'. split; [| exact Hdb]. rewrite Hrun. reflexivity.
Defined.

(** ** The notification service *)

Lemma getBot_run w :
  exists b w', TelegramAdmin.getBot w = (Ok b, w')
               /\ conn w' = conn w /\ config w' = config w
               /\ tg_calls (telegram w') = tg_calls (telegram w)
               /\ outbox (telegram w') = outbox (telegram w).
Proof.
  unfold TelegramAdmin.getBot.
  destruct (TelegramAdmin.configured _); [| by eexists _, _].
  destruct (bot (telegram w)); [by eexists _, _ |].
  destruct (bot_ctor_fails (config w)); by eexists _, _.
Qed.

Lemma keeps_db_answerCallbackQuery q text :
  keeps_db (TelegramAdmin.answerCallbackQuery q text).
Proof.
  apply keeps_db_bind; [apply keeps_db_getBot |].
  intros [|]; cbn [negb]; [apply keeps_db_send | apply keeps_db_ret].
Qed.

Lemma keeps_db_sendRefundNotification m :
  keeps_db (TelegramAdmin.sendRefundNotification m).
Proof.
  apply keeps_db_bind; [apply keeps_db_getBot |].
  intros b w r w'.
  destruct b, (TelegramAdmin.configured (GROUP_ID (env (config w))));
    first [apply keeps_db_send | apply keeps_db_ret].
Qed.

(** A send guarded by its [try] returns true when the call went through
    and false when it raised. *)
Lemma send_run c w :
  exists w',
    try_catch (TelegramAdmin.api c ;;; ret true) (fun _ => ret false) w
    = (Ok (negb (tg_fault (config w) (tg_calls (telegram w)))), w')
    /\ conn w' = conn w /\ config w' = config w
    /\ outbox (telegram w')
       = if tg_fault (config w) (tg_calls (telegram w))
         then outbox (telegram w) else outbox (telegram w) ++ [c].
Proof.
  unfold try_catch, bind, TelegramAdmin.api.
  destruct (tg_fault (config w) (tg_calls (telegram w))); by eexists.
Qed.

(** [answerCallbackQuery] never raises; it touches neither the database
    nor the configuration, and adds at most its own call to the
    outbox. *)
Lemma answerCallbackQuery_run q text w :
  exists b w',
    TelegramAdmin.answerCallbackQuery q text w = (Ok b, w')
    /\ conn w' = conn w /\ config w' = config w
    /\ (outbox (telegram w') = outbox (telegram w)
        \/ outbox (telegram w')
           = outbox (telegram w) ++ [AnswerCallbackQuery q text]).
Proof.
  destruct (getBot_run w) as (b & w1 & Hb & Hc1 & Hcfg1 & Hn1 & Ho1).
  unfold TelegramAdmin.answerCallbackQuery. rewrite (bind_ok _ _ _ _ _ Hb).
  destruct b; cbn [negb].
  - destruct (send_run (AnswerCallbackQuery q text) w1) as (w2 & Hs & Hc2 & Hcfg2 & Ho2).
    eexists _, w2. split; [exact Hs |].
    split; [congruence |]. split; [congruence |].
    rewrite Ho2, Ho1. destruct (tg_fault _ _); auto.
  - exists false, w1. auto.
Qed.

(** ** [POST /webhooks/telegram/action], refund callbacks *)

(** X12. The webhook always acknowledges.  Whatever the callback data, the
    state of the database and the failures of the database and of
    Telegram, the refund branch of the webhook answers with the text OK
    under status 200: no error reaches Telegram. *)
Theorem refund_callback_always_acknowledges q w :
  exists w',
    Api.refund_callback q w
    = (Ok {| Api.status := 200; Api.body := Api.BodyText "OK" |}, w').
Proof.
  unfold Api.refund_callback.
  match goal with
  | |- context [try_catch ?m ?h] =>
      assert (Htry : exists w1, try_catch m h w = (Ok tt, w1))
  end.
  { unfold try_catch.
    match goal with
    | |- context [match ?m w with _ => _ end] => destruct (m w) as [[[] | e] w1]
    end.
    - by eexists.
    - destruct (answerCallbackQuery_run (Api.cq_id q) "❌ Ошибка обработки" w1)
        as (b & w2 & Ha & _).
      exists w2. by rewrite (bind_ok _ _ _ _ _ Ha). }
  destruct Htry as [w1 Htry]. exists w1.
  by rewrite (bind_ok _ _ _ _ _ Htry).
Qed.

Lemma keeps_db_date_now : keeps_db Api.date_now.
Proof. by intros w r w' [= <- <-]. Qed.

(** X13. A refund decision is recorded.  When the link the callback names has
    not been decided (its status is neither ['approved'] nor
    ['rejected']) and no call to the database fails, the webhook sets
    the status of every link with that code to ['approved'] if the
    action in the callback data is [approve] and to ['rejected'] for any
    other action, stamps it with the time, and changes no other link and
    no other table; this holds whatever becomes of the Telegram calls
    that follow, and the links with that code are decided from then
    on. *)
Theorem refund_decision_is_recorded q w refund rest :
  tx (conn w) = None ->
  (forall n, db_fault (config w) n = false) ->
  Api.select_refund (code_of q) (db (conn w)) = refund :: rest ->
  Api.is_processed (Db.rf_status refund) = false ->
  exists w',
    Api.refund_callback q w
    = (Ok {| Api.status := 200; Api.body := Api.BodyText "OK" |}, w')
    /\ Db.refund_links (db (conn w'))
       = map (fun r => if bool_decide (Some (Db.rf_refund_code r) = code_of q)
                       then Api.set_refund_status (decision_of q) (clock w) r
                       else r)
             (Db.refund_links (db (conn w)))
    /\ Db.orders (db (conn w')) = Db.orders (db (conn w))
    /\ Db.events (db (conn w')) = Db.events (db (conn w))
    /\ Forall (fun r => Api.is_processed (Db.rf_status r) = true)
              (Api.select_refund (code_of q) (db (conn w'))).
Proof.
  intros Htx Hok Hsel Hopen.
  destruct (query_auto_run (fun d => (Api.select_refund (code_of q) d, d)) w Htx)
    as (w1 & Hq1 & Hcfg1 & Htx1 & _ & _ & Hdb1).
  destruct (only_db_query _ _ _ _ Hq1) as (_ & _ & Hclock1 & _).
  rewrite Hok in Hq1, Hdb1. cbn [fst snd] in Hq1, Hdb1. rewrite Hsel in Hq1.
  destruct (query_auto_run
              (fun d => (tt, Api.update_refund (decision_of q) (code_of q)
                               (clock w) d)) w1 Htx1)
    as (w2 & Hq2 & _ & _ & _ & _ & Hdb2).
  rewrite Hcfg1, Hok in Hq2, Hdb2. cbn [fst snd] in Hq2, Hdb2.
  assert (Hrun : exists w',
             Api.refund_callback q w
             = (Ok {| Api.status := 200; Api.body := Api.BodyText "OK" |}, w')
             /\ conn w' = conn w2).
  { unfold Api.refund_callback.
    match goal with
    | |- context [try_catch ?m ?h] =>
        assert (Htry : exists w3, try_catch m h w = (Ok tt, w3)
                                  /\ conn w3 = conn w2)
    end.
    { unfold try_catch. fold (code_of q).
      rewrite (bind_ok _ _ _ _ _ Hq1). rewrite Hopen.
      unfold Api.date_now at 1. unfold bind at 1. rewrite Hclock1.
      fold (decision_of q).
      rewrite (bind_ok _ _ _ _ _ Hq2).
      match goal with
      | |- context [match ?m w2 with _ => _ end] =>
          assert (Hkeep : keeps_db m);
            [| destruct (m w2) as [[[] | e] w3] eqn:Hrest;
               destruct (Hkeep _ _ _ Hrest) as [Hc3 _]]
      end.
      - apply keeps_db_bind.
        { destruct (bool_decide _);
            (apply keeps_db_bind;
             [apply keeps_db_sendRefundNotification
             | intros; apply keeps_db_answerCallbackQuery]). }
        intros _. apply keeps_db_bind; [apply keeps_db_date_now |].
        intros ts. apply keeps_db_bind; [apply keeps_db_getBot |].
        intros [|]; [apply keeps_db_api | apply keeps_db_ret].
      - by exists w3.
      - destruct (answerCallbackQuery_run (Api.cq_id q) "❌ Ошибка обработки" w3)
          as (b & w4 & Ha & Hc4 & _).
        exists w4. rewrite (bind_ok _ _ _ _ _ Ha). split; [done | congruence]. }
    destruct Htry as (w3 & Htry & Hc3). exists w3.
    by rewrite (bind_ok _ _ _ _ _ Htry). }
  destruct Hrun as (w' & Hrun & Hc). exists w'. split; [exact Hrun |].
  rewrite Hc, Hdb2, Hdb1. cbn. do 3 (split; [reflexivity |]).
  unfold Api.select_refund. destruct (code_of q) as [c |] eqn:Hcode; [| done].
  apply Forall_forall. intros r Hr.
  apply list_elem_of_filter in Hr as [Hrc Hr].
  apply list_elem_of_fmap in Hr as (r0 & -> & _).
  destruct (bool_decide (Some (Db.rf_refund_code r0) = Some c)) eqn:Hb.
  - unfold decision_of. destruct (bool_decide (_ !! _ = _)); reflexivity.
  - apply bool_decide_eq_false_1 in Hb. congruence.
Qed.

Lemma refund_decision_is_recorded_witness :
  exists w',
    Api.refund_callback Sample2.approve_press
      (Sample.telegram_down
         (Sample.with_bot (Sample.world Sample2.tables_with_refunds Sample.no_faults)))
    = (Ok {| Api.status := 200; Api.body := Api.BodyText "OK" |}, w')
    /\ map Db.rf_status (Db.refund_links (db (conn w'))) = ["approved"; "approved"].
Proof.
  destruct (refund_decision_is_recorded Sample2.approve_press
              (Sample.telegram_down
                 (Sample.with_bot
                    (Sample.world Sample2.tables_with_refunds Sample.no_faults)))
              Sample2.refund_open []
              eq_refl (fun _ => eq_refl) ltac:(vm_compute; reflexivity) eq_refl)
    as (w' & Hrun & Hlinks & _).
  exists w'. split; [exact Hrun |]. rewrite Hlinks. reflexivity.
Defined.

(** X14. A callback that names no link changes nothing.  When no refund link
    has the code the callback names (or the data has no third part), the
    webhook changes no table and at most answers the callback query that
    the link was not found (the call to the database going through). *)
Theorem unknown_refund_changes_nothing q w :
  tx (conn w) = None ->
  db_fault (config w) (db_calls (conn w)) = false ->
  Api.select_refund (code_of q) (db (conn w)) = [] ->
  exists w',
    Api.refund_callback q w
    = (Ok {| Api.status := 200; Api.body := Api.BodyText "OK" |}, w')
    /\ db (conn w') = db (conn w)
    /\ (outbox (telegram w') = outbox (telegram w)
        \/ outbox (telegram w')
           = outbox (telegram w)
             ++ [AnswerCallbackQuery (Api.cq_id q) "❌ Ссылка не найдена"]).
Proof.
  intros Htx Hok Hsel.
  destruct (query_auto_run (fun d => (Api.select_refund (code_of q) d, d)) w Htx)
    as (w1 & Hq1 & _ & _ & _ & _ & Hdb1).
  destruct (only_db_query _ _ _ _ Hq1) as (_ & Htg1 & _).
  rewrite Hok in Hq1, Hdb1. cbn [fst snd] in Hq1, Hdb1. rewrite Hsel in Hq1.
  destruct (answerCallbackQuery_run (Api.cq_id q) "❌ Ссылка не найдена" w1)
    as (b & w2 & Ha & Hc2 & _ & Hout).
  exists w2. split; [| split; [congruence | by rewrite <- Htg1]].
  unfold Api.refund_callback. fold (code_of q).
  erewrite bind_ok; [reflexivity |].
  erewrite try_catch_ok; [reflexivity |].
  rewrite (bind_ok _ _ _ _ _ Hq1). by rewrite (bind_ok _ _ _ _ _ Ha).
Qed.

Lemma unknown_refund_changes_nothing_witness :
  exists w',
    Api.refund_callback Sample2.stray_press
      (Sample.with_bot (Sample.world Sample2.tables_with_refunds Sample.no_faults))
    = (Ok {| Api.status := 200; Api.body := Api.BodyText "OK" |}, w')
    /\ db (conn w') = Sample2.tables_with_refunds
    /\ outbox (telegram w')
       = [AnswerCallbackQuery (Js.JStr "cq3") "❌ Ссылка не найдена"].
Proof.
  destruct (unknown_refund_changes_nothing Sample2.stray_press
              (Sample.with_bot
                 (Sample.world Sample2.tables_with_refunds Sample.no_faults))
              eq_refl eq_refl eq_refl) as (w' & Hrun & Hdb & _).
  exists w'. split; [exact Hrun |]. split; [exact Hdb |].
  vm_compute in Hrun. by injection Hrun as <-.
Defined.

(** ** Strings: [split], decimal numbers and [parseInt] *)

Lemma append_nil_l (s : string) : "" +:+ s = s.
Proof. reflexivity. Qed.

Lemma split_go_free sep a cur :
  free_of sep a -> Js.split_go sep a cur = [cur +:+ a].
Proof.
  revert cur. induction a as [| c a IH]; intros cur Hfree; cbn.
  - by rewrite append_nil_r.
  - apply Forall_cons in Hfree as [Hc Hfree].
    rewrite (proj2 (Ascii.eqb_neq _ _) Hc), IH by done.
    by rewrite append_assoc.
Qed.

Lemma split_go_sep sep a b cur :
  free_of sep a ->
  Js.split_go sep (a +:+ String sep b) cur
  = (cur +:+ a) :: Js.split_go sep b "".
Proof.
  revert cur. induction a as [| c a IH]; intros cur Hfree.
  - rewrite append_nil_l. cbn. by rewrite Ascii.eqb_refl, append_nil_r.
  - apply Forall_cons in Hfree as [Hc Hfree]. rewrite append_cons. cbn.
    rewrite (proj2 (Ascii.eqb_neq _ _) Hc), IH by done.
    by rewrite append_assoc.
Qed.

Lemma free_of_app sep a b :
  free_of sep a -> free_of sep b -> free_of sep (a +:+ b).
Proof.
  intros Ha Hb. induction a as [| c a IH]; [by rewrite append_nil_l |].
  apply Forall_cons in Ha as [Hc Ha]. rewrite append_cons.
  unfold free_of. cbn [list_ascii_of_string]. constructor; [done |].
  by apply IH.
Qed.

(** The ten digits. *)
Lemma digit_cases c d :
  Js.digit_of c = Some d ->
  (c = "0"%char /\ d = 0) \/ (c = "1"%char /\ d = 1) \/ (c = "2"%char /\ d = 2)
  \/ (c = "3"%char /\ d = 3) \/ (c = "4"%char /\ d = 4)
  \/ (c = "5"%char /\ d = 5) \/ (c = "6"%char /\ d = 6)
  \/ (c = "7"%char /\ d = 7) \/ (c = "8"%char /\ d = 8)
  \/ (c = "9"%char /\ d = 9).
Proof.
  unfold Js.digit_of, Js.byte_of. intros H.
  destruct ((48 <=? Z.of_N (N_of_ascii c)) && (Z.of_N (N_of_ascii c) <=? 57)) eqn:E;
    [| done].
  injection H as <-. apply andb_true_iff in E as [E1 E2].
  apply Z.leb_le in E1, E2.
  rewrite <- (ascii_N_embedding c).
  assert (Hn : (N_of_ascii c = 48 \/ N_of_ascii c = 49 \/ N_of_ascii c = 50
                \/ N_of_ascii c = 51 \/ N_of_ascii c = 52 \/ N_of_ascii c = 53
                \/ N_of_ascii c = 54 \/ N_of_ascii c = 55 \/ N_of_ascii c = 56
                \/ N_of_ascii c = 57)%N) by lia.
  destruct Hn as [-> | [-> | [-> | [-> | [-> | [-> | [-> | [-> | [-> | ->]]]]]]]]];
    cbn; tauto.
Qed.

Lemma digit_of_pretty_N_char m :
  (m < 10)%N -> Js.digit_of (pretty_N_char m) = Some (Z.of_N m).
Proof.
  intros Hm.
  assert (Hc : (m = 0 \/ m = 1 \/ m = 2 \/ m = 3 \/ m = 4 \/ m = 5 \/ m = 6
                \/ m = 7 \/ m = 8 \/ m = 9)%N) by lia.
  by destruct Hc as [-> | [-> | [-> | [-> | [-> | [-> | [-> | [-> | [-> | ->]]]]]]]]].
Qed.

(** The digits of a positive number, as [pretty] writes them and as
    [parseInt] reads them back. *)
Lemma pretty_N_go_digits x :
  (0 < x)%N ->
  exists c t,
    (forall s, pretty_N_go x s = String c (t +:+ s))
    /\ is_digit c
    /\ Forall is_digit (list_ascii_of_string t)
    /\ (forall s seen,
          Js.digits 10 Js.digit_of (String c (t +:+ s)) seen 0
          = Js.digits 10 Js.digit_of s true (Z.of_N x)).
Proof.
  induction (N.lt_wf_0 x) as [x _ IH]. intros Hx.
  assert (Hm : (x `mod` 10 < 10)%N) by (by apply N.mod_lt).
  pose proof (digit_of_pretty_N_char _ Hm) as Hd.
  assert (Hval : Z.of_N x = Z.of_N (x `div` 10) * 10 + Z.of_N (x `mod` 10)).
  { rewrite (N.div_mod x 10) at 1 by done. lia. }
  destruct (N.eq_dec (x `div` 10)%N 0%N) as [Hq | Hq].
  - exists (pretty_N_char (x `mod` 10)), "".
    split; [| split; [by eexists | split; [done |]]].
    + intros s. by rewrite pretty_N_go_step, Hq, pretty_N_go_0.
    + intros s seen. rewrite append_nil_l. cbn [Js.digits].
      rewrite Hd. rewrite Hval, Hq. done.
  - destruct (IH (x `div` 10)%N) as (c & t & Hgo & Hc & Ht & Hread);
      [by apply N.div_lt | lia |].
    exists c, (t +:+ String (pretty_N_char (x `mod` 10)) "").
    split; [| split; [done | split]].
    + intros s. by rewrite pretty_N_go_step, Hgo, append_assoc by done.
    + clear -Ht Hd. induction t as [| a t IHt].
      * cbn. constructor; [by eexists | done].
      * apply Forall_cons in Ht as [Ha Ht]. rewrite append_cons.
        cbn [list_ascii_of_string]. constructor; [done |]. by apply IHt.
    + intros s seen. rewrite append_assoc, Hread, append_cons, append_nil_l.
      cbn [Js.digits]. rewrite Hd. by rewrite Hval.
Qed.

Lemma strip_ascii back c r :
  Js.ws1 (Js.byte_of c) = false -> Js.byte_of c < 128 ->
  Js.strip back (String c r) = String c r.
Proof.
  intros Hws Hc. cbn. rewrite Hws.
  destruct r as [| b r2]; [done |].
  assert (H2 : (if back then Js.ws2 (Js.byte_of b) (Js.byte_of c)
                else Js.ws2 (Js.byte_of c) (Js.byte_of b)) = false).
  { unfold Js.ws2. destruct back.
    - destruct (Z.eqb_spec (Js.byte_of c) 160); [lia |]. by rewrite andb_false_r.
    - by destruct (Z.eqb_spec (Js.byte_of c) 194); [lia |]. }
  rewrite H2. destruct r2 as [| a r3]; [done |].
  assert (H3 : (if back then Js.ws3 (Js.byte_of a) (Js.byte_of b) (Js.byte_of c)
                else Js.ws3 (Js.byte_of c) (Js.byte_of b) (Js.byte_of a)) = false).
  { unfold Js.ws3. destruct back.
    - destruct (Z.leb_spec 128 (Js.byte_of c)); [lia |].
      repeat match goal with
             | |- context [Js.byte_of c =? ?k] =>
                 destruct (Z.eqb_spec (Js.byte_of c) k); [lia |]
             end.
      by rewrite !andb_false_r.
    - repeat match goal with
             | |- context [Js.byte_of c =? ?k] =>
                 destruct (Z.eqb_spec (Js.byte_of c) k); [lia |]
             end.
      done. }
  by rewrite H3.
Qed.

(** [parseInt] on a text made of decimal digits reads it in base 10. *)
Lemma parseInt_string_digits c t :
  is_digit c -> Forall is_digit (list_ascii_of_string t) ->
  Js.parseInt_string (String c t)
  = match Js.digits 10 Js.digit_of (String c t) false 0 with
    | Some m => Some m
    | None => None
    end.
Proof.
  intros [d Hc] Ht. unfold Js.parseInt_string, Js.trimStart.
  destruct (digit_cases _ _ Hc)
    as [[-> _] | [[-> _] | [[-> _] | [[-> _] | [[-> _] | [[-> _] | [[-> _]
       | [[-> _] | [[-> _] | [-> _]]]]]]]]]];
    (rewrite strip_ascii by (by vm_compute)); try reflexivity.
  destruct t as [| c' t']; [reflexivity |].
  apply Forall_cons in Ht as [[d' Hc'] _].
  by destruct (digit_cases _ _ Hc')
    as [[-> _] | [[-> _] | [[-> _] | [[-> _] | [[-> _] | [[-> _] | [[-> _]
       | [[-> _] | [[-> _] | [-> _]]]]]]]]]].
Qed.

Lemma parseInt_string_neg_digits c t :
  is_digit c -> Forall is_digit (list_ascii_of_string t) ->
  Js.parseInt_string (String "-" (String c t))
  = match Js.digits 10 Js.digit_of (String c t) false 0 with
    | Some m => Some (- m)
    | None => None
    end.
Proof.
  intros [d Hc] Ht. unfold Js.parseInt_string, Js.trimStart.
  rewrite strip_ascii by (by vm_compute).
  destruct (digit_cases _ _ Hc)
    as [[-> _] | [[-> _] | [[-> _] | [[-> _] | [[-> _] | [[-> _] | [[-> _]
       | [[-> _] | [[-> _] | [-> _]]]]]]]]]]; try reflexivity.
  destruct t as [| c' t']; [reflexivity |].
  apply Forall_cons in Ht as [[d' Hc'] _].
  by destruct (digit_cases _ _ Hc')
    as [[-> _] | [[-> _] | [[-> _] | [[-> _] | [[-> _] | [[-> _] | [[-> _]
       | [[-> _] | [[-> _] | [-> _]]]]]]]]]].
Qed.

(** A number printed in decimal is read back by [parseInt]. *)
Lemma parseInt_pretty (z : Z) :
  Js.parseInt (Js.JNum z) = Some z /\ Js.parseInt (Js.JStr (pretty z)) = Some z.
Proof.
  assert (H : Js.parseInt_string (pretty z) = Some z); [| by split].
  destruct z as [| p | p].
  - reflexivity.
  - destruct (pretty_N_go_digits (N.pos p)) as (c & t & Hgo & Hc & Ht & Hread); [lia |].
    change (pretty (Z.pos p)) with (pretty_N_go (N.pos p) "").
    rewrite Hgo, append_nil_r.
    rewrite parseInt_string_digits by done.
    specialize (Hread "" false). rewrite append_nil_r in Hread.
    by rewrite Hread.
  - destruct (pretty_N_go_digits (N.pos p)) as (c & t & Hgo & Hc & Ht & Hread); [lia |].
    change (pretty (Z.neg p)) with ("-" +:+ pretty_N_go (N.pos p) "").
    rewrite Hgo, append_nil_r, append_cons, append_nil_l.
    rewrite parseInt_string_neg_digits by done.
    specialize (Hread "" false). rewrite append_nil_r in Hread.
    by rewrite Hread.
Qed.

Lemma digit_not_underscore c : is_digit c -> c <> "_"%char.
Proof. intros [d Hd] ->. by vm_compute in Hd. Qed.

Lemma pretty_free_of_underscore (z : Z) : free_of "_" (pretty z).
Proof.
  assert (Hpos : forall p, free_of "_" (pretty_N_go (N.pos p) "")).
  { intros p.
    destruct (pretty_N_go_digits (N.pos p)) as (c & t & Hgo & Hc & Ht & _); [lia |].
    rewrite Hgo, append_nil_r. unfold free_of. cbn [list_ascii_of_string].
    constructor; [by apply digit_not_underscore |].
    eapply Forall_impl; [exact Ht |]. apply digit_not_underscore. }
  destruct z as [| p | p].
  - by repeat constructor.
  - apply Hpos.
  - change (pretty (Z.neg p)) with ("-" +:+ pretty_N_go (N.pos p) "").
    rewrite append_cons, append_nil_l. unfold free_of.
    cbn [list_ascii_of_string]. constructor; [done | apply Hpos].
Qed.

(** ** The buttons and the webhook *)

(** X15. A press of a payment button names its order.  The callback data the
    notification service puts on the confirm and reject buttons of an
    order is read back by the webhook as that action and that order id,
    for every order id that JavaScript holds exactly (below 2^53 in
    magnitude): the data is cut at the underscore and the id, printed in
    decimal, is read back by [parseInt]. *)
Theorem order_button_round_trip action orderId :
  action = "confirm" \/ action = "reject" ->
  Z.abs orderId < 2 ^ 53 ->
  Keyboard.parse_order_callback (Keyboard.order_button action orderId)
  = (Some action, Some orderId).
Proof.
  intros Haction _.
  assert (Hfree : free_of "_" action).
  { destruct Haction as [-> | ->]; by repeat constructor. }
  unfold Keyboard.parse_order_callback, Keyboard.order_button, Js.split.
  rewrite append_cons, append_nil_l.
  rewrite split_go_sep, append_nil_l by done.
  rewrite split_go_free, append_nil_l by apply pretty_free_of_underscore.
  cbn [lookup list_lookup]. by rewrite (proj2 (parseInt_pretty orderId)).
Qed.

Lemma order_button_round_trip_witness :
  Keyboard.order_button "reject" 123 = "reject_123"
  /\ Keyboard.parse_order_callback "reject_123" = (Some "reject", Some 123).
Proof.
  split; [reflexivity |].
  apply (order_button_round_trip "reject" 123); [by right | by vm_compute].
Defined.

(** ** The refund and link codes *)

Lemma random_index_range32 (r : Q) :
  (0 <= r)%Q -> (r < 1)%Q -> 0 <= Codes.random_index r < 32.
Proof.
  intros H0 H1. unfold Codes.random_index.
  change (Z.of_nat (String.length Codes.chars)) with 32.
  split.
  - change 0 with (Qfloor (inject_Z 0)).
    apply Qfloor_resp_le. change (inject_Z 0) with (0 * inject_Z 32)%Q.
    apply Qmult_le_compat_r; [done | by compute].
  - assert (Hlt : (r * inject_Z 32 < inject_Z 32)%Q).
    { change (inject_Z 32) with (1 * inject_Z 32)%Q at 2.
      apply Qmult_lt_compat_r; [reflexivity | done]. }
    pose proof (Qfloor_le (r * inject_Z 32)) as Hfl.
    rewrite Zlt_Qlt.
    eapply Qle_lt_trans; eassumption.
Qed.

Lemma charAt_codes i :
  0 <= i < 32 ->
  exists c, Js.charAt Codes.chars i = String c EmptyString /\ code_char c.
Proof.
  intros Hi. unfold Js.charAt.
  destruct (Z.ltb_spec i 0) as [? | _]; [lia |].
  assert (Hn : (Z.to_nat i < 32)%nat) by lia.
  revert Hn. generalize (Z.to_nat i) as n. intros n Hn.
  do 32 (destruct n as [|n];
         [eexists; split; [reflexivity | unfold code_char; cbn; tauto] |]).
  lia.
Qed.

(** Whatever index is asked for, [charAt] on the alphabet gives no
    underscore: a character of the alphabet, or nothing. *)
Lemma charAt_codes_free i : free_of "_" (Js.charAt Codes.chars i).
Proof.
  unfold Js.charAt. destruct (i <? 0); [constructor |].
  generalize (Z.to_nat i) as n. intros n.
  do 32 (destruct n as [|n]; [by repeat constructor |]).
  constructor.
Qed.

Lemma codes_loop_format n result w :
  (forall i, (0 <= random (config w) i)%Q /\ (random (config w) i < 1)%Q) ->
  exists suffix w',
    Codes.generate_loop n result w = (Ok (result +:+ suffix), w')
    /\ String.length suffix = n
    /\ Forall code_char (list_ascii_of_string suffix)
    /\ conn w' = conn w /\ telegram w' = telegram w.
Proof.
  revert result w. induction n as [|n IH]; intros result w Hr;
    cbn [Codes.generate_loop].
  - exists "", w. split; [| done]. by rewrite append_nil_r.
  - unfold bind, CreateOrder.math_random at 1.
    destruct (Hr (random_calls w)) as [H0 H1].
    destruct (charAt_codes _ (random_index_range32 _ H0 H1)) as (c & -> & Hc).
    destruct (IH (result +:+ String c EmptyString)
                 (set_random_calls (S (random_calls w)) w) Hr)
      as (suffix & w' & -> & Hlen & Hall & Hconn & Htg).
    exists (String c suffix), w'. rewrite append_assoc, append_cons.
    split; [done |]. split; [cbn; by rewrite Hlen |].
    split; [by constructor | done].
Qed.

Lemma codes_loop_free n result w :
  free_of "_" result ->
  exists code w',
    Codes.generate_loop n result w = (Ok code, w') /\ free_of "_" code.
Proof.
  revert result w. induction n as [|n IH]; intros result w Hfree;
    cbn [Codes.generate_loop].
  - by exists result, w.
  - unfold bind, CreateOrder.math_random at 1.
    apply IH. apply free_of_app; [done | apply charAt_codes_free].
Qed.

(** X16. Refund codes and link codes.  Whatever [Math.random] draws (numbers
    of [0, 1)), [generateRefundCode] returns [RFD-] and
    [generateLinkCode] returns [LNK-], each followed by exactly 6
    characters of the 32-character alphabet (the capital letters without
    I and O, the digits without 0 and 1); neither touches the database
    or Telegram. *)
Theorem refund_and_link_codes_format w :
  (forall i, (0 <= random (config w) i)%Q /\ (random (config w) i < 1)%Q) ->
  exists code w1 link w2,
    Codes.generateRefundCode w = (Ok ("RFD-" +:+ code), w1)
    /\ Codes.generateLinkCode w = (Ok ("LNK-" +:+ link), w2)
    /\ String.length code = 6%nat
    /\ String.length link = 6%nat
    /\ Forall code_char (list_ascii_of_string code)
    /\ Forall code_char (list_ascii_of_string link)
    /\ conn w1 = conn w /\ conn w2 = conn w
    /\ telegram w1 = telegram w /\ telegram w2 = telegram w.
Proof.
  intros Hr.
  destruct (codes_loop_format 6 "RFD-" w Hr)
    as (code & w1 & Hrefund & ? & ? & ? & ?).
  destruct (codes_loop_format 6 "LNK-" w Hr)
    as (link & w2 & Hlink & ? & ? & ? & ?).
  by exists code, w1, link, w2.
Qed.

Lemma refund_and_link_codes_format_witness :
  exists code w1 link w2,
    Codes.generateRefundCode (Sample.world Sample.tables Sample.no_faults)
    = (Ok ("RFD-" +:+ code), w1)
    /\ Codes.generateLinkCode (Sample.world Sample.tables Sample.no_faults)
       = (Ok ("LNK-" +:+ link), w2)
    /\ String.length code = 6%nat
    /\ String.length link = 6%nat.
Proof.
  destruct (refund_and_link_codes_format
              (Sample.world Sample.tables Sample.no_faults))
    as (code & w1 & link & w2 & Hrefund & Hlink & ? & ? & _).
  - intros i. cbn. unfold Qle, Qlt. cbn.
    pose proof (Nat.mod_upper_bound (i * 7) 36). lia.
  - by exists code, w1, link, w2.
Defined.

(** X17. A press of a refund button names its link.  For every code that
    [generateRefundCode] returns, the callback data the notification
    service puts on the approve and reject buttons of the refund request
    is taken by the webhook for a refund callback, and read back as that
    code and that decision: the code holds no underscore, whatever
    [Math.random] draws. *)
Theorem refund_button_round_trip w code w' action q :
  Codes.generateRefundCode w = (Ok code, w') ->
  action = "approve" \/ action = "reject" ->
  Api.cq_data q = Keyboard.refund_button action code ->
  Js.startsWith "refund_" (Api.cq_data q) = true
  /\ code_of q = Some code
  /\ decision_of q = (if String.eqb action "approve" then "approved"
                      else "rejected").
Proof.
  intros Hgen Haction Hdata.
  assert (Hcode : free_of "_" code).
  { destruct (codes_loop_free 6 "RFD-" w) as (code0 & w0 & Hgen0 & Hfree).
    - by repeat constructor.
    - unfold Codes.generateRefundCode in Hgen. rewrite Hgen in Hgen0.
      by injection Hgen0 as <- <-. }
  assert (Hfree : free_of "_" action).
  { destruct Haction as [-> | ->]; by repeat constructor. }
  assert (Hsplit : Js.split "_" (Api.cq_data q) = ["refund"; action; code]).
  { rewrite Hdata. unfold Keyboard.refund_button, Js.split.
    change ("refund_" +:+ action +:+ "_" +:+ code)
      with ("refund" +:+ String "_" (action +:+ String "_" code)).
    rewrite split_go_sep, append_nil_l by (by repeat constructor).
    rewrite split_go_sep, append_nil_l by done.
    by rewrite split_go_free, append_nil_l. }
  unfold code_of, decision_of. rewrite Hsplit. cbn [lookup list_lookup].
  rewrite Hdata.
  destruct Haction as [-> | ->]; (split; [by vm_compute | by split]).
Qed.

Lemma refund_button_round_trip_witness :
  exists code w',
    Codes.generateRefundCode (Sample.world Sample.tables Sample.no_faults)
    = (Ok code, w')
    /\ code_of (Sample2.press_of "reject" code) = Some code
    /\ decision_of (Sample2.press_of "reject" code) = "rejected".
Proof.
  destruct (Codes.generateRefundCode (Sample.world Sample.tables Sample.no_faults))
    as [[code | e] w'] eqn:Hgen; [| by vm_compute in Hgen].
  exists code, w'. split; [reflexivity |].
  destruct (refund_button_round_trip
              (Sample.world Sample.tables Sample.no_faults) code w' "reject"
              (Sample2.press_of "reject" code) Hgen (or_intror eq_refl) eq_refl)
    as (_ & Hc & Hd).
  by split.
Defined.

(** ** [escapeMarkdown] *)

Lemma escapeMarkdown_plain text :
  Forall (fun c => Markdown.special c = false) (list_ascii_of_string text) ->
  Markdown.escapeMarkdown text = text.
Proof.
  induction text as [| c r IH]; [done |]. cbn [list_ascii_of_string].
  intros [Hc Hr]%Forall_cons. cbn [Markdown.escapeMarkdown].
  by rewrite Hc, IH.
Qed.

Lemma escapeMarkdown_backslash text i c :
  String.get i (Markdown.escapeMarkdown text) = Some c ->
  Markdown.special c = true ->
  exists j, i = S j
            /\ String.get j (Markdown.escapeMarkdown text) = Some "\"%char.
Proof.
  revert i. induction text as [| a r IH]; intros i; [by destruct i |].
  cbn [Markdown.escapeMarkdown].
  destruct (Markdown.special a) eqn:Ha.
  - destruct i as [| [| k]]; cbn [String.get].
    + intros [= <-] Hc. by vm_compute in Hc.
    + intros _ _. by exists 0%nat.
    + intros Hget Hc. destruct (IH k Hget Hc) as (j & -> & Hj).
      by exists (S (S j)).
  - destruct i as [| k]; cbn [String.get].
    + intros [= <-] Hc. congruence.
    + intros Hget Hc. destruct (IH k Hget Hc) as (j & -> & Hj).
      by exists (S j).
Qed.

Lemma escapeMarkdown_inj s t :
  Markdown.escapeMarkdown s = Markdown.escapeMarkdown t -> s = t.
Proof.
  assert (Hhead : forall c r u,
            Markdown.special c = true ->
            Markdown.escapeMarkdown u <> String c r).
  { intros c r [| a u] Hc; cbn [Markdown.escapeMarkdown]; [done |].
    destruct (Markdown.special a) eqn:Ha.
    - intros [= <- _]. by vm_compute in Hc.
    - intros [= -> _]. congruence. }
  revert t. induction s as [| c s IH]; intros [| d t]; cbn [Markdown.escapeMarkdown].
  - done.
  - by destruct (Markdown.special d).
  - by destruct (Markdown.special c).
  - destruct (Markdown.special c) eqn:Hc, (Markdown.special d) eqn:Hd.
    + intros [= -> Heq]. by rewrite (IH _ Heq).
    + intros [= <- Heq]. symmetry in Heq. by apply Hhead in Heq.
    + intros [= -> Heq]. by apply Hhead in Heq.
    + intros [= -> Heq]. by rewrite (IH _ Heq).
Qed.

(** X18. What [escapeMarkdown] does to a text.  A text without any of the
    eighteen characters [_*[]()~`>#+=|{}.!-] comes back unchanged; in
    the text returned, each of these characters stands right after a
    backslash; and the escaping loses nothing: two texts with the same
    escaped form are the same text. *)
Theorem escapeMarkdown_escapes :
  (forall text,
     Forall (fun c => Markdown.special c = false) (list_ascii_of_string text) ->
     Markdown.escapeMarkdown text = text)
  /\ (forall text i c,
        String.get i (Markdown.escapeMarkdown text) = Some c ->
        Markdown.special c = true ->
        exists j, i = S j
                  /\ String.get j (Markdown.escapeMarkdown text) = Some "\"%char)
  /\ (forall s t, Markdown.escapeMarkdown s = Markdown.escapeMarkdown t -> s = t).
Proof.
  split; [apply escapeMarkdown_plain |].
  split; [apply escapeMarkdown_backslash | apply escapeMarkdown_inj].
Qed.

Lemma escapeMarkdown_escapes_witness :
  Markdown.escapeMarkdown "Anna Maria" = "Anna Maria"
  /\ (exists j, 3%nat = S j
                /\ String.get j (Markdown.escapeMarkdown "St. Petersburg (LED)")
                   = Some "\"%char).
Proof.
  destruct escapeMarkdown_escapes as (Hplain & Hback & _). split.
  - apply Hplain. by repeat constructor.
  - apply (Hback "St. Petersburg (LED)" 3%nat "."%char); reflexivity.
Defined.

(** ** The administrator's session *)

Lemma prefix_append p s : String.prefix p (p +:+ s) = true.
Proof.
  induction p as [| a p IH]; [by destruct s |].
  rewrite append_cons. cbn. by destruct (ascii_dec a a).
Qed.

Lemma prefix_substring_from p h :
  String.prefix p h = true ->
  h = p +:+ AdminApi.substring_from (String.length p) h.
Proof.
  revert h. induction p as [| a p IH]; intros h; [by destruct h |].
  destruct h as [| b h]; [done |]. cbn.
  destruct (ascii_dec a b) as [-> |]; [| done].
  intros Hp. by rewrite append_cons, <- (IH _ Hp).
Qed.

(** X19. A login opens a session that the session check accepts.  When the
    request carries the administrator's password, the login route
    answers with status 200 and the token, without touching the
    database; from then on, as long as the session map keeps the entry
    and at most 24 hours have passed, the session check answers a
    request that carries the token as a bearer token with status 200 and
    [valid] true, and changes nothing. *)
Theorem login_opens_a_session password body token w :
  password <> "" ->
  Js.getProp body "password" = Some (Js.JStr password) ->
  0 <= clock w ->
  exists w1,
    AdminApi.verify_password (Some password) (Some body) token w
    = (Ok {| AdminApi.status := 200; AdminApi.body := AdminApi.Token token |}, w1)
    /\ conn w1 = conn w
    /\ forall w2,
         adminSessionTokens w2 !! token = adminSessionTokens w1 !! token ->
         clock w <= clock w2 <= clock w + Admin.session_ms ->
         AdminApi.validate_session (Some ("Bearer " +:+ token)) w2
         = (Ok {| AdminApi.status := 200; AdminApi.body := AdminApi.Valid true |},
            w2).
Proof.
  intros Hne Hpw Hclock. eexists. split; [| split].
  - unfold AdminApi.verify_password.
    erewrite try_catch_ok; [reflexivity |].
    rewrite bind_ret. unfold Api.prop. rewrite Hpw, bind_ret.
    assert (Hcfg : TelegramAdmin.configured (Some password) = Some password)
      by (by destruct password).
    rewrite Hcfg, String.eqb_refl.
    unfold bind, Admin.generateAdminToken, ret. reflexivity.
  - reflexivity.
  - intros w2 Hmap Hnow. cbn [adminSessionTokens set_adminSessionTokens] in Hmap.
    rewrite lookup_insert_eq in Hmap.
    unfold AdminApi.validate_session.
    erewrite try_catch_ok; [reflexivity |].
    assert (Hempty : String.eqb ("Bearer " +:+ token) "" = false) by done.
    rewrite Hempty. unfold Js.startsWith. rewrite prefix_append. cbn [orb negb].
    change (AdminApi.substring_from 7 ("Bearer " +:+ token)) with token.
    assert (Hvalid : Admin.isValidAdminToken token w2 = (Ok true, w2)).
    { unfold Admin.isValidAdminToken. rewrite Hmap.
      unfold Admin.session_ms in *.
      destruct (Z.eqb_spec (clock w + 24 * 60 * 60 * 1000) 0); [lia |].
      by destruct (Z.ltb_spec (clock w + 24 * 60 * 60 * 1000) (clock w2)); [lia |]. }
    by rewrite (bind_ok _ _ _ _ _ Hvalid).
Qed.

Lemma login_opens_a_session_witness :
  exists w1,
    AdminApi.verify_password (Some "s3cret") (Some (Sample2.login "s3cret")) "tok"
      (Sample.world Sample.tables Sample.no_faults)
    = (Ok {| AdminApi.status := 200; AdminApi.body := AdminApi.Token "tok" |}, w1)
    /\ AdminApi.validate_session (Some "Bearer tok") (set_clock 1700000360000 w1)
       = (Ok {| AdminApi.status := 200; AdminApi.body := AdminApi.Valid true |},
          set_clock 1700000360000 w1).
Proof.
  destruct (login_opens_a_session "s3cret" (Sample2.login "s3cret") "tok"
              (Sample.world Sample.tables Sample.no_faults))
    as (w1 & Hlogin & _ & Hcheck); [done | reflexivity | by vm_compute |].
  exists w1. split; [exact Hlogin |].
  apply (Hcheck (set_clock 1700000360000 w1)); [reflexivity |].
  by vm_compute.
Defined.

(** X20. No session without the password.  The login route never raises; it
    answers with status 200 only when ADMIN_PASSWORD is set, not empty,
    and the [password] of the request is that very text, and then it
    returns the token it stored; with any other answer (401 for a wrong
    password, 500 when no password is configured or the request cannot
    be read) the world, and so the session map, is as it was. *)
Theorem no_session_without_password admin request token w :
  exists resp w',
    AdminApi.verify_password admin request token w = (Ok resp, w')
    /\ (AdminApi.status resp = 200 ->
        exists body password,
          request = Some body /\ admin = Some password /\ password <> ""
          /\ Js.getProp body "password" = Some (Js.JStr password)
          /\ AdminApi.body resp = AdminApi.Token token
          /\ adminSessionTokens w' !! token = Some (clock w + Admin.session_ms))
    /\ (AdminApi.status resp <> 200 -> w' = w).
Proof.
  unfold AdminApi.verify_password, try_catch.
  destruct request as [body |]; [| by eexists _, _].
  rewrite bind_ret. unfold Api.prop.
  destruct (Js.getProp body "password") as [v |] eqn:Hv; [| by eexists _, _].
  rewrite bind_ret.
  destruct admin as [p |]; [| by eexists _, _].
  destruct (TelegramAdmin.configured (Some p)) as [adminPassword |] eqn:Hcfg;
    [| by eexists _, _].
  assert (Hp : adminPassword = p /\ p <> "").
  { destruct p; [done |]. by injection Hcfg as <-. }
  destruct Hp as [-> Hne].
  destruct v as [| | | | s | |]; try (by eexists _, _).
  destruct (String.eqb_spec s p) as [-> | Hs]; [| by eexists _, _].
  eexists _, _. split; [reflexivity |]. split; [| done].
  intros _. exists body, p. do 5 (split; [done |]).
  cbn. by rewrite lookup_insert_eq.
Qed.

Lemma no_session_without_password_witness :
  AdminApi.verify_password (Some "s3cret") (Some (Sample2.login "guess")) "tok"
    (Sample.world Sample.tables Sample.no_faults)
  = (Ok {| AdminApi.status := 401;
           AdminApi.body := AdminApi.Failure "Неверный пароль" |},
     Sample.world Sample.tables Sample.no_faults).
Proof.
  destruct (no_session_without_password (Some "s3cret")
              (Some (Sample2.login "guess")) "tok"
              (Sample.world Sample.tables Sample.no_faults))
    as (resp & w' & Hrun & _ & Hsame).
  rewrite Hrun. vm_compute in Hrun. injection Hrun as <- <-. reflexivity.
Defined.

(** X21. The session check.  The route never raises and answers with status
    200 or 401; it answers 200 only to a header made of [Bearer ] and a
    token that the session map holds with an expiry not yet passed, and
    then changes nothing; and it never touches the database. *)
Theorem session_check_needs_a_live_token authHeader w :
  exists resp w',
    AdminApi.validate_session authHeader w = (Ok resp, w')
    /\ (AdminApi.status resp = 200 \/ AdminApi.status resp = 401)
    /\ AdminApi.body resp = AdminApi.Valid (AdminApi.status resp =? 200)
    /\ conn w' = conn w
    /\ (AdminApi.status resp = 200 ->
        w' = w
        /\ exists token expiry,
             authHeader = Some ("Bearer " +:+ token)
             /\ adminSessionTokens w !! token = Some expiry
             /\ clock w <= expiry).
Proof.
  assert (Hno : forall w0 : World,
            exists resp w',
              (Ok {| AdminApi.status := 401; AdminApi.body := AdminApi.Valid false |},
               w0) = (Ok resp, w')
              /\ (AdminApi.status resp = 200 \/ AdminApi.status resp = 401)
              /\ AdminApi.body resp = AdminApi.Valid (AdminApi.status resp =? 200)
              /\ conn w' = conn w0
              /\ (AdminApi.status resp = 200 ->
                  w' = w0
                  /\ exists token expiry,
                       authHeader = Some ("Bearer " +:+ token)
                       /\ adminSessionTokens w !! token = Some expiry
                       /\ clock w <= expiry)).
  { intros w0. eexists _, _. split; [reflexivity |]. cbn.
    split; [by right |]. by do 3 (split; [done |]). }
  unfold AdminApi.validate_session, try_catch.
  destruct authHeader as [h |]; [| apply Hno].
  destruct (String.eqb h "" || negb (Js.startsWith "Bearer " h)) eqn:Hh;
    [apply Hno |].
  apply orb_false_iff in Hh as [_ Hpre]. apply negb_false_iff in Hpre.
  apply prefix_substring_from in Hpre. cbn [String.length] in Hpre.
  set (token := AdminApi.substring_from 7 h) in *.
  unfold bind, Admin.isValidAdminToken.
  destruct (adminSessionTokens w !! token) as [expiry |] eqn:Hmap; [| apply Hno].
  destruct (Z.eqb_spec expiry 0); [apply Hno |].
  destruct (Z.ltb_spec expiry (clock w)).
  { eexists _, _. split; [reflexivity |]. cbn.
    split; [by right |]. by do 3 (split; [done |]). }
  eexists _, _. cbn. split; [reflexivity |]. split; [by left |].
  do 2 (split; [done |]).
  intros _. split; [done |]. exists token, expiry.
  split; [by rewrite <- Hpre | done].
Qed.

Lemma session_check_needs_a_live_token_witness :
  AdminApi.validate_session (Some "Basic tok")
    (Sample.world Sample.tables Sample.no_faults)
  = (Ok {| AdminApi.status := 401; AdminApi.body := AdminApi.Valid false |},
     Sample.world Sample.tables Sample.no_faults).
Proof.
  destruct (session_check_needs_a_live_token (Some "Basic tok")
              (Sample.world Sample.tables Sample.no_faults))
    as (resp & w' & Hrun & _).
  rewrite Hrun. vm_compute in Hrun. injection Hrun as <- <-. reflexivity.
Defined.

(** ** More on the order tools and the notification service *)

(** X22. An order without an event returns no seats.  When the order the
    tool finds has no [event_id] (an order placed through a generated
    link), rejecting its payment or cancelling it updates the order and
    changes no event: the statement that returns the seats finds no row
    (the database being reachable and no call to it failing). *)
Theorem order_without_event_returns_no_seats ctx wh w row rest :
  ManageOrder.action ctx = ManageOrder.RejectPayment
  \/ ManageOrder.action ctx = ManageOrder.Cancel ->
  ManageOrder.where_of ctx = Some wh ->
  tx (conn w) = None ->
  (getPool ToolManageOrder w).1 = Ok true ->
  (forall n, db_fault (config w) n = false) ->
  find_order wh (db (conn w)) = row :: rest ->
  Db.o_event_id (ManageOrder.row_order row) = None ->
  exists res w',
    ManageOrder.execute ctx w = (Ok res, w')
    /\ ManageOrder.success res = true
    /\ Db.events (db (conn w')) = Db.events (db (conn w))
    /\ Forall (fun x => Db.o_id x = Db.o_id (ManageOrder.row_order row) ->
                        Db.o_status x
                        = match ManageOrder.action ctx with
                          | ManageOrder.Cancel => "cancelled"
                          | _ => "rejected"
                          end)
              (Db.orders (db (conn w'))).
Proof.
  intros Hact Hwh Htx Hpool Hok Hfind Hnull.
  destruct (manage_run ctx wh w row rest Hwh Htx Hpool Hok Hfind)
    as (res & w' & Hrun & Hs & _ & Hdb & _).
  exists res, w'. split; [done |]. split; [done |].
  assert (Hid : forall n (l : list Db.Event),
            map (fun e => if Db.col_is None (Db.ev_id e)
                          then Db.set_available_seats (Db.ev_available_seats e + n) e
                          else e) l = l).
  { intros n l. induction l as [| e l IH]; [done |].
    cbn [map]. by rewrite IH. }
  rewrite Hdb.
  destruct Hact as [-> | ->]; unfold managed; rewrite Hnull;
    [| destruct (bool_decide _)];
    cbn [Db.add_seats Db.set_events Db.events Db.orders
         Db.update_order_status Db.set_orders];
    rewrite ?Hid; (split; [done |]);
    apply Forall_forall; intros x Hx Hx';
    apply list_elem_of_fmap in Hx as (y & -> & _);
    by destruct (Z.eqb_spec (Db.o_id y) (Db.o_id (ManageOrder.row_order row))).
Qed.

Lemma order_without_event_returns_no_seats_witness :
  exists res w',
    ManageOrder.execute Sample.reject7
      (Sample.world Sample2.tables_with_link_order Sample.no_faults) = (Ok res, w')
    /\ ManageOrder.success res = true
    /\ map Db.ev_available_seats (Db.events (db (conn w'))) = [3].
Proof.
  destruct (order_without_event_returns_no_seats Sample.reject7 (ManageOrder.ById 7)
              (Sample.world Sample2.tables_with_link_order Sample.no_faults)
              Sample2.link_row7 []
              (or_introl eq_refl) eq_refl eq_refl eq_refl (fun _ => eq_refl)
              ltac:(vm_compute; reflexivity) eq_refl)
    as (res & w' & Hrun & Hs & Hev & _).
  exists res, w'. by rewrite Hev.
Defined.



(** X24. The channel notification tells whether it went out.
    [sendChannelNotification] never raises and touches neither the
    database nor the configuration.  When it returns true, exactly one
    message, the notification of the order, has been added to what
    Telegram received, addressed to the group if TELEGRAM_GROUP_ID is set
    and to the administrator otherwise; when it returns false, Telegram
    received nothing. *)
Theorem channel_notification_reports_delivery order w :
  exists sent w',
    TelegramAdmin.sendChannelNotification order w = (Ok sent, w')
    /\ conn w' = conn w /\ config w' = config w
    /\ (sent = false -> outbox (telegram w') = outbox (telegram w))
    /\ (sent = true ->
        exists chat,
          match TelegramAdmin.configured (GROUP_ID (env (config w))) with
          | Some g => chat = g
          | None =>
              TelegramAdmin.configured (ADMIN_CHAT_ID (env (config w))) = Some chat
          end
          /\ outbox (telegram w')
             = outbox (telegram w) ++ [SendMessage chat (ChannelOrderMessage order)]).
Proof.
  destruct (getBot_run w) as (b & w1 & Hb & Hc1 & Hcfg1 & Hn1 & Ho1).
  unfold TelegramAdmin.sendChannelNotification. rewrite (bind_ok _ _ _ _ _ Hb).
  destruct b; cbn [negb]; [| exists false, w1; by rewrite Ho1].
  rewrite Hcfg1.
  destruct (TelegramAdmin.configured (GROUP_ID (env (config w)))) as [g |] eqn:Hg.
  - destruct (send_run (SendMessage g (ChannelOrderMessage order)) w1)
      as (w2 & Hs & Hc2 & Hcfg2 & Ho2).
    eexists _, w2. split; [exact Hs |].
    split; [congruence |]. split; [congruence |].
    rewrite Ho2, Ho1. destruct (tg_fault _ _); cbn; split; try done.
    intros _. by exists g.
  - destruct (TelegramAdmin.configured (ADMIN_CHAT_ID (env (config w))))
      as [a |] eqn:Ha; [| exists false, w1; by rewrite Ho1].
    destruct (send_run (SendMessage a (ChannelOrderMessage order)) w1)
      as (w2 & Hs & Hc2 & Hcfg2 & Ho2).
    eexists _, w2. split; [exact Hs |].
    split; [congruence |]. split; [congruence |].
    rewrite Ho2, Ho1. destruct (tg_fault _ _); cbn; split; try done.
    intros _. by exists a.
Qed.

Lemma channel_notification_reports_delivery_witness :
  exists w',
    TelegramAdmin.sendChannelNotification Sample2.notice
      (Sample.with_bot (Sample.world Sample.tables Sample.no_faults))
    = (Ok true, w')
    /\ outbox (telegram w')
       = [SendMessage "-2002" (ChannelOrderMessage Sample2.notice)].
Proof.
  destruct (channel_notification_reports_delivery Sample2.notice
              (Sample.with_bot (Sample.world Sample.tables Sample.no_faults)))
    as (sent & w' & Hrun & _ & _ & _ & Htrue).
  assert (Hsent : sent = true).
  { vm_compute in Hrun. by injection Hrun as <-. }
  subst sent. exists w'. split; [exact Hrun |].
  destruct (Htrue eq_refl) as (chat & Hchat & Hout).
  vm_compute in Hchat. subst chat. exact Hout.
Defined.

(** X25. Refund notifications go to the group only.
    [sendRefundApprovedNotification] and [sendRefundRejectedNotification]
    never raise and touch neither the database nor the configuration;
    they return true exactly when their message was added to what
    Telegram received, addressed to the group; without
    TELEGRAM_GROUP_ID they return false and send nothing, whether or not
    the administrator's chat is configured. *)
Theorem refund_notifications_go_to_the_group r w :
  (exists sent w',
     TelegramAdmin.sendRefundApprovedNotification r w = (Ok sent, w')
     /\ conn w' = conn w /\ config w' = config w
     /\ outbox (telegram w')
        = match sent, TelegramAdmin.configured (GROUP_ID (env (config w))) with
          | true, Some g =>
              outbox (telegram w) ++ [SendMessage g (RefundApprovedMessage r)]
          | _, _ => outbox (telegram w)
          end
     /\ (TelegramAdmin.configured (GROUP_ID (env (config w))) = None ->
         sent = false))
  /\ (exists sent w',
        TelegramAdmin.sendRefundRejectedNotification r w = (Ok sent, w')
        /\ conn w' = conn w /\ config w' = config w
        /\ outbox (telegram w')
           = match sent, TelegramAdmin.configured (GROUP_ID (env (config w))) with
             | true, Some g =>
                 outbox (telegram w) ++ [SendMessage g (RefundRejectedMessage r)]
             | _, _ => outbox (telegram w)
             end
        /\ (TelegramAdmin.configured (GROUP_ID (env (config w))) = None ->
            sent = false)).
Proof.
  assert (Hsend : forall m,
            exists sent w',
              TelegramAdmin.sendRefundNotification m w = (Ok sent, w')
              /\ conn w' = conn w /\ config w' = config w
              /\ outbox (telegram w')
                 = match sent, TelegramAdmin.configured (GROUP_ID (env (config w))) with
                   | true, Some g => outbox (telegram w) ++ [SendMessage g m]
                   | _, _ => outbox (telegram w)
                   end
              /\ (TelegramAdmin.configured (GROUP_ID (env (config w))) = None ->
                  sent = false)).
  { intros m.
    destruct (getBot_run w) as (b & w1 & Hb & Hc1 & Hcfg1 & Hn1 & Ho1).
    unfold TelegramAdmin.sendRefundNotification. rewrite (bind_ok _ _ _ _ _ Hb).
    rewrite Hcfg1.
    destruct b, (TelegramAdmin.configured (GROUP_ID (env (config w)))) as [g |];
      try (exists false, w1; by rewrite Ho1).
    destruct (send_run (SendMessage g m) w1) as (w2 & Hs & Hc2 & Hcfg2 & Ho2).
    eexists _, w2. split; [exact Hs |].
    split; [congruence |]. split; [congruence |].
    rewrite Ho2, Ho1. by destruct (tg_fault _ _). }
  split; apply Hsend.
Qed.

Lemma refund_notifications_go_to_the_group_witness :
  exists w',
    TelegramAdmin.sendRefundApprovedNotification Sample2.refund_notice
      (Sample.with_bot (Sample.world Sample.tables Sample.no_faults))
    = (Ok true, w')
    /\ outbox (telegram w')
       = [SendMessage "-2002" (RefundApprovedMessage Sample2.refund_notice)].
Proof.
  destruct (proj1 (refund_notifications_go_to_the_group Sample2.refund_notice
                     (Sample.with_bot (Sample.world Sample.tables Sample.no_faults))))
    as (sent & w' & Hrun & _ & _ & Hout & _).
  assert (Hsent : sent = true).
  { vm_compute in Hrun. by injection Hrun as <-. }
  subst sent. exists w'. split; [exact Hrun | exact Hout].
Defined.

(** X26. A request that cannot be read is answered with 500.  When the
    body of a request to [/api/create-order] is not JSON, or is [null],
    or passes the validation but carries a [customerEmail] that is
    neither absent nor a text, the handler answers with status 500 and
    [success] false, and nothing is sent to the database: the world is
    as it was. *)
Theorem unreadable_request_answers_500 w :
  let failed :=
    (Ok (Api.json_status (Api.BodyMessage false "Ошибка при создании заказа") 500),
     w) in
  Api.create_order None w = failed
  /\ Api.create_order (Some Js.JNull) w = failed
  /\ (forall body name phone n seats k email,
        Js.getProp body "eventId" = Some (Js.JNum n) -> n <> 0 ->
        Js.getProp body "customerName" = Some (Js.JStr name) ->
        2 <= Js.js_length (Js.trim name) ->
        Js.getProp body "customerPhone" = Some (Js.JStr phone) ->
        5 <= Js.js_length (Js.trim phone) ->
        Js.getProp body "seatsCount" = Some seats ->
        Js.parseInt seats = Some k -> 1 <= k <= 10 ->
        Js.getProp body "customerEmail" = Some email ->
        Js.typeof email = Js.TNumber \/ Js.typeof email = Js.TBoolean
        \/ (exists l, email = Js.JArr l) \/ (exists f, email = Js.JObj f) ->
        Api.create_order (Some body) w = failed).
Proof.
  cbn zeta. split; [reflexivity |]. split; [reflexivity |].
  intros body name phone n seats k email Hid Hn Hname Hlen Hphone Hplen Hseats
    Hparse Hk Hemail Hty.
  assert (Hbody : Js.getProp body "eventId" <> None) by congruence.
  assert (Hfield : forall key v,
            Js.getProp body key = Some v -> field body key = v).
  { intros key v Hkey. unfold field. by rewrite Hkey. }
  unfold Api.create_order. erewrite try_catch_throw; [reflexivity |].
  rewrite bind_ret. erewrite bind_throw; [reflexivity |].
  unfold Api.validate.
  rewrite (prop_field _ "eventId" _ Hbody), bind_ret, (Hfield _ _ Hid).
  cbn [Js.truthy Js.typeof].
  rewrite (proj2 (Z.eqb_neq _ _) Hn). cbn [negb orb bool_decide].
  rewrite bool_decide_eq_true_2 by done. cbn [negb].
  rewrite (prop_field _ "customerName" _ Hbody), bind_ret, (Hfield _ _ Hname).
  assert (Hn0 : String.eqb name "" = false).
  { destruct name; [| done]. by vm_compute in Hlen. }
  cbn [Js.truthy Api.too_short]. rewrite Hn0. cbn [negb orb].
  rewrite (proj2 (Z.ltb_ge _ _) Hlen).
  rewrite (prop_field _ "customerPhone" _ Hbody), bind_ret, (Hfield _ _ Hphone).
  assert (Hp0 : String.eqb phone "" = false).
  { destruct phone; [| done]. by vm_compute in Hplen. }
  cbn [Js.truthy Api.too_short]. rewrite Hp0. cbn [negb orb].
  rewrite (proj2 (Z.ltb_ge _ _) Hplen).
  rewrite (prop_field _ "seatsCount" _ Hbody), bind_ret, (Hfield _ _ Hseats).
  rewrite Hparse.
  destruct (Z.ltb_spec k 1) as [? | _]; [lia |].
  destruct (Z.ltb_spec 10 k) as [? | _]; [lia |]. cbn [orb].
  rewrite (prop_field _ "customerEmail" _ Hbody), bind_ret, (Hfield _ _ Hemail).
  erewrite bind_throw; [reflexivity |].
  destruct Hty as [Hty | [Hty | [[l ->] | [f ->]]]]; try reflexivity;
    destruct email; try discriminate Hty; reflexivity.
Qed.

Lemma unreadable_request_answers_500_witness :
  Api.create_order (Some Sample2.request_with_bad_email)
    (Sample.world Sample.tables Sample.no_faults)
  = (Ok (Api.json_status (Api.BodyMessage false "Ошибка при создании заказа") 500),
     Sample.world Sample.tables Sample.no_faults).
Proof.
  apply (proj2 (proj2 (unreadable_request_answers_500
                         (Sample.world Sample.tables Sample.no_faults)))
           Sample2.request_with_bad_email "Ann" "12345" 1 (Js.JNum 1) 1
           (Js.JNum 5));
    try reflexivity; try done.
  by left.
Defined.
